(** * PremiumWebSuite: commission ledger, withdrawals, coupons, referral
      resolution, LGPD erasure and the central error translator.

    A shallow embedding of the back-end request handlers.  The Prisma
    client is modelled as an explicit database record that every handler
    reads and returns; a [throw] leaves the writes made so far in place
    (only [prisma.$transaction] rolls back).  Tables with a unique lookup
    key ([bankData.userId], [coupon.code], [userCoupon.(userId,couponId)],
    [subscription.userId], [address.userId]) are finite maps on that key;
    the other tables are lists of rows in insertion order.

    Money is a rational [Q]: a [Decimal] value is itself, a JSON number
    is its decimal form.  The withdraw route stores its amount as the
    [Decimal(10,2)] column does, rounded to two decimals or refused
    when out of range; the order and coupon handlers compute with the
    amounts as they are, without the rounding of doubles and columns.
    [DateTime] is a number of milliseconds [Z].  A request body is
    taken at the types its handler uses it at (a string for a status
    or a code, [None] for a missing member); the amount of a withdraw
    request, which no schema checks, is a number or a string.  The
    tables are those of schema.prisma: a delegate of the client for a
    model that the schema does not declare is [undefined], and the
    call of one of its methods throws a [TypeError].  Handlers behind
    [authenticate] receive [req.user.id]. *)

From Stdlib Require Import QArith Qminmax ZArith Lia Lqa Ascii String DecimalString.
From stdpp Require Import base option list gmap strings.

Local Open Scope Z_scope.
Local Open Scope string_scope.

(** ** Thrown values and the handler monad *)

(** What [errorHandler] can observe of a thrown value. *)
Module Err.

(** The constructor chain tested with [instanceof]. *)
Inductive Class :=
| PlainError                      (* new Error(..) and subclasses not listed below *)
| PlainObject                     (* throw { name, message, .. } *)
| SyntaxErrorClass
| PrismaClientKnownRequestError
| PrismaClientValidationError
| PrismaClientInitializationError.

Record t := mk {
  class : Class;
  name : string;
  message : string;
  statusCode : option Z;          (* None: no 'statusCode' property *)
  code : option string;           (* error.code (Prisma, multer) *)
  metaTarget : option string;     (* error.meta?.target *)
  hasBody : bool;                 (* 'body' in error *)
  stack : option string
}.

Definition class_eqb (a b : Class) : bool :=
  match a, b with
  | PlainError, PlainError
  | PlainObject, PlainObject
  | SyntaxErrorClass, SyntaxErrorClass
  | PrismaClientKnownRequestError, PrismaClientKnownRequestError
  | PrismaClientValidationError, PrismaClientValidationError
  | PrismaClientInitializationError, PrismaClientInitializationError => true
  | _, _ => false
  end.

(** [new Error(message)] *)
Definition newError (msg : string) : t :=
  mk PlainError "Error" msg None None None false None.

(** A Prisma request failure with the given error code. *)
Definition prisma (c : string) (target : option string) : t :=
  mk PrismaClientKnownRequestError "PrismaClientKnownRequestError"
     "prisma request failed" None (Some c) target false None.

End Err.

(** [createError] of middleware/errorHandler.ts; the default of
    [statusCode] is 500. *)
Definition createError (msg : string) (statusCode : Z) : Err.t :=
  Err.mk Err.PlainError "Error" msg (Some statusCode) None None false None.

Inductive outcome (A : Type) :=
| Return (a : A)
| Throw (e : Err.t).
Arguments Return {A} a.
Arguments Throw {A} e.

Section Monad.
Context {S : Type}.

(** A computation over the store [S] that may throw. *)
Definition M (A : Type) : Type := S -> outcome A * S.

Definition ret {A} (a : A) : M A := fun s => (Return a, s).
Definition throw {A} (e : Err.t) : M A := fun s => (Throw e, s).
Definition bind {A B} (m : M A) (k : A -> M B) : M B :=
  fun s => match m s with
           | (Return a, s') => k a s'
           | (Throw e, s') => (Throw e, s')
           end.
Definition get : M S := fun s => (Return s, s).
Definition modify (f : S -> S) : M unit := fun s => (Return tt, f s).

(** [try { m } catch (e) { h e }] *)
Definition try_catch {A} (m : M A) (h : Err.t -> M A) : M A :=
  fun s => match m s with
           | (Return a, s') => (Return a, s')
           | (Throw e, s') => h e s'
           end.
End Monad.
Arguments M S A : clear implicits.

Declare Scope handler_scope.
Delimit Scope handler_scope with handler.
Notation "x <- m ;; k" := (bind m (fun x => k))
  (at level 100, m at next level, right associativity) : handler_scope.
Notation "m ;;; k" := (bind m (fun _ => k))
  (at level 100, right associativity) : handler_scope.
Notation "'when_' b 'then_throw' e ;; k" :=
  (bind (if b then throw e else ret tt) (fun _ => k))
  (at level 100, b at level 9, e at level 9, right associativity) : handler_scope.
Local Open Scope handler_scope.

(** ** JavaScript coercions used by the handlers *)

(** Truthiness of a number: everything but 0 (NaN does not arise from
    JSON). *)
Definition truthyQ (q : Q) : bool := negb (Qeq_bool q 0).
Definition truthyZ (z : Z) : bool := negb (Z.eqb z 0).
(** Truthiness of a string: everything but the empty string. *)
Definition truthyS (s : string) : bool :=
  match s with EmptyString => false | _ => true end.
(** Truthiness of an optional property: [undefined]/[null] are falsy. *)
Definition truthy_opt {A} (t : A -> bool) (o : option A) : bool :=
  match o with Some a => t a | None => false end.

(** [a < b] and [a > b] on numbers. *)
Definition Qltb (a b : Q) : bool := negb (Qle_bool b a).
Definition Qgtb (a b : Q) : bool := Qltb b a.
(** [a <= b]. *)
Definition Qleb (a b : Q) : bool := Qle_bool a b.

(** ** The central error translator (middleware/errorHandler.ts) *)

Module ErrorHandler.

Inductive Details :=
| DetailsField (target : option string)     (* { field: error.meta?.target } *)
| DetailsMessage (msg : string).            (* error.message *)

(** The [error] member of the JSON body. *)
Record ErrorBody := mkBody {
  message : string;
  statusCode : Z;
  stack : option (option string);   (* present only in development *)
  details : option Details          (* present only in development *)
}.

(** [res.status(s).json({ success, error })] *)
Record Response := mkResponse {
  status : Z;
  success : bool;
  error : ErrorBody
}.

(** The three locals [statusCode], [message], [details] after the
    if/else-if chain. *)
Definition translate (e : Err.t) : Z * string * option Details :=
  if truthy_opt truthyZ (Err.statusCode e) then
    (default 0 (Err.statusCode e), Err.message e, None)
  else if Err.class_eqb (Err.class e) Err.PrismaClientKnownRequestError then
    match Err.code e with
    | Some "P2002" => (409, "Dados duplicados. Este registro já existe.",
                       Some (DetailsField (Err.metaTarget e)))
    | Some "P2025" => (404, "Registro não encontrado.", None)
    | Some "P2003" => (400, "Violação de chave estrangeira.", None)
    | Some "P2014" => (400, "Dados inválidos fornecidos.", None)
    | _ => (400, "Erro de banco de dados.", None)
    end
  else if Err.class_eqb (Err.class e) Err.PrismaClientValidationError then
    (400, "Dados de entrada inválidos.", None)
  else if Err.class_eqb (Err.class e) Err.PrismaClientInitializationError then
    (503, "Erro de conexão com o banco de dados.", None)
  else if Err.class_eqb (Err.class e) Err.SyntaxErrorClass && Err.hasBody e then
    (400, "JSON inválido fornecido.", None)
  else if String.eqb (Err.name e) "ValidationError" then
    (400, "Dados de entrada inválidos.", Some (DetailsMessage (Err.message e)))
  else if String.eqb (Err.name e) "JsonWebTokenError" then
    (401, "Token inválido.", None)
  else if String.eqb (Err.name e) "TokenExpiredError" then
    (401, "Token expirado.", None)
  else if String.eqb (Err.name e) "MulterError" then
    (400,
     match Err.code e with
     | Some "LIMIT_FILE_SIZE" => "Arquivo muito grande."
     | Some "LIMIT_FILE_COUNT" => "Muitos arquivos enviados."
     | Some "LIMIT_UNEXPECTED_FILE" => "Campo de arquivo inesperado."
     | _ => "Erro no upload do arquivo."
     end,
     None)
  else (500, "Erro interno do servidor", None).

(** [errorHandler(error, req, res, next)]; [development] is
    [process.env.NODE_ENV === 'development']. *)
Definition errorHandler (development : bool) (e : Err.t) : Response :=
  let '(statusCode, message, details) := translate e in
  let body :=
    if development
    then mkBody message statusCode (Some (Err.stack e))
           (match details with
            | Some (DetailsMessage msg) => if truthyS msg then details else None
            | _ => details
            end)
    else mkBody message statusCode None None in
  mkResponse statusCode false body.

(** The classes the if/else-if chain recognises. *)
Definition recognized (e : Err.t) : bool :=
  truthy_opt truthyZ (Err.statusCode e)
  || Err.class_eqb (Err.class e) Err.PrismaClientKnownRequestError
  || Err.class_eqb (Err.class e) Err.PrismaClientValidationError
  || Err.class_eqb (Err.class e) Err.PrismaClientInitializationError
  || (Err.class_eqb (Err.class e) Err.SyntaxErrorClass && Err.hasBody e)
  || String.eqb (Err.name e) "ValidationError"
  || String.eqb (Err.name e) "JsonWebTokenError"
  || String.eqb (Err.name e) "TokenExpiredError"
  || String.eqb (Err.name e) "MulterError".

End ErrorHandler.

(** ** Data model (prisma/schema.prisma) *)

Definition Id := string.
(** [DateTime]: milliseconds since the epoch. *)
Definition DateTime := Z.

Module WithdrawalStatus.
Inductive t := PENDING | APPROVED | PROCESSING | PAID | REJECTED | CANCELED.

(** The enum value a request string denotes, if any. *)
Definition of_string (s : string) : option t :=
  if String.eqb s "PENDING" then Some PENDING
  else if String.eqb s "APPROVED" then Some APPROVED
  else if String.eqb s "PROCESSING" then Some PROCESSING
  else if String.eqb s "PAID" then Some PAID
  else if String.eqb s "REJECTED" then Some REJECTED
  else if String.eqb s "CANCELED" then Some CANCELED
  else None.

(** [status: { in: ['PENDING', 'APPROVED', 'PROCESSING'] }] *)
Definition non_terminal (s : t) : bool :=
  match s with
  | PENDING | APPROVED | PROCESSING => true
  | PAID | REJECTED | CANCELED => false
  end.
End WithdrawalStatus.

Module CommissionStatus.
Inductive t := PENDING | AVAILABLE | REQUESTED | PAID | CANCELED.
Definition is_available (s : t) : bool :=
  match s with AVAILABLE => true | _ => false end.
End CommissionStatus.

Module SubscriptionStatus.
Inductive t := PENDING | ACTIVE | PAST_DUE | CANCELED | UNPAID.
Definition is_active (s : t) : bool :=
  match s with ACTIVE => true | _ => false end.
End SubscriptionStatus.

Module CouponType.
Inductive t := PERCENTAGE | FIXED_AMOUNT.
Definition is_percentage (s : t) : bool :=
  match s with PERCENTAGE => true | FIXED_AMOUNT => false end.
End CouponType.

Module RequestStatus.
Inductive t := PENDING | IN_PROGRESS | COMPLETED | REJECTED.
Definition eqb (a b : t) : bool :=
  match a, b with
  | PENDING, PENDING | IN_PROGRESS, IN_PROGRESS
  | COMPLETED, COMPLETED | REJECTED, REJECTED => true
  | _, _ => false
  end.
End RequestStatus.

Module RequestType.
Inductive t := ACCESS | RECTIFICATION | ERASURE | PORTABILITY | RESTRICTION | OBJECTION.
End RequestType.

(** A calendar date as [getFullYear], [getMonth], [getDate] read it. *)
Module CalendarDate.
Record t := mk { year : Z; month : Z; date : Z }.
End CalendarDate.

Module User.
Record t := mk {
  id : Id;
  email : string;                      (* @unique *)
  cpf : string;                        (* @unique *)
  firstName : string;
  lastName : string;
  phone : option string;
  birthDate : option CalendarDate.t;
  password : option string;
  emailVerified : bool;
  isActive : bool;
  referralCode : string;               (* @unique *)
  referredById : option Id
}.
End User.

Module Address.
Record t := mk {
  street : string; number : string; city : string; state : string; zipCode : string
}.
End Address.

Module BankData.
Record t := mk {
  bankCode : string; bankName : string; agency : string; account : string;
  accountType : string; holderName : string; holderCpf : string;
  pixKey : option string; pixKeyType : option string
}.
End BankData.

Module Subscription.
Record t := mk { id : Id; status : SubscriptionStatus.t }.
End Subscription.

Module BillingHistory.
Record t := mk { id : Id; subscriptionId : Id; amount : Q; createdAt : DateTime }.
End BillingHistory.

Module Commission.
Record t := mk {
  id : Id; earnerId : Id; sourceId : Id; amount : Q; status : CommissionStatus.t
}.
End Commission.

Module WithdrawalRequest.
Record t := mk {
  id : Id;
  userId : Id;
  amount : Q;
  status : WithdrawalStatus.t;
  bankData : BankData.t;               (* Json snapshot *)
  requestedAt : DateTime;
  processedAt : option DateTime;
  paidAt : option DateTime;
  adminNotes : option string;
  updatedAt : DateTime
}.
End WithdrawalRequest.

Module Product.
Record t := mk {
  id : Id; name : string; price : Q; isActive : bool; trackStock : bool; stock : Z
}.
End Product.

Module OrderItem.
Record t := mk { productId : Id; quantity : Z; price : Q }.
End OrderItem.

Module Order.
Record t := mk {
  id : Id;
  userId : Id;
  orderNumber : string;
  subtotal : Q;
  shippingCost : Q;
  discount : Q;
  total : Q;
  paymentMethod : string;
  shippingAddress : string;
  couponCode : option string;
  items : list OrderItem.t
}.
End Order.

Module Coupon.
Record t := mk {
  id : Id;
  name : string;
  type : CouponType.t;
  value : Q;
  minimumAmount : option Q;
  maximumDiscount : option Q;
  startDate : DateTime;
  endDate : DateTime;
  usageLimitPerUser : option Z;        (* Int? *)
  isActive : bool
}.
End Coupon.

(** The row that [LGPDService.createDataSubjectRequest] means to write.
    schema.prisma declares no model [DataSubjectRequest] (nor
    [UserConsent], nor [AuditLog]): there is no such table. *)
Module DataSubjectRequest.
Record t := mk {
  id : Id;
  userId : Id;
  type : RequestType.t;
  status : RequestStatus.t;
  requestedAt : DateTime;
  processedAt : option DateTime;
  adminId : option Id;
  adminNotes : option string
}.
End DataSubjectRequest.


(** The database.  Finite maps are keyed by the column (or pair of
    columns) that the schema declares unique and the handlers look rows up
    by; [userCoupons] maps [(userId, couponId)] to [usageCount]. *)
Module DB.
Record t := mk {
  users : list User.t;
  addresses : gmap Id Address.t;              (* by userId *)
  bankData : gmap Id BankData.t;              (* by userId *)
  subscriptions : gmap Id Subscription.t;     (* by userId *)
  billingHistory : list BillingHistory.t;
  commissions : list Commission.t;
  withdrawalRequests : list WithdrawalRequest.t;
  products : list Product.t;
  orders : list Order.t;
  coupons : gmap string Coupon.t;             (* by code *)
  userCoupons : gmap (Id * Id) Z
}.

Definition set_users (f : list User.t -> list User.t) (d : t) : t :=
  mk (f (users d)) (addresses d) (bankData d) (subscriptions d) (billingHistory d)
     (commissions d) (withdrawalRequests d) (products d) (orders d) (coupons d)
     (userCoupons d).
Definition set_bankData (f : gmap Id BankData.t -> gmap Id BankData.t) (d : t) : t :=
  mk (users d) (addresses d) (f (bankData d)) (subscriptions d) (billingHistory d)
     (commissions d) (withdrawalRequests d) (products d) (orders d) (coupons d)
     (userCoupons d).
Definition set_withdrawalRequests
    (f : list WithdrawalRequest.t -> list WithdrawalRequest.t) (d : t) : t :=
  mk (users d) (addresses d) (bankData d) (subscriptions d) (billingHistory d)
     (commissions d) (f (withdrawalRequests d)) (products d) (orders d) (coupons d)
     (userCoupons d).
Definition set_orders (f : list Order.t -> list Order.t) (d : t) : t :=
  mk (users d) (addresses d) (bankData d) (subscriptions d) (billingHistory d)
     (commissions d) (withdrawalRequests d) (products d) (f (orders d)) (coupons d)
     (userCoupons d).
Definition set_userCoupons (f : gmap (Id * Id) Z -> gmap (Id * Id) Z) (d : t) : t :=
  mk (users d) (addresses d) (bankData d) (subscriptions d) (billingHistory d)
     (commissions d) (withdrawalRequests d) (products d) (orders d) (coupons d)
     (f (userCoupons d)).
End DB.

(** A route handler: a computation over the database. *)
Abbreviation Handler := (M DB.t).

(** What one request draws from its surroundings: the clock and the
    identifier that [@default(cuid())] gives to the row it creates.
    Identifiers and order numbers drawn are taken to be new: the
    primary-key and [orderNumber] collisions of an insert are not
    modelled. *)
Module Env.
Record t := mk {
  now : DateTime;
  cuid : Id;
  MIN_WITHDRAWAL_AMOUNT : option Q;    (* process.env, unset or numeric *)
  development : bool;                  (* NODE_ENV === 'development' *)
  orderNumber : string;                (* generateOrderNumber() *)
  decimalOfText : string -> outcome Q  (* what Prisma and the database read in
                                          a text sent for a Decimal column, or
                                          the error thrown for the text *)
}.
End Env.

(** [asyncHandler] followed by [errorHandler]: what the client receives.
    A success body is [{ success: true, data }] with the given status. *)
Inductive HttpResponse (A : Type) :=
| JsonSuccess (status : Z) (data : A)
| JsonFailure (r : ErrorHandler.Response).
Arguments JsonSuccess {A} status data.
Arguments JsonFailure {A} r.

Definition http_status {A} (r : HttpResponse A) : Z :=
  match r with
  | JsonSuccess s _ => s
  | JsonFailure r => ErrorHandler.status r
  end.

Definition serve {A} (env : Env.t) (okStatus : Z) (h : Handler A) (db : DB.t)
  : HttpResponse A * DB.t :=
  match h db with
  | (Return a, db') => (JsonSuccess okStatus a, db')
  | (Throw e, db') => (JsonFailure (ErrorHandler.errorHandler (Env.development env) e), db')
  end.

(** ** JavaScript and decimal.js on a body member that no schema checks *)

Module Js.

(** A number as the relational operators see it. *)
Inductive Num := Finite (q : Q) | PosInfinity | NegInfinity | NaN.

(** [x < y] *)
Definition lt (x y : Num) : bool :=
  match x, y with
  | NaN, _ | _, NaN => false
  | Finite a, Finite b => Qltb a b
  | Finite _, PosInfinity => true
  | Finite _, NegInfinity => false
  | PosInfinity, _ => false
  | NegInfinity, NegInfinity => false
  | NegInfinity, _ => true
  end.

(** [x <= y] *)
Definition le (x y : Num) : bool :=
  match x, y with
  | NaN, _ | _, NaN => false
  | _, _ => negb (lt y x)
  end.

Definition code (c : ascii) : nat := nat_of_ascii c.

(** The white space and line terminators of one code unit below 128. *)
Definition isAsciiBlank (c : ascii) : bool :=
  let n := code c in
  ((9 <=? n) && (n <=? 13) || (n =? 32))%nat.

(** The length in bytes of the UTF-8 form of a white space or line
    terminator at the head of the text, 0 when there is none: U+0009 to
    U+000D, U+0020, U+00A0, U+1680, U+2000 to U+200A, U+2028, U+2029,
    U+202F, U+205F, U+3000, U+FEFF. *)
Definition blankAtHead (s : string) : nat :=
  match s with
  | EmptyString => 0
  | String c1 rest1 =>
    if isAsciiBlank c1 then 1
    else match rest1 with
         | EmptyString => 0
         | String c2 rest2 =>
           if ((code c1 =? 194) && (code c2 =? 160))%nat then 2
           else match rest2 with
                | EmptyString => 0
                | String c3 _ =>
                  let n1 := code c1 in let n2 := code c2 in let n3 := code c3 in
                  if ((n1 =? 225) && (n2 =? 154) && (n3 =? 128)
                      || (n1 =? 226) && (n2 =? 128)
                         && ((128 <=? n3) && (n3 <=? 138) || (n3 =? 168) || (n3 =? 169)
                             || (n3 =? 175))
                      || (n1 =? 226) && (n2 =? 129) && (n3 =? 159)
                      || (n1 =? 227) && (n2 =? 128) && (n3 =? 128)
                      || (n1 =? 239) && (n2 =? 187) && (n3 =? 191))%nat
                  then 3 else 0
                end
         end
  end.

Fixpoint trimStart (s : string) : string :=
  match s with
  | EmptyString => EmptyString
  | String _ rest1 =>
    match blankAtHead s with
    | 1%nat => trimStart rest1
    | 2%nat => match rest1 with
               | String _ rest2 => trimStart rest2
               | EmptyString => EmptyString
               end
    | 3%nat => match rest1 with
               | String _ (String _ rest3) => trimStart rest3
               | _ => EmptyString
               end
    | _ => s
    end
  end.

Fixpoint trimEnd (s : string) : string :=
  match s with
  | EmptyString => EmptyString
  | String c rest =>
    match trimStart s with
    | EmptyString => EmptyString
    | _ => String c (trimEnd rest)
    end
  end.

(** [s.trim()] *)
Definition trim (s : string) : string := trimEnd (trimStart s).

Definition digitOf (c : ascii) : option Z :=
  let n := code c in
  if ((48 <=? n) && (n <=? 57))%nat then Some (Z.of_nat n - 48) else None.

Definition hexDigitOf (c : ascii) : option Z :=
  let n := code c in
  if ((48 <=? n) && (n <=? 57))%nat then Some (Z.of_nat n - 48)
  else if ((97 <=? n) && (n <=? 102))%nat then Some (Z.of_nat n - 87)
  else if ((65 <=? n) && (n <=? 70))%nat then Some (Z.of_nat n - 55)
  else None.

(** The decimal digits at the head of the text: the number they write
    after [acc], how many they are after [count], and the rest. *)
Fixpoint digits (acc count : Z) (s : string) : Z * Z * string :=
  match s with
  | EmptyString => (acc, count, s)
  | String c rest =>
    match digitOf c with
    | Some d => digits (acc * 10 + d) (count + 1) rest
    | None => (acc, count, s)
    end
  end.

(** The whole text as digits of the radix. *)
Fixpoint radixDigits (radix acc : Z) (s : string) : option Z :=
  match s with
  | EmptyString => Some acc
  | String c rest =>
    match hexDigitOf c with
    | Some d => if (d <? radix)%Z then radixDigits radix (acc * radix + d) rest else None
    | None => None
    end
  end.

(** [0x..], [0o..], [0b..] with at least one digit. *)
Definition radixLiteral (s : string) : option Z :=
  match s with
  | String zero (String prefix (String c rest)) =>
    if (code zero =? 48)%nat then
      let p := code prefix in
      if ((p =? 120) || (p =? 88))%nat then radixDigits 16 0 (String c rest)
      else if ((p =? 111) || (p =? 79))%nat then radixDigits 8 0 (String c rest)
      else if ((p =? 98) || (p =? 66))%nat then radixDigits 2 0 (String c rest)
      else None
    else None
  | _ => None
  end.

(** The double nearest to a non-negative value, ties to the even
    mantissa: 53 bits above [2^-1022], multiples of [2^-1074] below,
    Infinity from [2^1024 - 2^970] on. *)
Definition inRange (v : Q) : Num :=
  let n := Qnum v in
  let d := Zpos (Qden v) in
  if (n <=? 0)%Z then Finite 0
  else
    let a := Z.log2 n in
    let b := Z.log2 d in
    let magnitude :=
      if (d * 2 ^ Z.max 0 (a - b) <=? n * 2 ^ Z.max 0 (b - a))%Z then a - b
      else a - b - 1 in
    let e := Z.max (magnitude - 52) (-1074) in
    let num := n * 2 ^ Z.max 0 (- e) in
    let den := d * 2 ^ Z.max 0 e in
    let q := num / den in
    let r := num mod den in
    let mantissa :=
      if (2 * r <? den)%Z then q
      else if (den <? 2 * r)%Z then q + 1
      else if Z.even q then q else q + 1 in
    if ((971 <? e) || (e =? 971) && (2 ^ 53 <=? mantissa))%Z then PosInfinity
    else if (0 <=? e)%Z then Finite (inject_Z (mantissa * 2 ^ e))
    else Finite (Qred (mantissa # Z.to_pos (2 ^ (- e)))).

(** The double nearest to a value of either sign. *)
Definition double (v : Q) : Num :=
  if (Qnum v <? 0)%Z then
    match inRange (- v) with
    | Finite q => Finite (- q)
    | _ => NegInfinity
    end
  else inRange v.

(** [mantissa * 10^exponent] for a mantissa written with [count]
    digits. *)
Definition scale (mantissa count exponent : Z) : Num :=
  if (mantissa =? 0)%Z then Finite 0
  else if (400 <? exponent)%Z then PosInfinity
  else if (exponent + count <? -400)%Z then Finite 0
  else if (0 <=? exponent)%Z then inRange (inject_Z (mantissa * 10 ^ exponent))
  else inRange (mantissa # Z.to_pos (10 ^ (- exponent))).

(** [ExponentPart] without its letter, up to the end of the text. *)
Definition exponentPart (s : string) : option Z :=
  let signed :=
    match s with
    | String c rest =>
      if (code c =? 43)%nat then (1, rest)
      else if (code c =? 45)%nat then (-1, rest)
      else (1, s)
    | EmptyString => (1, s)
    end in
  match digits 0 0 (snd signed) with
  | (value, count, EmptyString) => if (0 <? count)%Z then Some (fst signed * value) else None
  | _ => None
  end.

(** [StrUnsignedDecimalLiteral] *)
Definition unsignedDecimal (s : string) : option Num :=
  if String.eqb s "Infinity" then Some PosInfinity
  else
    match digits 0 0 s with
    | (whole, wholeCount, afterWhole) =>
      let fraction :=
        match afterWhole with
        | String c rest =>
          if (code c =? 46)%nat then digits whole 0 rest else (whole, 0, afterWhole)
        | EmptyString => (whole, 0, afterWhole)
        end in
      match fraction with
      | (mantissa, fractionCount, afterFraction) =>
        if ((wholeCount =? 0) && (fractionCount =? 0))%Z then None
        else
          match afterFraction with
          | EmptyString =>
            Some (scale mantissa (wholeCount + fractionCount) (- fractionCount))
          | String c rest =>
            if ((code c =? 101) || (code c =? 69))%nat then
              match exponentPart rest with
              | Some exponent =>
                Some (scale mantissa (wholeCount + fractionCount)
                        (exponent - fractionCount))
              | None => None
              end
            else None
          end
      end
    end.

Definition negate (x : Num) : Num :=
  match x with
  | Finite q => Finite (- q)
  | PosInfinity => NegInfinity
  | NegInfinity => PosInfinity
  | NaN => NaN
  end.

(** [Number(s)], the conversion that [<], [<=] and [>] apply to a string
    compared with a number ([StringToNumber]). *)
Definition toNumber (s : string) : Num :=
  match trim s with
  | EmptyString => Finite 0
  | String c rest =>
    let t := String c rest in
    match radixLiteral t with
    | Some value => inRange (inject_Z value)
    | None =>
      default NaN
        (if (code c =? 43)%nat then unsignedDecimal rest
         else if (code c =? 45)%nat then negate <$> unsignedDecimal rest
         else unsignedDecimal t)
    end
  end.

(** [a > b] on two strings: the order of the code units.  Against a
    text of ASCII characters, as the second argument is here, the
    order of the bytes gives the same answer. *)
Fixpoint stringGt (a b : string) : bool :=
  match a, b with
  | EmptyString, _ => false
  | String _ _, EmptyString => true
  | String x a', String y b' =>
    if (code y <? code x)%nat then true
    else if (code x <? code y)%nat then false
    else stringGt a' b'
  end.

End Js.

(** ** [Decimal] columns and values *)

Module Decimal.

(** The value in hundredths, rounded half away from zero as the
    database rounds a value stored in a [Decimal(10,2)] column. *)
Definition hundredths (q : Q) : Z :=
  Z.sgn (Qnum q) * ((2 * Z.abs (Qnum q) * 100 + Zpos (Qden q)) / (2 * Zpos (Qden q))).

Definition round2 (q : Q) : Q := hundredths q # 100.

(** Ten digits, two of them after the point. *)
Definition fits (q : Q) : bool := (Z.abs (hundredths q) <? 10 ^ 10)%Z.

(** What a [Decimal(10,2)] column stores for a value, or the error of
    a value out of its range. *)
Definition store (q : Q) : outcome Q :=
  if fits q then Return (round2 q) else Throw (Err.prisma "P2020" None).

Definition natural (n : Z) : string := NilZero.string_of_uint (N.to_uint (Z.to_N n)).

(** [valueOf()] of the decimal.js object that Prisma returns for a
    [Decimal(10,2)] value: no exponent, no trailing zeros.  The value
    is read in hundredths, towards zero. *)
Definition valueOf (q : Q) : string :=
  let c := Z.quot (Qnum q * 100) (Zpos (Qden q)) in
  let a := Z.abs c in
  ((if (c <? 0)%Z then "-" else "")
   ++ natural (a / 100)
   ++ (if (a mod 100 =? 0)%Z then ""
       else "." ++ natural (a mod 100 / 10)
            ++ (if (a mod 10 =? 0)%Z then "" else natural (a mod 10))))%string.

End Decimal.

(** ** routes/commissions.ts *)

Module Commissions.

(** [req.body.amount]: nothing checks the body of this route, so the
    member is what the JSON or the form body holds.  A number is given
    by its decimal form [n], the shortest that reads back as the same
    double: the form in which JavaScript prints it and Prisma sends it
    to the database.  Two numbers compare as their decimal forms do,
    and so do a number and a sum of [Decimal(10,2)] values.  A string
    is given as sent.  [null] is taken with the missing member; a
    boolean, an array or an object is no value of a [Decimal] column
    and is not modelled. *)
Inductive Amount :=
| Number (n : Q)
| Text (s : string).

(** [!amount] *)
Definition falsy (amount : Amount) : bool :=
  match amount with
  | Number n => negb (truthyQ n)
  | Text s => negb (truthyS s)
  end.

(** The number that a comparison with a number sees. *)
Definition toNum (amount : Amount) : Js.Num :=
  match amount with
  | Number n => Js.Finite n
  | Text s => Js.toNumber s
  end.

(** [where: { earnerId: userId, status: 'AVAILABLE' }] *)
Definition isAvailableOf (userId : Id) (c : Commission.t) : bool :=
  String.eqb (Commission.earnerId c) userId
  && CommissionStatus.is_available (Commission.status c).

(** [_sum: { amount: true }]; the [|| 0] of the caller gives 0 on an
    empty selection. *)
Definition sumAmount (rows : list Commission.t) : Q :=
  fold_right (fun c acc => Commission.amount c + acc)%Q 0%Q rows.

Definition availableBalance (userId : Id) (db : DB.t) : Q :=
  sumAmount (List.filter (isAvailableOf userId) (DB.commissions db)).

(** [amount > balance], where [balance] is [_sum.amount || 0]: the sum
    as a decimal.js object, or the number 0 when no row is selected
    (the sum is then [null]).  A number is compared with the value of
    the object; a string is compared with the object's [valueOf()],
    which is a string, code unit by code unit, and with the number 0
    as a number. *)
Definition exceeds (amount : Amount) (selected : list Commission.t) : bool :=
  match amount, selected with
  | Number n, _ => Qgtb n (sumAmount selected)
  | Text s, [] => Js.lt (Js.Finite 0) (Js.toNumber s)
  | Text s, _ :: _ => Js.stringGt s (Decimal.valueOf (sumAmount selected))
  end.

(** What the column [amount] stores for the member sent. *)
Definition stored (env : Env.t) (amount : Amount) : outcome Q :=
  match amount with
  | Number n => Decimal.store n
  | Text s =>
    match Env.decimalOfText env s with
    | Return n => Decimal.store n
    | Throw e => Throw e
    end
  end.

(** [where: { userId, status: { in: ['PENDING','APPROVED','PROCESSING'] } }] *)
Definition isOpenOf (userId : Id) (w : WithdrawalRequest.t) : bool :=
  String.eqb (WithdrawalRequest.userId w) userId
  && WithdrawalStatus.non_terminal (WithdrawalRequest.status w).

(** [Number(process.env.MIN_WITHDRAWAL_AMOUNT || 50)], in its decimal
    form. *)
Definition minWithdrawal (env : Env.t) : Q :=
  default 50%Q (Env.MIN_WITHDRAWAL_AMOUNT env).

(** [amount < minWithdrawal]: a string is read as a double and
    compared with the double of the minimum. *)
Definition belowMinimum (env : Env.t) (amount : Amount) : bool :=
  match amount with
  | Number n => Qltb n (minWithdrawal env)
  | Text s => Js.lt (Js.toNumber s) (Js.double (minWithdrawal env))
  end.

(** [router.post('/withdraw', ..)]; [amount] is [req.body.amount]
    ([None] when the member is missing or [null]), [userId] is
    [req.user.id]. *)
Definition withdraw (env : Env.t) (userId : Id) (amount : option Amount)
  : Handler WithdrawalRequest.t :=
  match amount with
  | None => throw (createError "Valor inválido para saque" 400)
  | Some amount =>
    when_ (falsy amount || Js.le (toNum amount) (Js.Finite 0)) then_throw
      (createError "Valor inválido para saque" 400) ;;
    when_ (belowMinimum env amount) then_throw
      (createError "Valor mínimo para saque" 400) ;;
    db <- get ;;
    when_ (exceeds amount (List.filter (isAvailableOf userId) (DB.commissions db)))
    then_throw (createError "Saldo insuficiente" 400) ;;
    match DB.bankData db !! userId with
    | None => throw (createError "Dados bancários não cadastrados" 400)
    | Some bankData =>
      match List.find (isOpenOf userId) (DB.withdrawalRequests db) with
      | Some _ =>
        throw (createError "Você já possui uma solicitação de saque pendente" 400)
      | None =>
        match stored env amount with
        | Throw e => throw e
        | Return storedAmount =>
          let withdrawalRequest :=
            WithdrawalRequest.mk (Env.cuid env) userId storedAmount
              WithdrawalStatus.PENDING
              (BankData.mk (BankData.bankCode bankData) (BankData.bankName bankData)
                 (BankData.agency bankData) (BankData.account bankData)
                 (BankData.accountType bankData) (BankData.holderName bankData)
                 (BankData.holderCpf bankData) (BankData.pixKey bankData)
                 (BankData.pixKeyType bankData))
              (Env.now env) None None None (Env.now env) in
          modify (DB.set_withdrawalRequests
                    (fun rows => (rows ++ [withdrawalRequest])%list)) ;;;
          ret withdrawalRequest
        end
      end
    end
  end.

(** [router.post] answers 201 on success. *)
Definition postWithdraw (env : Env.t) (userId : Id) (amount : option Amount) (db : DB.t) :=
  serve env 201 (withdraw env userId amount) db.

End Commissions.

(** ** routes/user.ts: [router.put('/bank-data', ..)] after validation *)

Module UserRoutes.
(** The upsert keyed by [userId]; both branches store the validated
    fields. *)
Definition putBankData (userId : Id) (validatedData : BankData.t) : Handler BankData.t :=
  modify (DB.set_bankData (fun m => <[userId := validatedData]> m)) ;;;
  ret validatedData.
End UserRoutes.

(** ** routes/admin.ts *)

Module Admin.

Definition acceptedStatuses : list string := ["APPROVED"; "REJECTED"; "PAID"].

(** [['APPROVED', 'REJECTED', 'PAID'].includes(status)] *)
Definition includes (status : option string) : bool :=
  match status with
  | Some s => existsb (String.eqb s) acceptedStatuses
  | None => false
  end.

(** [updateData] applied to one row; [@updatedAt] follows the clock. *)
Definition applyUpdate (env : Env.t) (status : string) (st : WithdrawalStatus.t)
    (adminNotes : option string) (w : WithdrawalRequest.t) : WithdrawalRequest.t :=
  WithdrawalRequest.mk
    (WithdrawalRequest.id w) (WithdrawalRequest.userId w) (WithdrawalRequest.amount w)
    st
    (WithdrawalRequest.bankData w)
    (WithdrawalRequest.requestedAt w)
    (if String.eqb status "PAID" then WithdrawalRequest.processedAt w
     else if String.eqb status "APPROVED" then Some (Env.now env)
     else WithdrawalRequest.processedAt w)
    (if String.eqb status "PAID" then Some (Env.now env)
     else WithdrawalRequest.paidAt w)
    (if truthy_opt truthyS adminNotes then adminNotes
     else WithdrawalRequest.adminNotes w)
    (Env.now env).

(** The relation fields of [model WithdrawalRequest] in schema.prisma:
    the model has the column [userId] and no relation. *)
Definition relationFields : list string := [].

Definition unknownInclude : Err.t :=
  Err.mk Err.PrismaClientValidationError "PrismaClientValidationError"
    "Unknown field for include statement on model WithdrawalRequest"
    None None None false None.

(** [prisma.withdrawalRequest.update({ where, data, include })].  The
    client checks the arguments against the schema before it sends
    the query: a key of [include] that is no relation field of the
    model is refused with a [PrismaClientValidationError] and nothing
    is written.  Otherwise the row addressed by its primary key is
    updated (a table that held the key twice would have every such row
    updated), and a missing row is P2025. *)
Definition update (env : Env.t) (withdrawalId : Id) (status : string)
    (st : WithdrawalStatus.t) (adminNotes : option string) (include : list string)
  : Handler WithdrawalRequest.t :=
  if negb (forallb (fun field => existsb (String.eqb field) relationFields) include) then
    throw unknownInclude
  else
    db <- get ;;
    match List.find (fun w => String.eqb (WithdrawalRequest.id w) withdrawalId)
                    (DB.withdrawalRequests db) with
    | None => throw (Err.prisma "P2025" None)
    | Some withdrawal =>
      modify (DB.set_withdrawalRequests
                (map (fun w => if String.eqb (WithdrawalRequest.id w) withdrawalId
                               then applyUpdate env status st adminNotes w else w))) ;;;
      ret (applyUpdate env status st adminNotes withdrawal)
    end.

(** [router.patch('/withdrawals/:id', ..)]; the update asks for
    [include: { user: .. }]. *)
Definition updateWithdrawal (env : Env.t) (withdrawalId : Id)
    (status : option string) (adminNotes : option string)
  : Handler WithdrawalRequest.t :=
  when_ (negb (includes status)) then_throw (createError "Status inválido" 400) ;;
  db <- get ;;
  match List.find (fun w => String.eqb (WithdrawalRequest.id w) withdrawalId)
                  (DB.withdrawalRequests db) with
  | None => throw (createError "Solicitação de saque não encontrada" 404)
  | Some withdrawal =>
    match status with
    | None => throw (Err.mk Err.PrismaClientValidationError
                       "PrismaClientValidationError" "missing status" None None None
                       false None)
    | Some s =>
      match WithdrawalStatus.of_string s with
      | None => throw (Err.mk Err.PrismaClientValidationError
                         "PrismaClientValidationError" "invalid enum value" None None
                         None false None)
      | Some st => update env withdrawalId s st adminNotes ["user"]
      end
    end
  end.

Definition patchWithdrawal (env : Env.t) (withdrawalId : Id)
    (status : option string) (adminNotes : option string) (db : DB.t) :=
  serve env 200 (updateWithdrawal env withdrawalId status adminNotes) db.

End Admin.

(** ** Coupons: the computations shared by routes/coupon.ts and
       routes/orders.ts *)

(** [String.prototype.toUpperCase] on the ASCII range; other bytes are
    kept. *)
Definition upperAscii (c : ascii) : ascii :=
  let n := nat_of_ascii c in
  if ((97 <=? n) && (n <=? 122))%nat then ascii_of_nat (n - 32) else c.

Fixpoint toUpperCase (s : string) : string :=
  match s with
  | EmptyString => EmptyString
  | String c rest => String (upperAscii c) (toUpperCase rest)
  end.

Module CouponRules.

(** [coupon.usageLimitPerUser || 1] *)
Definition usageLimit (coupon : Coupon.t) : Z :=
  match Coupon.usageLimitPerUser coupon with
  | Some n => if truthyZ n then n else 1
  | None => 1
  end.

(** [isActive: true, startDate: { lte: now }, endDate: { gte: now }] *)
Definition current (now : DateTime) (coupon : Coupon.t) : bool :=
  Coupon.isActive coupon
  && (Coupon.startDate coupon <=? now)%Z
  && (now <=? Coupon.endDate coupon)%Z.

(** [prisma.coupon.findFirst] on the code with the validity filter. *)
Definition findCurrent (now : DateTime) (code : string) (db : DB.t) : option Coupon.t :=
  match DB.coupons db !! code with
  | Some coupon => if current now coupon then Some coupon else None
  | None => None
  end.

(** The discount before any cap by the total. *)
Definition rawDiscount (coupon : Coupon.t) (amount : Q) : Q :=
  if CouponType.is_percentage (Coupon.type coupon) then
    let discount := ((amount * Coupon.value coupon) / 100)%Q in
    match Coupon.maximumDiscount coupon with
    | Some maximumDiscount =>
      if Qgtb discount maximumDiscount then maximumDiscount else discount
    | None => discount
    end
  else Coupon.value coupon.

(** [coupon.minimumAmount && amount < Number(coupon.minimumAmount)] *)
Definition belowMinimum (coupon : Coupon.t) (amount : Q) : bool :=
  match Coupon.minimumAmount coupon with
  | Some minimumAmount => Qltb amount minimumAmount
  | None => false
  end.

End CouponRules.

(** ** routes/coupon.ts *)

Module Coupons.

Record Quote := mkQuote {
  code : string; name : string; type : CouponType.t; value : Q; discount : Q
}.

(** [router.post('/validate', ..)] *)
Definition validate (env : Env.t) (userId : Id) (code : option string) (cartTotal : Q)
  : Handler Quote :=
  match code with
  | None => throw (createError "Código do cupom é obrigatório" 400)
  | Some code =>
    when_ (negb (truthyS code)) then_throw
      (createError "Código do cupom é obrigatório" 400) ;;
    db <- get ;;
    match CouponRules.findCurrent (Env.now env) (toUpperCase code) db with
    | None => throw (createError "Cupom inválido ou expirado" 400)
    | Some coupon =>
      let usageCount :=
        match DB.userCoupons db !! (userId, Coupon.id coupon) with
        | Some n => if truthyZ n then n else 0
        | None => 0
        end in
      let usageLimit := CouponRules.usageLimit coupon in
      when_ (usageLimit <=? usageCount)%Z then_throw
        (createError "Limite de uso do cupom excedido" 400) ;;
      when_ (CouponRules.belowMinimum coupon cartTotal) then_throw
        (createError "Valor mínimo para usar o cupom" 400) ;;
      let discount := CouponRules.rawDiscount coupon cartTotal in
      let discount := if Qgtb discount cartTotal then cartTotal else discount in
      ret (mkQuote (toUpperCase code) (Coupon.name coupon) (Coupon.type coupon)
             (Coupon.value coupon) discount)
    end
  end.

Definition postValidate (env : Env.t) (userId : Id) (code : option string)
    (cartTotal : Q) (db : DB.t) :=
  serve env 200 (validate env userId code cartTotal) db.

End Coupons.

(** ** routes/orders.ts *)

Module Orders.

(** One element of [req.body.items]. *)
Record Item := mkItem { productId : Id; quantity : Z }.

Definition paymentMethods : list string :=
  ["CREDIT_CARD"; "DEBIT_CARD"; "PIX"; "BOLETO"; "COMMISSION_BALANCE"].

(** The [for (const item of items)] loop: the running [subtotal] and
    [validatedItems]. *)
Fixpoint validateItems (items : list Item) (subtotal : Q)
    (validatedItems : list OrderItem.t) : Handler (Q * list OrderItem.t) :=
  match items with
  | [] => ret (subtotal, validatedItems)
  | item :: rest =>
    db <- get ;;
    match List.find (fun p => String.eqb (Product.id p) (productId item)
                              && Product.isActive p) (DB.products db) with
    | None => throw (createError "Produto não encontrado" 404)
    | Some product =>
      when_ (Product.trackStock product && (Product.stock product <? quantity item)%Z)
        then_throw (createError "Estoque insuficiente" 400) ;;
      let itemTotal := (Product.price product * inject_Z (quantity item))%Q in
      validateItems rest (subtotal + itemTotal)%Q
        (validatedItems ++ [OrderItem.mk (Product.id product) (quantity item)
                              (Product.price product)])%list
    end
  end.

(** The [if (couponCode) { .. }] block: the discount to apply. *)
Definition applyCoupon (env : Env.t) (userId : Id) (couponCode : string) (subtotal : Q)
  : Handler Q :=
  db <- get ;;
  match CouponRules.findCurrent (Env.now env) couponCode db with
  | None => throw (createError "Cupom inválido ou expirado" 400)
  | Some coupon =>
    when_ (match DB.userCoupons db !! (userId, Coupon.id coupon) with
           | Some usageCount => (CouponRules.usageLimit coupon <=? usageCount)%Z
           | None => false
           end)
      then_throw (createError "Limite de uso do cupom excedido" 400) ;;
    let discount := CouponRules.rawDiscount coupon subtotal in
    when_ (CouponRules.belowMinimum coupon subtotal) then_throw
      (createError "Valor mínimo para usar o cupom" 400) ;;
    ret discount
  end.

(** [prisma.userCoupon.upsert]: increment the row or create it with 1. *)
Definition upsertUsage (userId : Id) (couponCode : string) : Handler unit :=
  db <- get ;;
  match DB.coupons db !! couponCode with
  | None => throw (Err.mk Err.PlainError "TypeError"
                     "Cannot read properties of null" None None None false None)
  | Some coupon =>
    let key := (userId, Coupon.id coupon) in
    modify (DB.set_userCoupons (fun m =>
      match m !! key with
      | Some usageCount => <[key := (usageCount + 1)%Z]> m
      | None => <[key := 1%Z]> m
      end))
  end.

(** [router.post('/', ..)].  [items] is [None] when the property is
    missing or not an array. *)
Definition create (env : Env.t) (userId : Id) (items : option (list Item))
    (shippingAddress paymentMethod couponCode : option string) : Handler Order.t :=
  match items with
  | None | Some [] => throw (createError "Itens do pedido são obrigatórios" 400)
  | Some items =>
    when_ (negb (truthy_opt truthyS shippingAddress)) then_throw
      (createError "Endereço de entrega é obrigatório" 400) ;;
    when_ (negb (truthy_opt truthyS paymentMethod)) then_throw
      (createError "Método de pagamento é obrigatório" 400) ;;
    validated <- validateItems items 0%Q [] ;;
    let subtotal := fst validated in
    let validatedItems := snd validated in
    discount <- (if truthy_opt truthyS couponCode
                 then applyCoupon env userId (default "" couponCode) subtotal
                 else ret 0%Q) ;;
    let shippingCost := 0%Q in
    let total := (subtotal + shippingCost - discount)%Q in
    when_ (negb (existsb (String.eqb (default "" paymentMethod)) paymentMethods))
      then_throw (Err.mk Err.PrismaClientValidationError "PrismaClientValidationError"
                    "invalid enum value" None None None false None) ;;
    let order :=
      Order.mk (Env.cuid env) userId (Env.orderNumber env) subtotal shippingCost
        discount total (default "" paymentMethod) (default "" shippingAddress)
        couponCode validatedItems in
    modify (DB.set_orders (fun rows => (rows ++ [order])%list)) ;;;
    (if truthy_opt truthyS couponCode
     then upsertUsage userId (default "" couponCode)
     else ret tt) ;;;
    ret order
  end.

Definition postOrder (env : Env.t) (userId : Id) (items : option (list Item))
    (shippingAddress paymentMethod couponCode : option string) (db : DB.t) :=
  serve env 201 (create env userId items shippingAddress paymentMethod couponCode) db.

End Orders.

(** ** utils/validation.ts: [LGPDService], [AuditService], [BackupService] *)

Module LGPD.

(** [5 * 365 * 24 * 60 * 60 * 1000] *)
Definition fiveYears : Z := 5 * 365 * 24 * 60 * 60 * 1000.

(** [prisma.dataSubjectRequest], [prisma.userConsent] and
    [prisma.auditLog]: schema.prisma declares no model of these names,
    so the generated client has no such member; reading a method of
    one throws a [TypeError] before any query is built. *)
Definition undefinedMember (method : string) : Err.t :=
  Err.mk Err.PlainError "TypeError"
    ("Cannot read properties of undefined (reading '" ++ method ++ "')")
    None None None false None.

(** [createDataSubjectRequest]: [prisma.dataSubjectRequest.create]. *)
Definition createDataSubjectRequest (env : Env.t) (userId : Id) (type : RequestType.t)
  : Handler DataSubjectRequest.t :=
  throw (undefinedMember "create").

(** [updateRequestStatus]: [prisma.dataSubjectRequest.update]. *)
Definition updateRequestStatus (env : Env.t) (requestId : Id)
    (status : RequestStatus.t) (adminId : option Id) (notes : option string)
  : Handler unit :=
  throw (undefinedMember "update").

Record Verdict := mkVerdict { allowed : bool; reason : option string }.

(** [prisma.subscription.findFirst({ where: { userId, status: 'ACTIVE' } })] *)
Definition activeSubscription (userId : Id) (db : DB.t) : option Subscription.t :=
  match DB.subscriptions db !! userId with
  | Some s => if SubscriptionStatus.is_active (Subscription.status s) then Some s else None
  | None => None
  end.

(** The withdrawal rows of the user in PENDING, APPROVED or PROCESSING. *)
Definition pendingWithdrawals (userId : Id) (db : DB.t) : list WithdrawalRequest.t :=
  List.filter (Commissions.isOpenOf userId) (DB.withdrawalRequests db).

(** Billing rows of the user's subscription created in the last five
    years ([gte]: the bound is included). *)
Definition taxObligations (env : Env.t) (userId : Id) (db : DB.t)
  : list BillingHistory.t :=
  match DB.subscriptions db !! userId with
  | Some s =>
    List.filter (fun b => String.eqb (BillingHistory.subscriptionId b) (Subscription.id s)
                          && (Env.now env - fiveYears <=? BillingHistory.createdAt b)%Z)
                (DB.billingHistory db)
  | None => []
  end.

(** [canEraseUserData]; the [recentOrders] query result is not read. *)
Definition canEraseUserData (env : Env.t) (userId : Id) : Handler Verdict :=
  db <- get ;;
  match activeSubscription userId db with
  | Some _ =>
    ret (mkVerdict false (Some "Usuário possui assinatura ativa. Cancele a assinatura antes de solicitar exclusão."))
  | None =>
    if (0 <? Z.of_nat (length (pendingWithdrawals userId db)))%Z then
      ret (mkVerdict false (Some "Usuário possui solicitações de saque pendentes."))
    else if (0 <? Z.of_nat (length (taxObligations env userId db)))%Z then
      ret (mkVerdict false (Some "Dados devem ser mantidos por 5 anos para fins fiscais conforme legislação brasileira."))
    else ret (mkVerdict true None)
  end.

(** [BackupService.exportUserData]: [getUserData] builds the list of its
    queries, among them [prisma.auditLog.findMany]; the [catch] logs
    and rethrows. *)
Definition exportUserData (env : Env.t) (userId : Id) : Handler string :=
  try_catch (throw (undefinedMember "findMany")) (fun error => throw error).

(** [anonymizeUserData]: the list handed to [prisma.$transaction] is
    built first.  [prisma.user.update], [prisma.address.deleteMany] and
    [prisma.bankData.deleteMany] only describe their query (it is sent
    when the promise is awaited or the transaction runs); the fourth
    element, [prisma.userConsent.deleteMany], throws, so
    [$transaction] is not called and nothing is sent. *)
Definition anonymizeUserData (userId : Id) : Handler unit :=
  throw (undefinedMember "deleteMany").

(** [AuditService.logEvent]: [prisma.auditLog.create] throws inside the
    [try]; the [catch] logs to the console and returns. *)
Definition logEvent (env : Env.t) (userId : Id) (adminId : option Id)
    (eventType entity : string) : Handler unit :=
  try_catch (throw (undefinedMember "create")) (fun _ => ret tt).

(** [processErasureRequest]; the [catch] logs and rethrows. *)
Definition processErasureRequest (env : Env.t) (userId adminId : Id)
    (reason : option string) : Handler unit :=
  try_catch
    (request <- createDataSubjectRequest env userId RequestType.ERASURE ;;
     canErase <- canEraseUserData env userId ;;
     if negb (allowed canErase) then
       updateRequestStatus env (DataSubjectRequest.id request) RequestStatus.REJECTED
         (Some adminId) (LGPD.reason canErase) ;;;
       throw (Err.newError (default "" (LGPD.reason canErase)))
     else
       backupPath <- exportUserData env userId ;;
       anonymizeUserData userId ;;;
       updateRequestStatus env (DataSubjectRequest.id request) RequestStatus.COMPLETED
         (Some adminId) reason ;;;
       logEvent env userId (Some adminId) "USER_DEACTIVATED" "user")
    (fun error => throw error).

End LGPD.

(** ** routes/auth.ts: registration *)

Module Auth.

(** [req.body] of [POST /register]. *)
Record RegisterBody := mkBody {
  firstName : string;
  lastName : string;
  email : string;
  cpf : string;
  phone : option string;
  birthDate : CalendarDate.t;
  password : string;
  confirmPassword : string;
  referralCode : option string
}.

(** What registration uses from outside the database: the verdict of
    the Joi schema, bcrypt, the calendar and the successive results
    of [generateReferralCode()]. *)
Record Deps := mkDeps {
  registerSchema : RegisterBody -> bool;
  hashPassword : string -> string;
  today : CalendarDate.t;
  referralCodes : list string
}.

(** [validate(registerSchema, req.body)]: throws a plain object named
    ValidationError. *)
Definition validate (deps : Deps) (body : RegisterBody) : Handler RegisterBody :=
  if registerSchema deps body then ret body
  else throw (Err.mk Err.PlainObject "ValidationError" "Dados de entrada inválidos"
                None None None false None).

(** utils/helpers.ts [calculateAge] *)
Definition calculateAge (today birth : CalendarDate.t) : Z :=
  let age := (CalendarDate.year today - CalendarDate.year birth)%Z in
  let monthDiff := (CalendarDate.month today - CalendarDate.month birth)%Z in
  if (monthDiff <? 0)%Z
     || ((monthDiff =? 0)%Z && (CalendarDate.date today <? CalendarDate.date birth)%Z)
  then (age - 1)%Z else age.

Definition isMinimumAge (today birth : CalendarDate.t) : bool :=
  (18 <=? calculateAge today birth)%Z.

(** [cpf.replace(/\D/g, '')] *)
Fixpoint cleanCPF (s : string) : string :=
  match s with
  | EmptyString => EmptyString
  | String c rest =>
    let n := nat_of_ascii c in
    if ((48 <=? n) && (n <=? 57))%nat then String c (cleanCPF rest) else cleanCPF rest
  end.

Definition findByReferralCode (code : string) (db : DB.t) : option User.t :=
  List.find (fun u => String.eqb (User.referralCode u) code) (DB.users db).

(** The [while (codeExists)] loop over the codes drawn; [None] when
    every code drawn is taken, the loop then has not ended. *)
Fixpoint freshReferralCode (draws : list string) (db : DB.t) : option string :=
  match draws with
  | [] => None
  | code :: rest =>
    match findByReferralCode code db with
    | Some _ => freshReferralCode rest db
    | None => Some code
    end
  end.

(** [router.post('/register', ..)] up to the row it creates; [None]
    when the referral-code loop has not ended on the codes drawn. *)
Definition register (deps : Deps) (env : Env.t) (body : RegisterBody) (db : DB.t)
  : option (outcome User.t * DB.t) :=
  match validate deps body db with
  | (Throw e, db') => Some (Throw e, db')
  | (Return validatedData, _) =>
    if negb (isMinimumAge (today deps) (birthDate validatedData)) then
      Some (Throw (createError "Você deve ter pelo menos 18 anos para se cadastrar" 400), db)
    else
      let cleanedCPF := cleanCPF (cpf validatedData) in
      let duplicate :=
        match List.find (fun u => String.eqb (User.email u) (email validatedData)
                                  || String.eqb (User.cpf u) cleanedCPF) (DB.users db) with
        | Some existingUser =>
          if String.eqb (User.email existingUser) (email validatedData) then
            Some (createError "Este email já está cadastrado" 409)
          else if String.eqb (User.cpf existingUser) cleanedCPF then
            Some (createError "Este CPF já está cadastrado" 409)
          else None
        | None => None
        end in
      match duplicate with
      | Some e => Some (Throw e, db)
      | None =>
        let hashedPassword := hashPassword deps (password validatedData) in
        match freshReferralCode (referralCodes deps) db with
        | None => None
        | Some referralCode =>
          let resolved :=
            match Auth.referralCode validatedData with
            | Some supplied =>
              if truthyS supplied then
                match findByReferralCode (toUpperCase supplied) db with
                | Some referrer => Return (Some (User.id referrer))
                | None => Throw (createError "Código de indicação inválido" 400)
                end
              else Return None
            | None => Return None
            end in
          match resolved with
          | Throw e => Some (Throw e, db)
          | Return referredById =>
            let user :=
              User.mk (Env.cuid env) (email validatedData) cleanedCPF
                (firstName validatedData) (lastName validatedData)
                (phone validatedData) (Some (birthDate validatedData))
                (Some hashedPassword) false true referralCode referredById in
            Some (Return user, DB.set_users (fun rows => (rows ++ [user])%list) db)
          end
        end
      end
  end.

(** The response of [POST /register]: 201 or the translated error. *)
Definition postRegister (deps : Deps) (env : Env.t) (body : RegisterBody) (db : DB.t)
  : option (HttpResponse User.t * DB.t) :=
  match register deps env body db with
  | Some (Return user, db') => Some (JsonSuccess 201 user, db')
  | Some (Throw e, db') =>
    Some (JsonFailure (ErrorHandler.errorHandler (Env.development env) e), db')
  | None => None
  end.

End Auth.

(** ** Vocabulary of the properties *)

(** The client receives the error envelope with this status, both as the
    HTTP status and inside the body. *)
Definition failsWith {A} (status : Z) (r : HttpResponse A) : Prop :=
  exists resp,
    r = JsonFailure resp
    /\ ErrorHandler.status resp = status
    /\ ErrorHandler.success resp = false
    /\ ErrorHandler.statusCode (ErrorHandler.error resp) = status.

(** The requests of a user that are PENDING, APPROVED or PROCESSING. *)
Definition openRequests (userId : Id) (db : DB.t) : list WithdrawalRequest.t :=
  List.filter (Commissions.isOpenOf userId) (DB.withdrawalRequests db).

(** No user has two requests that are PENDING, APPROVED or PROCESSING. *)
Definition atMostOneOpen (db : DB.t) : Prop :=
  forall userId, (length (openRequests userId db) <= 1)%nat.

(** The status of the first row with the given id. *)
Definition statusOf (withdrawalId : Id) (db : DB.t) : option WithdrawalStatus.t :=
  WithdrawalRequest.status <$>
    List.find (fun w => String.eqb (WithdrawalRequest.id w) withdrawalId)
              (DB.withdrawalRequests db).

(** ** Sample data *)

Module Sample.

(** The database layer of the examples reads in a text the finite
    number that JavaScript reads in it, and refuses every other text. *)
Definition decimalOfText (s : string) : outcome Q :=
  match Js.toNumber s with
  | Js.Finite n => Return n
  | _ => Throw (Err.mk Err.PrismaClientValidationError "PrismaClientValidationError"
                  "invalid decimal" None None None false None)
  end.

Definition env (now : DateTime) (cuid : Id) : Env.t :=
  Env.mk now cuid None false "BC000001ABCDEF" decimalOfText.

Definition bank : BankData.t :=
  BankData.mk "001" "Banco do Brasil" "1234" "56789-0" "corrente" "Ana Souza"
    "52998224725" None None.

Definition ana : User.t :=
  User.mk "u1" "ana@example.org" "52998224725" "Ana" "Souza" (Some "11999990000")
    (Some (CalendarDate.mk 1990 4 12)) (Some "hash") true true "A1B2C3D4" None.

Definition bia : User.t :=
  User.mk "u2" "bia@example.org" "11144477735" "Bia" "Lima" None
    (Some (CalendarDate.mk 1985 0 30)) (Some "hash") true true "0F0F0F0F" (Some "u1").

(** Ana has bank data on file and R$ 100 of AVAILABLE commissions. *)
Definition ledger : DB.t :=
  DB.mk [ana; bia] ∅ {[ "u1" := bank ]} ∅ []
    [Commission.mk "c1" "u1" "u2" 60%Q CommissionStatus.AVAILABLE;
     Commission.mk "c2" "u1" "u2" 40%Q CommissionStatus.AVAILABLE;
     Commission.mk "c3" "u1" "u2" 30%Q CommissionStatus.PENDING]
    [] [] [] ∅ ∅.

(** Ana asks for R$ 50. *)
Definition requested : DB.t :=
  snd (Commissions.postWithdraw (env 1000 "w1") "u1" (Some (Commissions.Number 50)) ledger).

(** A request of Ana that the database holds as PAID. *)
Definition paidRow : WithdrawalRequest.t :=
  WithdrawalRequest.mk "w1" "u1" 50%Q WithdrawalStatus.PAID bank 1000 None (Some 2000)
    None 2000.

Definition settled : DB.t :=
  DB.set_withdrawalRequests (fun _ => [paidRow]) ledger.

(** Ana has bank data on file and R$ 200 of AVAILABLE commissions. *)
Definition funded : DB.t :=
  DB.mk [ana; bia] ∅ {[ "u1" := bank ]} ∅ []
    [Commission.mk "c1" "u1" "u2" 200%Q CommissionStatus.AVAILABLE]
    [] [] [] ∅ ∅.

(** A shop with one product and three coupons valid from 0 to 9000;
    the coupon LIMITE0 has [usageLimitPerUser = 0]. *)
Definition promo10 : Coupon.t :=
  Coupon.mk "k1" "Dez por cento" CouponType.PERCENTAGE 10%Q None (Some 20%Q) 0 9000
    (Some 2) true.
Definition fixo50 : Coupon.t :=
  Coupon.mk "k2" "Cinquenta reais" CouponType.FIXED_AMOUNT 50%Q (Some 30%Q) None 0 9000
    None true.
Definition limite0 : Coupon.t :=
  Coupon.mk "k3" "Sem limite declarado" CouponType.FIXED_AMOUNT 5%Q None None 0 9000
    (Some 0) true.
Definition caneca : Product.t := Product.mk "p1" "Caneca" 40%Q true true 10.

Definition shop : DB.t :=
  DB.mk [ana; bia] ∅ ∅ ∅ [] [] [] [caneca] []
    {[ "PROMO10" := promo10; "FIXO50" := fixo50; "LIMITE0" := limite0 ]} ∅.

(** Ana orders one mug, paying by PIX, with the given coupon code. *)
Definition orderWith (code : string) (db : DB.t) :=
  Orders.postOrder (env 1000 "o1") "u1" (Some [Orders.mkItem "p1" 1])
    (Some "Rua das Flores, 10") (Some "PIX") (Some code) db.

(** Registration on 2 November 2026 with every body accepted by the
    schema and one referral code drawn. *)
Definition deps : Auth.Deps :=
  Auth.mkDeps (fun _ => true) (fun p => "bcrypt:" ++ p) (CalendarDate.mk 2026 10 2)
    ["DEADBEEF"].

Definition caio (email : string) (referralCode : option string) : Auth.RegisterBody :=
  Auth.mkBody "Caio" "Reis" email "390.533.447-05" None (CalendarDate.mk 1995 6 1)
    "Senha#123" "Senha#123" referralCode.

(** Two members without an active subscription, open withdrawal or
    recent billing; both have an address and bank data, and Bia has an
    order and a commission. *)
Definition home : Address.t := Address.mk "Rua das Flores" "10" "Recife" "PE" "50000-000".

Definition registry : DB.t :=
  DB.mk [ana; bia]
    {[ "u1" := home; "u2" := home ]}
    {[ "u1" := bank; "u2" := bank ]}
    {[ "u1" := Subscription.mk "s1" SubscriptionStatus.CANCELED ]}
    [BillingHistory.mk "b1" "s1" 49%Q 1000000000000]
    [Commission.mk "c1" "u2" "u1" 15%Q CommissionStatus.PAID]
    [] [caneca]
    [Order.mk "o1" "u2" "BC000001ABCDEF" 40%Q 0%Q 0%Q 40%Q "PIX" "Rua das Flores, 10" None
       [OrderItem.mk "p1" 1 40%Q]]
    ∅ ∅.

End Sample.


(** The [usageCount] stored for a user and a coupon, 0 without a row. *)
Definition usageCount (userId : Id) (coupon : Coupon.t) (db : DB.t) : Z :=
  default 0 (DB.userCoupons db !! (userId, Coupon.id coupon)).




(** Every item names an active product. *)
Definition productsFound (items : list Orders.Item) (db : DB.t) : bool :=
  forallb (fun item =>
    match List.find (fun p => String.eqb (Product.id p) (Orders.productId item)
                              && Product.isActive p) (DB.products db) with
    | Some _ => true
    | None => false
    end) items.

(** The table after the upsert on one key. *)
Definition usageIncremented (key : Id * Id) (m : gmap (Id * Id) Z) : gmap (Id * Id) Z :=
  match m !! key with
  | Some n => <[key := n + 1]> m
  | None => <[key := 1]> m
  end.

(** Thrown values that the error handler answers with 400: a
    [createError(.., 400)] or Prisma's rejection of an enum value. *)
Definition badRequest (e : Err.t) : Prop :=
  (exists msg, e = createError msg 400)
  \/ e = Err.mk Err.PrismaClientValidationError "PrismaClientValidationError"
           "invalid enum value" None None None false None.

(** A [createError(.., 404)]. *)
Definition notFound (e : Err.t) : Prop := exists msg, e = createError msg 404.

(** The duplicate check of registration finds no row. *)
Definition noDuplicate (body : Auth.RegisterBody) (db : DB.t) : Prop :=
  List.find (fun u => String.eqb (User.email u) (Auth.email body)
                      || String.eqb (User.cpf u) (Auth.cleanCPF (Auth.cpf body)))
            (DB.users db) = None.

(** The three exclusions that [canEraseUserData] tests. *)
Definition excluded (env : Env.t) (userId : Id) (db : DB.t) : Prop :=
  is_Some (LGPD.activeSubscription userId db)
  \/ LGPD.pendingWithdrawals userId db <> []
  \/ LGPD.taxObligations env userId db <> [].

(** The row of a user. *)
Definition userOf (userId : Id) (db : DB.t) : option User.t :=
  List.find (fun u => String.eqb (User.id u) userId) (DB.users db).

(** * Further handlers and helpers

    What lies outside the code of the repository enters as an argument:
    [jwt.verify] as a function from tokens to a payload or to the value
    thrown with its classes, [bcrypt.compare] and the Joi schemas as
    verdicts, the clock and the memory readings as values, and the plan
    table, which the handlers here only read, as a list.  A text is the
    sequence of its code units; [toLowerCase] acts on the ASCII
    letters. *)

(** ** Sequences of withdrawal operations *)

Module Ledger.

(** One request to [POST /api/commissions/withdraw] or to
    [PATCH /api/admin/withdrawals/:id]. *)
Inductive Op :=
| Withdraw (env : Env.t) (userId : Id) (amount : option Commissions.Amount)
| Patch (env : Env.t) (withdrawalId : Id) (status adminNotes : option string).

Definition step (db : DB.t) (op : Op) : DB.t :=
  match op with
  | Withdraw env userId amount => snd (Commissions.postWithdraw env userId amount db)
  | Patch env withdrawalId status adminNotes =>
    snd (Admin.patchWithdrawal env withdrawalId status adminNotes db)
  end.

(** The requests served one after the other. *)
Definition run (ops : list Op) (db : DB.t) : DB.t := fold_left step ops db.

End Ledger.

(** ** routes/commissions.ts: [router.get('/summary', ..)] *)

Module CommissionSummary.

Record t := mk {
  totalEarned : Q;
  availableBalance : Q;
  pendingBalance : Q;
  totalReferrals : nat;
  activeReferrals : nat
}.






End CommissionSummary.

(** What an admin update leaves of a row: everything but the status, the
    notes and the time stamps; a row with another id is left whole, and
    [paidAt] moves only when the status asked for is PAID. *)
Definition keptByUpdate (withdrawalId : Id) (status : option string)
    (w w' : WithdrawalRequest.t) : Prop :=
  WithdrawalRequest.id w' = WithdrawalRequest.id w
  /\ WithdrawalRequest.userId w' = WithdrawalRequest.userId w
  /\ WithdrawalRequest.amount w' = WithdrawalRequest.amount w
  /\ WithdrawalRequest.bankData w' = WithdrawalRequest.bankData w
  /\ WithdrawalRequest.requestedAt w' = WithdrawalRequest.requestedAt w
  /\ (WithdrawalRequest.id w <> withdrawalId -> w' = w)
  /\ (status <> Some "PAID" -> WithdrawalRequest.paidAt w' = WithdrawalRequest.paidAt w).


(** ** Offset pagination of the list routes

    [skip = (Number(page) - 1) * Number(limit)], [take = Number(limit)]
    and [pages = Math.ceil(total / Number(limit))], as in
    [router.get('/', ..)] of the commission, withdrawal, referral,
    order and admin routes and in [AuditService.getLogs]. *)

Module Pagination.

Definition skip (page limit : Z) : Z := (page - 1) * limit.

(** What [findMany({ skip, take })] returns of the ordered selection
    [rows]; pages and limits below 1 are outside the model. *)
Definition pageRows {A} (page limit : Z) (rows : list A) : option (list A) :=
  if (1 <=? page)%Z && (1 <=? limit)%Z
  then Some (take (Z.to_nat limit) (drop (Z.to_nat (skip page limit)) rows))
  else None.

(** [Math.ceil(total / limit)] for a positive [limit]. *)
Definition pages (total limit : Z) : Z := - ((- total) / limit).

End Pagination.

(** ** Vocabulary for orders and coupon quotes *)

(** The active product an item names, as the order loop looks it up. *)
Definition productOf (item : Orders.Item) (db : DB.t) : option Product.t :=
  List.find (fun p => String.eqb (Product.id p) (Orders.productId item)
                      && Product.isActive p) (DB.products db).

(** [Number(product.price) * item.quantity], 0 for an unknown product. *)
Definition lineTotal (item : Orders.Item) (db : DB.t) : Q :=
  match productOf item db with
  | Some p => (Product.price p * inject_Z (Orders.quantity item))%Q
  | None => 0%Q
  end.

(** The lines added up from 0 in the order of the request. *)
Definition itemsTotal (items : list Orders.Item) (db : DB.t) : Q :=
  fold_left (fun acc item => (acc + lineTotal item db)%Q) items 0%Q.

(** The order lines stored: the quantity asked and the price of the
    product at that moment. *)
Definition pricedItems (items : list Orders.Item) (db : DB.t) : list OrderItem.t :=
  flat_map (fun item =>
    match productOf item db with
    | Some p => [OrderItem.mk (Product.id p) (Orders.quantity item) (Product.price p)]
    | None => []
    end) items.

(** The text holds ASCII characters only.  On such a text
    [toUpperCase] above is JavaScript's [toUpperCase]; letters outside
    ASCII, which JavaScript maps as well, are left alone by it. *)
Definition asciiOnly (s : string) : bool :=
  forallb (fun c => (N_of_ascii c <? 128)%N) (list_ascii_of_string s).

(** The conditions under which [POST /api/coupons/validate] quotes a
    discount. *)
Definition quotable (env : Env.t) (userId : Id) (code : string) (cartTotal : Q)
    (db : DB.t) (coupon : Coupon.t) : Prop :=
  truthyS code = true
  /\ DB.coupons db !! toUpperCase code = Some coupon
  /\ CouponRules.current (Env.now env) coupon = true
  /\ usageCount userId coupon db < CouponRules.usageLimit coupon
  /\ CouponRules.belowMinimum coupon cartTotal = false.

(** The three [@unique] columns of [User] hold no value twice. *)
Definition uniqueUsers (db : DB.t) : Prop :=
  List.NoDup (map User.email (DB.users db))
  /\ List.NoDup (map User.cpf (DB.users db))
  /\ List.NoDup (map User.referralCode (DB.users db)).

(** The birthday in year [y] of someone born on [birth] is not after
    [today]: the calendar order on (year, month, day of month). *)
Definition birthdayReached (y : Z) (today birth : CalendarDate.t) : Prop :=
  (y < CalendarDate.year today
   \/ (y = CalendarDate.year today
       /\ (CalendarDate.month birth < CalendarDate.month today
           \/ (CalendarDate.month birth = CalendarDate.month today
               /\ CalendarDate.date birth <= CalendarDate.date today))))%Z.

(** ** middleware/auth.ts *)

Module AuthMiddleware.

(** [JWTPayload] *)
Record JWTPayload := mkPayload { id : Id; email : string }.

(** [jwt.verify(token, secret)]: the payload, or the value thrown
    together with what [instanceof jwt.JsonWebTokenError] and
    [instanceof jwt.TokenExpiredError] answer for it. *)
Inductive Verified :=
| Decoded (payload : JWTPayload)
| Rejected (error : Err.t) (isJsonWebTokenError isTokenExpiredError : bool).

(** [req.user] *)
Record ReqUser := mkUser { userId : Id; userEmail : string }.

(** [s.substring(n)] *)
Definition substringFrom (n : nat) (s : string) : string :=
  String.substring n (String.length s - n) s.

(** The [catch] block of [authenticate], on a value thrown by
    [jwt.verify]. *)
Definition caught (error : Err.t) (isJsonWebTokenError isTokenExpiredError : bool)
  : Err.t :=
  if isJsonWebTokenError then createError "Token inválido" 401
  else if isTokenExpiredError then createError "Token expirado" 401
  else error.

(** [authenticate]; [authorization] is [req.headers.authorization].
    The values of [createError] are plain [Error]s: the [catch] block
    hands them to [next] as they are. *)
Definition authenticate (verify : string -> Verified) (authorization : option string)
  : Handler ReqUser :=
  match authorization with
  | None => throw (createError "Token de acesso requerido" 401)
  | Some authHeader =>
    when_ (negb (truthyS authHeader) || negb (String.prefix "Bearer " authHeader))
    then_throw (createError "Token de acesso requerido" 401) ;;
    let token := substringFrom 7 authHeader in
    when_ (negb (truthyS token)) then_throw
      (createError "Token de acesso requerido" 401) ;;
    match verify token with
    | Rejected error isJsonWebTokenError isTokenExpiredError =>
      throw (caught error isJsonWebTokenError isTokenExpiredError)
    | Decoded decoded =>
      db <- get ;;
      match List.find (fun u => String.eqb (User.id u) (id decoded)) (DB.users db) with
      | None => throw (createError "Usuário não encontrado" 401)
      | Some user =>
        when_ (negb (User.isActive user)) then_throw
          (createError "Conta desativada" 401) ;;
        when_ (negb (User.emailVerified user)) then_throw
          (createError "Email não verificado" 401) ;;
        ret (mkUser (User.id user) (User.email user))
      end
    end
  end.

(** [s.split(',')] for a one-character separator. *)
Fixpoint split (sep : ascii) (s : string) : list string :=
  match s with
  | EmptyString => [EmptyString]
  | String c rest =>
    if Ascii.eqb c sep then EmptyString :: split sep rest
    else match split sep rest with
         | [] => [String c EmptyString]
         | word :: words => String c word :: words
         end
  end.

(** [words.join(',')] *)
Fixpoint join (sep : ascii) (words : list string) : string :=
  match words with
  | [] => EmptyString
  | [word] => word
  | word :: rest => (word ++ String sep (join sep rest))%string
  end.

(** [requireAdmin]; [ADMIN_EMAILS] is [process.env.ADMIN_EMAILS],
    [user] is [req.user]. *)
Definition requireAdmin (ADMIN_EMAILS : option string) (user : option ReqUser)
  : Handler unit :=
  match user with
  | None => throw (createError "Usuário não autenticado" 401)
  | Some user =>
    let adminEmails :=
      match ADMIN_EMAILS with
      | Some s => split "," s
      | None => []
      end in
    when_ (negb (existsb (String.eqb (userEmail user)) adminEmails)) then_throw
      (createError "Acesso negado. Privilégios de administrador requeridos." 403) ;;
    ret tt
  end.

End AuthMiddleware.

(** No comma occurs in the text. *)
Fixpoint commaFree (s : string) : bool :=
  match s with
  | EmptyString => true
  | String c rest => negb (Ascii.eqb c ",") && commaFree rest
  end.

(** ** routes/auth.ts: login *)

Module Login.

(** [req.body] of [POST /login]. *)
Record Body := mkBody { email : string; password : string }.

(** The verdict of [loginSchema] and [bcrypt.compare]. *)
Record Deps := mkDeps {
  loginSchema : Body -> bool;
  compare : string -> string -> bool
}.

(** The user of the response: the selected columns without the
    password. *)
Record Account := mkAccount {
  id : Id; accountEmail : string; firstName : string; lastName : string;
  isActive : bool; emailVerified : bool
}.

(** [router.post('/login', ..)].  [bcrypt.compare] rejects with an
    [Error] when the stored hash is not a string. *)
Definition login (deps : Deps) (body : Body) : Handler Account :=
  when_ (negb (loginSchema deps body)) then_throw
    (Err.mk Err.PlainObject "ValidationError" "Dados de entrada inválidos"
       None None None false None) ;;
  db <- get ;;
  match List.find (fun u => String.eqb (User.email u) (email body)) (DB.users db) with
  | None => throw (createError "Email ou senha incorretos" 401)
  | Some user =>
    match User.password user with
    | None => throw (Err.newError "Illegal arguments: string, object")
    | Some hashed =>
      when_ (negb (compare deps (password body) hashed)) then_throw
        (createError "Email ou senha incorretos" 401) ;;
      when_ (negb (User.isActive user)) then_throw
        (createError "Conta desativada. Entre em contato com o suporte." 401) ;;
      ret (mkAccount (User.id user) (User.email user) (User.firstName user)
             (User.lastName user) (User.isActive user) (User.emailVerified user))
    end
  end.

Definition postLogin (env : Env.t) (deps : Deps) (body : Body) (db : DB.t) :=
  serve env 200 (login deps body) db.

End Login.

(** Tokens of the examples: [ana], [bia] and [caio] decode to the ids
    u1, u2 and u3, [old] has expired, anything else is malformed. *)
Module Tokens.
Definition malformed : Err.t :=
  Err.mk Err.PlainError "JsonWebTokenError" "jwt malformed" None None None false None.
Definition expired : Err.t :=
  Err.mk Err.PlainError "TokenExpiredError" "jwt expired" None None None false None.
Definition verify (token : string) : AuthMiddleware.Verified :=
  if String.eqb token "ana" then
    AuthMiddleware.Decoded (AuthMiddleware.mkPayload "u1" "ana@example.org")
  else if String.eqb token "bia" then
    AuthMiddleware.Decoded (AuthMiddleware.mkPayload "u2" "bia@example.org")
  else if String.eqb token "caio" then
    AuthMiddleware.Decoded (AuthMiddleware.mkPayload "u3" "caio@example.org")
  else if String.eqb token "old" then AuthMiddleware.Rejected expired true true
  else AuthMiddleware.Rejected malformed true false.
End Tokens.

(** [bcrypt.compare] of the examples: the hash of [p] is [bcrypt:p]. *)
Definition sampleLogin : Login.Deps :=
  Login.mkDeps (fun _ => true) (fun p hashed => String.eqb hashed ("bcrypt:" ++ p)).

(** ** utils/validation.ts [validateCPF], utils/helpers.ts [formatCPF] *)

Module CPF.

(** [\d] *)
Definition isDigit (c : ascii) : bool :=
  let n := nat_of_ascii c in ((48 <=? n) && (n <=? 57))%nat.

(** [parseInt(c)] of a digit. *)
Definition digit (c : ascii) : Z := Z.of_nat (nat_of_ascii c) - 48.

(** [for (let i = 0; i < n; i++) sum += parseInt(cpf.charAt(i)) * (top - i)] *)
Definition weightedSum (n : nat) (top : Z) (cpf : list ascii) : Z :=
  fold_left (fun sum i => (sum + digit (nth i cpf zero) * (top - Z.of_nat i))%Z)
            (seq 0 n) 0%Z.

(** [remainder] after the correction of 10 and 11 to 0. *)
Definition checkDigit (sum : Z) : Z :=
  let remainder := (11 - sum mod 11)%Z in
  if (remainder =? 10)%Z || (remainder =? 11)%Z then 0%Z else remainder.

(** [/^(\d)\1{10}$/.test(cpf)] on a text of digits. *)
Definition allSame (cpf : list ascii) : bool :=
  match cpf with
  | [] => false
  | c :: rest => (length rest =? 10)%nat && forallb (Ascii.eqb c) rest
  end.

Definition validateCPF (cpf : string) : bool :=
  let cpf := Auth.cleanCPF cpf in
  let chars := list_ascii_of_string cpf in
  if negb (String.length cpf =? 11)%nat then false
  else if allSame chars then false
  else if negb (checkDigit (weightedSum 9 10 chars) =? digit (nth 9 chars zero))%Z
  then false
  else if negb (checkDigit (weightedSum 10 11 chars) =? digit (nth 10 chars zero))%Z
  then false
  else true.

(** [formatCPF]: in a text of digits the pattern
    [(\d{3})(\d{3})(\d{3})(\d{2})] matches the first eleven characters,
    when there are that many; only the first match is replaced. *)
Definition formatCPF (cpf : string) : string :=
  match Auth.cleanCPF cpf with
  | String a (String b (String c (String d (String e (String f (String g
      (String h (String i (String j (String k rest)))))))))) =>
    String a (String b (String c (String "." (String d (String e (String f
      (String "." (String g (String h (String i (String "-" (String j
        (String k rest)))))))))))))
  | cleaned => cleaned
  end.

End CPF.

(** The text holds digits only. *)
Fixpoint allDigits (s : string) : bool :=
  match s with
  | EmptyString => true
  | String c rest => CPF.isDigit c && allDigits rest
  end.

(** ** middleware/errorHandler.ts, performance monitoring: the adaptive rate limit *)

Module Performance.

(** An entry of [clientRequestCounts]. *)
Record Client := mkClient { count : Z; resetTime : Z }.

Definition Clients := gmap string Client.

(** [getClientRequestCount(ip)] at time [now]. *)
Definition getClientRequestCount (now : Z) (ip : string) : M Clients Z :=
  clients <- get ;;
  match clients !! ip with
  | Some client =>
    if (resetTime client <? now)%Z then
      modify (fun m => <[ip := mkClient 1 (now + 60000)]> m) ;;;
      ret 1%Z
    else
      modify (fun m => <[ip := mkClient (count client + 1) (resetTime client)]> m) ;;;
      ret (count client + 1)%Z
  | None =>
    modify (fun m => <[ip := mkClient 1 (now + 60000)]> m) ;;;
    ret 1%Z
  end.

(** [adaptiveRateLimit]; [stressed] is [memoryStress > 0.8].  The
    answer is [true] for [next()], [false] for the 429 response. *)
Definition adaptiveRateLimit (stressed : bool) (now : Z) (ip : string)
  : M Clients bool :=
  if stressed then
    clientRequests <- getClientRequestCount now ip ;;
    if (10 <? clientRequests)%Z then ret false else ret true
  else ret true.

End Performance.

(** The verdicts of the rate limit on the requests of one client that
    arrive, under stress, at the given times. *)
Fixpoint burst (times : list Z) (ip : string) (clients : Performance.Clients)
  : list (outcome bool) :=
  match times with
  | [] => []
  | now :: rest =>
    let r := Performance.adaptiveRateLimit true now ip clients in
    fst r :: burst rest ip (snd r)
  end.

(** ** utils/encryption.ts [maskSensitiveData] *)

(** A JSON value. *)
#[warnings="-register-all"] Inductive Json :=
| JNull
| JBool (b : bool)
| JNumber (n : Q)
| JString (s : string)
| JArray (items : list Json)
| JObject (members : list (string * Json)).

Module Masking.

(** [String.prototype.toLowerCase] on the ASCII range; other bytes are
    kept. *)
Definition lowerAscii (c : ascii) : ascii :=
  let n := nat_of_ascii c in
  if ((65 <=? n) && (n <=? 90))%nat then ascii_of_nat (n + 32) else c.

Fixpoint toLowerCase (s : string) : string :=
  match s with
  | EmptyString => EmptyString
  | String c rest => String (lowerAscii c) (toLowerCase rest)
  end.

Definition sensitiveFields : list string :=
  ["password"; "cpf"; "cardNumber"; "cvv"; "account"; "agency"; "pixKey"].

(** ['*'.repeat(n)] *)
Fixpoint stars (n : nat) : string :=
  match n with
  | O => EmptyString
  | S n => String "*" (stars n)
  end.

Definition maskValue (value : string) : string :=
  if (String.length value <=? 4)%nat then stars (String.length value)
  else (String.substring 0 2 value ++ stars (String.length value - 4)
        ++ AuthMiddleware.substringFrom (String.length value - 2) value)%string.

(** [typeof v === 'object'] *)
Definition isObject (v : Json) : bool :=
  match v with
  | JNull | JArray _ | JObject _ => true
  | _ => false
  end.

(** The body of the [for (const key in masked)] loop for one key. *)
Definition maskMember (maskObject : Json -> Json) (key : string) (value : Json) : Json :=
  if existsb (String.eqb (toLowerCase key)) sensitiveFields then
    match value with
    | JString s => JString (maskValue s)
    | _ => value
    end
  else if isObject value then maskObject value
  else value.

(** [String(i)] *)
Definition indexKey (i : nat) : string := NilZero.string_of_uint (Nat.to_uint i).

(** [maskObject]; the spread of an array is the object of its
    indices. *)
Fixpoint maskObject (obj : Json) : Json :=
  match obj with
  | JObject members =>
    JObject (map (fun member =>
                    match member with
                    | (key, value) => (key, maskMember maskObject key value)
                    end) members)
  | JArray items =>
    JObject ((fix spread (i : nat) (items : list Json) : list (string * Json) :=
                match items with
                | [] => []
                | value :: rest =>
                  (indexKey i, maskMember maskObject (indexKey i) value)
                  :: spread (S i) rest
                end) O items)
  | _ => obj
  end.

Definition maskSensitiveData (data : Json) : Json := maskObject data.

End Masking.

(** The members of an object. *)
Definition membersOf (v : Json) : list (string * Json) :=
  match v with
  | JObject members => members
  | _ => []
  end.

(** The field names that [key.toLowerCase()] can be equal to. *)
Definition protectedFields : list string :=
  ["password"; "cpf"; "cvv"; "account"; "agency"].

(** ** routes/subscription.ts: [router.post('/subscribe', ..)] *)

Module Subscriptions.

(** The columns of [SubscriptionPlan] that the route reads. *)
Record Plan := mkPlan { id : Id; isActive : bool }.

Definition set_subscriptions
    (f : gmap Id Subscription.t -> gmap Id Subscription.t) (d : DB.t) : DB.t :=
  DB.mk (DB.users d) (DB.addresses d) (DB.bankData d) (f (DB.subscriptions d))
    (DB.billingHistory d) (DB.commissions d) (DB.withdrawalRequests d) (DB.products d)
    (DB.orders d) (DB.coupons d) (DB.userCoupons d).

(** [plans] is the table [subscriptionPlan], which the route only
    reads; [userId] is [req.user.id], [planId] is [req.body.planId].
    [subscription.userId] is unique: [create] fails with P2002 when
    the user has a row. *)
Definition subscribe (env : Env.t) (plans : list Plan) (userId : Id)
    (planId : option string) : Handler Subscription.t :=
  when_ (negb (truthy_opt truthyS planId)) then_throw
    (createError "ID do plano é obrigatório" 400) ;;
  match List.find (fun p => String.eqb (id p) (default "" planId) && isActive p) plans with
  | None => throw (createError "Plano não encontrado ou inativo" 404)
  | Some plan =>
    db <- get ;;
    let existingSubscription := DB.subscriptions db !! userId in
    when_ (match existingSubscription with
           | Some s => SubscriptionStatus.is_active (Subscription.status s)
           | None => false
           end) then_throw
      (createError "Usuário já possui assinatura ativa" 400) ;;
    match existingSubscription with
    | Some _ => throw (Err.prisma "P2002" (Some "userId"))
    | None =>
      let subscription := Subscription.mk (Env.cuid env) SubscriptionStatus.PENDING in
      modify (set_subscriptions (fun m => <[userId := subscription]> m)) ;;;
      ret subscription
    end
  end.

Definition postSubscribe (env : Env.t) (plans : list Plan) (userId : Id)
    (planId : option string) (db : DB.t) :=
  serve env 201 (subscribe env plans userId planId) db.

End Subscriptions.

(** The plan asked for exists and is active. *)
Definition planOffered (plans : list Subscriptions.Plan) (planId : option string) : Prop :=
  exists id,
    planId = Some id /\ id <> EmptyString
    /\ In (Subscriptions.mkPlan id true) plans.

(** * Properties *)

(** ** Arithmetic of the comparisons *)


Lemma Qltb_false (a b : Q) : Qltb a b = false <-> (b <= a)%Q.
Proof.
  unfold Qltb. rewrite negb_false_iff. apply Qle_bool_iff.
Qed.


Lemma Qgtb_false (a b : Q) : Qgtb a b = false <-> (a <= b)%Q.
Proof. apply Qltb_false. Qed.

Lemma Qleb_true (a b : Q) : Qleb a b = true <-> (a <= b)%Q.
Proof. apply Qle_bool_iff. Qed.

(** ** The error envelope *)

Lemma serve_throw {A} env okStatus (h : Handler A) db e db' :
  h db = (Throw e, db') ->
  serve env okStatus h db
  = (JsonFailure (ErrorHandler.errorHandler (Env.development env) e), db').
Proof. intros H. unfold serve. rewrite H. reflexivity. Qed.

Lemma serve_return {A} env okStatus (h : Handler A) db a db' :
  h db = (Return a, db') ->
  serve env okStatus h db = (JsonSuccess okStatus a, db').
Proof. intros H. unfold serve. rewrite H. reflexivity. Qed.

Lemma errorHandler_createError dev msg status :
  status <> 0 ->
  let r := ErrorHandler.errorHandler dev (createError msg status) in
  ErrorHandler.status r = status
  /\ ErrorHandler.success r = false
  /\ ErrorHandler.statusCode (ErrorHandler.error r) = status.
Proof.
  intros Hs. unfold ErrorHandler.errorHandler, ErrorHandler.translate, createError.
  cbn. unfold truthyZ. destruct (Z.eqb_spec status 0) as [->|_]; [contradiction|].
  cbn. destruct dev; cbn; auto.
Qed.

Lemma failsWith_createError {A} dev msg status :
  status <> 0 ->
  @failsWith A status (JsonFailure (ErrorHandler.errorHandler dev (createError msg status))).
Proof.
  intros Hs. eexists. split; [reflexivity|].
  apply (errorHandler_createError dev msg status Hs).
Qed.

#[local] Hint Resolve failsWith_createError : core.

(** C8: every thrown value is answered with the envelope
    [{success:false, error:{message, statusCode}}] whose [statusCode] is
    the HTTP status of the response, and a value that none of the
    branches recognises (no truthy [statusCode], not a Prisma error, not
    a JSON syntax error, not named ValidationError, JsonWebTokenError,
    TokenExpiredError or MulterError) is answered with 500. *)
Theorem errorHandler_envelope_and_fallback (development : bool) (e : Err.t) :
  let r := ErrorHandler.errorHandler development e in
  ErrorHandler.success r = false
  /\ ErrorHandler.statusCode (ErrorHandler.error r) = ErrorHandler.status r
  /\ (ErrorHandler.recognized e = false ->
      ErrorHandler.status r = 500
      /\ ErrorHandler.message (ErrorHandler.error r) = "Erro interno do servidor").
Proof.
  cbv zeta. unfold ErrorHandler.errorHandler.
  destruct (ErrorHandler.translate e) as [[statusCode message] details] eqn:T.
  split; [reflexivity|]. split; [destruct development; reflexivity|].
  intros Hr. unfold ErrorHandler.recognized in Hr.
  repeat (apply orb_false_iff in Hr; destruct Hr as [Hr ?]).
  unfold ErrorHandler.translate in T.
  repeat match goal with H : _ = false |- _ => rewrite H in T; clear H end.
  inversion T; subst. destruct development; split; reflexivity.
Qed.

Lemma errorHandler_envelope_and_fallback_witness :
  ErrorHandler.recognized (Err.newError "boom") = false
  /\ ErrorHandler.status (ErrorHandler.errorHandler false (Err.newError "boom")) = 500.
Proof.
  split; [reflexivity|].
  apply (errorHandler_envelope_and_fallback false (Err.newError "boom")).
  reflexivity.
Defined.

(** ** Withdrawal requests *)

Ltac run_handler :=
  unfold serve, bind, throw, ret, get, modify; cbn [fst snd].

Lemma snd_serve {A} env okStatus (h : Handler A) db :
  snd (serve env okStatus h db) = snd (h db).
Proof. unfold serve. destruct (h db) as [[a|e] db']; reflexivity. Qed.

Lemma find_none_filter_nil {A} (p : A -> bool) (l : list A) :
  List.find p l = None <-> List.filter p l = [].
Proof.
  induction l as [|x l IH]; cbn; [tauto|].
  destruct (p x); [split; discriminate|exact IH].
Qed.

Lemma bankData_eta (b : BankData.t) :
  BankData.mk (BankData.bankCode b) (BankData.bankName b) (BankData.agency b)
    (BankData.account b) (BankData.accountType b) (BankData.holderName b)
    (BankData.holderCpf b) (BankData.pixKey b) (BankData.pixKeyType b) = b.
Proof. destruct b; reflexivity. Qed.

(** The withdraw handler throws a 400 and writes nothing, or the column
    refuses the amount and nothing is written, or it appends the row it
    returns. *)
Lemma withdraw_cases env userId amount db :
  (exists msg, Commissions.withdraw env userId amount db = (Throw (createError msg 400), db))
  \/ (exists a e, amount = Some a /\ Commissions.stored env a = Throw e
                  /\ Commissions.withdraw env userId amount db = (Throw e, db))
  \/ (exists w, Commissions.withdraw env userId amount db
                = (Return w, DB.set_withdrawalRequests (fun rows => (rows ++ [w])%list) db)).
Proof.
  unfold Commissions.withdraw. destruct amount as [a|]; [|left; eexists; reflexivity].
  run_handler.
  destruct (Commissions.falsy a || Js.le (Commissions.toNum a) (Js.Finite 0));
    [left; eexists; reflexivity|].
  destruct (Commissions.belowMinimum env a);
    [left; eexists; reflexivity|].
  destruct (Commissions.exceeds a _); [left; eexists; reflexivity|].
  destruct (DB.bankData db !! userId); [|left; eexists; reflexivity].
  destruct (List.find _ _); [left; eexists; reflexivity|].
  destruct (Commissions.stored env a) as [q|e] eqn:E.
  - right. right. eexists. reflexivity.
  - right. left. exists a, e. auto.
Qed.

(** What a successful withdraw has checked and written. *)
Lemma withdraw_return env userId amount db w db' :
  Commissions.withdraw env userId amount db = (Return w, db') ->
  exists a bank q,
    amount = Some a
    /\ Commissions.falsy a = false
    /\ Js.le (Commissions.toNum a) (Js.Finite 0) = false
    /\ Commissions.belowMinimum env a = false
    /\ Commissions.exceeds a
         (List.filter (Commissions.isAvailableOf userId) (DB.commissions db)) = false
    /\ DB.bankData db !! userId = Some bank
    /\ openRequests userId db = []
    /\ Commissions.stored env a = Return q
    /\ w = WithdrawalRequest.mk (Env.cuid env) userId q WithdrawalStatus.PENDING bank
             (Env.now env) None None None (Env.now env)
    /\ db' = DB.set_withdrawalRequests (fun rows => (rows ++ [w])%list) db.
Proof.
  unfold Commissions.withdraw. destruct amount as [a|]; [|discriminate].
  run_handler.
  destruct (Commissions.falsy a || Js.le (Commissions.toNum a) (Js.Finite 0)) eqn:E1;
    [discriminate|].
  destruct (Commissions.belowMinimum env a) eqn:E2; [discriminate|].
  destruct (Commissions.exceeds a _) eqn:E3; [discriminate|].
  destruct (DB.bankData db !! userId) as [bank|] eqn:E4; [|discriminate].
  destruct (List.find _ _) eqn:E5; [discriminate|].
  destruct (Commissions.stored env a) as [q|e] eqn:E6; [|discriminate].
  rewrite bankData_eta. intros H. inversion H; subst. clear H.
  apply orb_false_iff in E1 as [E0 E1].
  exists a, bank, q. repeat split; try assumption.
  apply find_none_filter_nil. exact E5.
Qed.

Lemma withdraw_open_request_rejected env userId amount db :
  openRequests userId db <> [] ->
  exists msg, Commissions.withdraw env userId amount db = (Throw (createError msg 400), db).
Proof.
  intros Hopen. unfold Commissions.withdraw.
  destruct amount as [a|]; [|eexists; reflexivity]. run_handler.
  destruct (Commissions.falsy a || Js.le (Commissions.toNum a) (Js.Finite 0));
    [eexists; reflexivity|].
  destruct (Commissions.belowMinimum env a);
    [eexists; reflexivity|].
  destruct (Commissions.exceeds a _); [eexists; reflexivity|].
  destruct (DB.bankData db !! userId); [|eexists; reflexivity].
  destruct (List.find _ _) eqn:E; [eexists; reflexivity|].
  apply find_none_filter_nil in E. contradiction.
Qed.

Lemma postWithdraw_of_throw env userId amount db msg :
  Commissions.withdraw env userId amount db = (Throw (createError msg 400), db) ->
  failsWith 400 (fst (Commissions.postWithdraw env userId amount db))
  /\ snd (Commissions.postWithdraw env userId amount db) = db.
Proof.
  intros H. unfold Commissions.postWithdraw. rewrite (serve_throw _ _ _ _ _ _ H).
  split; [apply failsWith_createError; discriminate|reflexivity].
Qed.

Lemma openRequests_app userId db w :
  openRequests userId (DB.set_withdrawalRequests (fun rows => (rows ++ [w])%list) db)
  = (openRequests userId db ++ (if Commissions.isOpenOf userId w then [w] else []))%list.
Proof.
  unfold openRequests. cbn. rewrite List.filter_app. cbn.
  destruct (Commissions.isOpenOf userId w); reflexivity.
Qed.

(** The withdraw handler keeps "at most one open request" for every
    user. *)
Lemma withdraw_preserves_one_open env userId amount db u :
  (length (openRequests u db) <= 1)%nat ->
  (length (openRequests u (snd (Commissions.withdraw env userId amount db))) <= 1)%nat.
Proof.
  intros Hinv.
  destruct (withdraw_cases env userId amount db) as [[msg H]|[(a & e & _ & _ & H)|[w H]]].
  - rewrite H. exact Hinv.
  - rewrite H. exact Hinv.
  - rewrite H. cbn [snd]. rewrite openRequests_app.
    apply withdraw_return in H as (a & bank & q & _ & _ & _ & _ & _ & _ & Hnil & _ & Hw & _).
    destruct (Commissions.isOpenOf u w) eqn:E.
    + assert (u = userId) as ->.
      { unfold Commissions.isOpenOf in E. apply andb_true_iff in E as [E _].
        apply String.eqb_eq in E. subst w. cbn in E. congruence. }
      rewrite Hnil. cbn. lia.
    + rewrite app_nil_r. exact Hinv.
Qed.

(** *** An amount sent as a number *)

Lemma le_finite (a b : Q) : Js.le (Js.Finite a) (Js.Finite b) = Qleb a b.
Proof. unfold Js.le, Js.lt, Qltb, Qleb. apply negb_involutive. Qed.

Lemma withdraw_number env userId a db :
  Commissions.withdraw env userId (Some (Commissions.Number a)) db
  = if negb (truthyQ a) || Qleb a 0 then
      (Throw (createError "Valor inválido para saque" 400), db)
    else if Qltb a (Commissions.minWithdrawal env) then
      (Throw (createError "Valor mínimo para saque" 400), db)
    else if Qgtb a (Commissions.availableBalance userId db) then
      (Throw (createError "Saldo insuficiente" 400), db)
    else
      match DB.bankData db !! userId with
      | None => (Throw (createError "Dados bancários não cadastrados" 400), db)
      | Some bank =>
        match openRequests userId db with
        | _ :: _ =>
          (Throw (createError "Você já possui uma solicitação de saque pendente" 400), db)
        | [] =>
          if Decimal.fits a then
            (Return (WithdrawalRequest.mk (Env.cuid env) userId (Decimal.round2 a)
                       WithdrawalStatus.PENDING bank (Env.now env) None None None
                       (Env.now env)),
             DB.set_withdrawalRequests
               (fun rows =>
                  (rows ++ [WithdrawalRequest.mk (Env.cuid env) userId (Decimal.round2 a)
                              WithdrawalStatus.PENDING bank (Env.now env) None None None
                              (Env.now env)])%list) db)
          else (Throw (Err.prisma "P2020" None), db)
        end
      end.
Proof.
  unfold Commissions.withdraw. run_handler.
  cbn [Commissions.falsy Commissions.toNum]. rewrite le_finite.
  destruct (negb (truthyQ a) || Qleb a 0); [reflexivity|].
  cbn [Commissions.belowMinimum].
  destruct (Qltb a (Commissions.minWithdrawal env)); [reflexivity|].
  cbn [Commissions.exceeds]. fold (Commissions.availableBalance userId db).
  destruct (Qgtb a (Commissions.availableBalance userId db)); [reflexivity|].
  destruct (DB.bankData db !! userId) as [bank|]; [|reflexivity].
  unfold openRequests.
  destruct (List.find _ _) as [w|] eqn:E.
  - destruct (List.filter _ _) eqn:F; [|reflexivity].
    apply find_none_filter_nil in F. congruence.
  - apply find_none_filter_nil in E. rewrite E.
    cbn [Commissions.stored]. unfold Decimal.store.
    destruct (Decimal.fits a); [|reflexivity].
    rewrite bankData_eta. reflexivity.
Qed.

Lemma positive_number (a : Q) :
  negb (truthyQ a) || Qleb a 0 = false <-> (0 < a)%Q.
Proof.
  split.
  - intros H. apply orb_false_iff in H as [_ H]. apply Qnot_le_lt. intros Hle.
    apply Qleb_true in Hle. congruence.
  - intros H0. apply orb_false_iff. split.
    + unfold truthyQ. rewrite negb_involutive.
      destruct (Qeq_bool a 0) eqn:E; [|reflexivity].
      apply Qeq_bool_iff in E. rewrite E in H0. exfalso. exact (Qlt_irrefl _ H0).
    + destruct (Qleb a 0) eqn:E; [|reflexivity].
      apply Qleb_true in E. exfalso. exact (Qlt_not_le _ _ H0 E).
Qed.

Lemma failsWith_P2020 {A} dev :
  @failsWith A 400 (JsonFailure (ErrorHandler.errorHandler dev (Err.prisma "P2020" None))).
Proof. eexists. split; [reflexivity|]. destruct dev; repeat split. Qed.

(** A number is accepted exactly when it passes the five checks and
    fits the column; every refusal is a 400 that writes nothing. *)
Lemma withdraw_number_accepted_iff env userId a db :
  let r := Commissions.postWithdraw env userId (Some (Commissions.Number a)) db in
  ((exists w, fst r = JsonSuccess 201 w)
   <-> (0 < a)%Q /\ (Commissions.minWithdrawal env <= a)%Q
       /\ (a <= Commissions.availableBalance userId db)%Q
       /\ is_Some (DB.bankData db !! userId)
       /\ openRequests userId db = []
       /\ Decimal.fits a = true)
  /\ ((forall w, fst r <> JsonSuccess 201 w) -> failsWith 400 (fst r) /\ snd r = db).
Proof.
  cbv zeta. unfold Commissions.postWithdraw, serve. rewrite withdraw_number.
  destruct (negb (truthyQ a) || Qleb a 0) eqn:E1.
  { split; [split; [intros [w H]; discriminate|]|].
    - intros (H0 & _). apply positive_number in H0. congruence.
    - intros _. split; [apply failsWith_createError; discriminate|reflexivity]. }
  apply positive_number in E1.
  destruct (Qltb a (Commissions.minWithdrawal env)) eqn:E2.
  { split; [split; [intros [w H]; discriminate|]|].
    - intros (_ & Hmin & _). apply Qltb_false in Hmin. congruence.
    - intros _. split; [apply failsWith_createError; discriminate|reflexivity]. }
  apply Qltb_false in E2.
  destruct (Qgtb a (Commissions.availableBalance userId db)) eqn:E3.
  { split; [split; [intros [w H]; discriminate|]|].
    - intros (_ & _ & Hbal & _). apply Qgtb_false in Hbal. congruence.
    - intros _. split; [apply failsWith_createError; discriminate|reflexivity]. }
  apply Qgtb_false in E3.
  destruct (DB.bankData db !! userId) as [bank|] eqn:E4.
  2:{ split; [split; [intros [w H]; discriminate|]|].
      - intros (_ & _ & _ & [b Hb] & _). discriminate.
      - intros _. split; [apply failsWith_createError; discriminate|reflexivity]. }
  destruct (openRequests userId db) as [|w0 l] eqn:E5.
  2:{ split; [split; [intros [w H]; discriminate|]|].
      - intros (_ & _ & _ & _ & Hnil & _). discriminate.
      - intros _. split; [apply failsWith_createError; discriminate|reflexivity]. }
  destruct (Decimal.fits a) eqn:E6.
  - split; [split; [intros _; repeat split; eauto|intros _; eexists; reflexivity]|].
    intros Hno. exfalso. exact (Hno _ eq_refl).
  - split; [split; [intros [w H]; discriminate|]|].
    + intros (_ & _ & _ & _ & _ & Hfits). discriminate.
    + intros _. split; [apply failsWith_P2020|reflexivity].
Qed.

(** A number above the sum of the user's AVAILABLE commissions, a
    number that is not positive and a number below the minimum are
    answered with 400, and nothing is written. *)
Lemma withdraw_number_over_balance env userId a db :
  (Commissions.availableBalance userId db < a)%Q \/ (a <= 0)%Q
  \/ (a < Commissions.minWithdrawal env)%Q ->
  failsWith 400 (fst (Commissions.postWithdraw env userId (Some (Commissions.Number a)) db))
  /\ snd (Commissions.postWithdraw env userId (Some (Commissions.Number a)) db) = db.
Proof.
  intros H.
  destruct (withdraw_number_accepted_iff env userId a db) as [Hiff Hfail].
  apply Hfail. intros w Hw.
  assert (Hex : exists w, fst (Commissions.postWithdraw env userId
                                 (Some (Commissions.Number a)) db) = JsonSuccess 201 w)
    by eauto.
  apply Hiff in Hex as (H0 & Hmin & Hbal & _).
  destruct H as [H|[H|H]].
  - exact (Qlt_not_le _ _ H Hbal).
  - exact (Qlt_not_le _ _ H0 H).
  - exact (Qlt_not_le _ _ H Hmin).
Qed.

(** C1 (defect in the code): the route reads [amount] from a body that
    nothing checks.  Sent as the string "1000" by a user whose
    AVAILABLE commissions add up to 200, the amount passes the three
    numeric tests as the number 1000, is then compared with the
    balance as text ("1000" against "200", and "1" comes before "2"),
    and the request is created with the amount 1000. *)
Theorem text_amount_accepted_over_balance :
  let r := Commissions.postWithdraw (Sample.env 1000 "w1") "u1"
             (Some (Commissions.Text "1000")) Sample.funded in
  (Commissions.availableBalance "u1" Sample.funded == 200)%Q
  /\ Commissions.toNum (Commissions.Text "1000") = Js.Finite 1000
  /\ Decimal.valueOf (Commissions.availableBalance "u1" Sample.funded) = "200"
  /\ Js.stringGt "1000" "200" = false
  /\ exists w,
       fst r = JsonSuccess 201 w
       /\ (WithdrawalRequest.amount w == 1000)%Q
       /\ (Commissions.availableBalance "u1" Sample.funded < WithdrawalRequest.amount w)%Q
       /\ DB.withdrawalRequests (snd r) = [w].
Proof.
  cbv zeta. split; [reflexivity|]. split; [vm_compute; reflexivity|].
  split; [vm_compute; reflexivity|]. split; [reflexivity|].
  eexists. split; [vm_compute; reflexivity|]. cbn [WithdrawalRequest.amount].
  split; [reflexivity|]. split; [reflexivity|]. vm_compute. reflexivity.
Qed.

(** ** The admin update of a withdrawal request *)

Lemma includes_true (status : option string) :
  Admin.includes status = true
  <-> status = Some "APPROVED" \/ status = Some "REJECTED" \/ status = Some "PAID".
Proof.
  unfold Admin.includes, Admin.acceptedStatuses. destruct status as [s|].
  - cbn [existsb]. rewrite orb_false_r, !orb_true_iff, !String.eqb_eq.
    split; intros [H|[H|H]]; subst; auto; inversion H; auto.
  - split; [discriminate|]. intros [H|[H|H]]; discriminate.
Qed.

Lemma includes_false (status : option string) :
  Admin.includes status = false
  <-> status <> Some "APPROVED" /\ status <> Some "REJECTED" /\ status <> Some "PAID".
Proof.
  split.
  - intros H. repeat split; intros ->; discriminate.
  - intros (H1 & H2 & H3). destruct (Admin.includes status) eqn:E; [|reflexivity].
    apply includes_true in E as [E|[E|E]]; contradiction.
Qed.

(** The three ways the update handler ends: in each the database is
    left as it was. *)
Lemma updateWithdrawal_cases env withdrawalId status adminNotes db :
  (Admin.includes status = false
   /\ exists msg, Admin.updateWithdrawal env withdrawalId status adminNotes db
                  = (Throw (createError msg 400), db))
  \/ (Admin.includes status = true
      /\ statusOf withdrawalId db = None
      /\ exists msg, Admin.updateWithdrawal env withdrawalId status adminNotes db
                     = (Throw (createError msg 404), db))
  \/ (Admin.includes status = true
      /\ (exists w, List.find (fun w => String.eqb (WithdrawalRequest.id w) withdrawalId)
                      (DB.withdrawalRequests db) = Some w)
      /\ Admin.updateWithdrawal env withdrawalId status adminNotes db
         = (Throw Admin.unknownInclude, db)).
Proof.
  unfold Admin.updateWithdrawal, statusOf. run_handler.
  destruct (Admin.includes status) eqn:Hinc; cbn [negb].
  - destruct (List.find _ _) as [w|] eqn:Hfind.
    + right. right. split; [reflexivity|]. split; [eauto|].
      apply includes_true in Hinc as [-> | [-> | ->]]; reflexivity.
    + right. left. repeat split. eexists. reflexivity.
  - left. split; [reflexivity|]. eexists. reflexivity.
Qed.

Lemma updateWithdrawal_writes_nothing env withdrawalId status adminNotes db :
  snd (Admin.updateWithdrawal env withdrawalId status adminNotes db) = db.
Proof.
  destruct (updateWithdrawal_cases env withdrawalId status adminNotes db)
    as [[_ [msg E]]|[(_ & _ & [msg E])|(_ & _ & E)]]; rewrite E; reflexivity.
Qed.

Lemma failsWith_unknownInclude {A} dev :
  @failsWith A 400 (JsonFailure (ErrorHandler.errorHandler dev Admin.unknownInclude)).
Proof. eexists. split; [reflexivity|]. destruct dev; repeat split. Qed.

Lemma find_some_of_In {A} (p : A -> bool) (l : list A) (x : A) :
  In x l -> p x = true -> exists y, List.find p l = Some y.
Proof.
  induction l as [|a l IH]; cbn; [tauto|].
  intros [->|Hin] Hp.
  - rewrite Hp. eauto.
  - destruct (p a); eauto.
Qed.

(** C10: a requested status other than APPROVED, REJECTED and PAID is
    answered with 400 and nothing is read or written; whatever the
    request, a row that is PROCESSING or CANCELED afterwards is a row
    that was in the table, unchanged, before. *)
Theorem patchWithdrawal_accepts_three_targets
    (env : Env.t) (withdrawalId : Id) (status adminNotes : option string) (db : DB.t) :
  let r := Admin.patchWithdrawal env withdrawalId status adminNotes db in
  (status <> Some "APPROVED" -> status <> Some "REJECTED" -> status <> Some "PAID" ->
   failsWith 400 (fst r) /\ snd r = db)
  /\ (forall w, In w (DB.withdrawalRequests (snd r)) ->
        WithdrawalRequest.status w = WithdrawalStatus.PROCESSING
        \/ WithdrawalRequest.status w = WithdrawalStatus.CANCELED ->
        In w (DB.withdrawalRequests db)).
Proof.
  cbv zeta. unfold Admin.patchWithdrawal. split.
  - intros H1 H2 H3.
    assert (Hinc : Admin.includes status = false) by (apply includes_false; auto).
    destruct (updateWithdrawal_cases env withdrawalId status adminNotes db)
      as [[_ [msg E]]|[[Hinc' _]|[Hinc' _]]]; try congruence.
    rewrite (serve_throw _ _ _ _ _ _ E). split; [|reflexivity].
    apply failsWith_createError. discriminate.
  - intros w Hin _. rewrite snd_serve, updateWithdrawal_writes_nothing in Hin.
    exact Hin.
Qed.

Lemma patchWithdrawal_accepts_three_targets_witness :
  failsWith 400
    (fst (Admin.patchWithdrawal (Sample.env 2000 "") "w1" (Some "PROCESSING") None
            Sample.ledger))
  /\ snd (Admin.patchWithdrawal (Sample.env 2000 "") "w1" (Some "PROCESSING") None
            Sample.ledger) = Sample.ledger.
Proof.
  apply (patchWithdrawal_accepts_three_targets (Sample.env 2000 "") "w1"
           (Some "PROCESSING") None Sample.ledger); discriminate.
Defined.

(** ** Sequences of withdraw requests and admin updates *)

Lemma step_requests op db :
  exists added,
    DB.withdrawalRequests (Ledger.step db op) = (DB.withdrawalRequests db ++ added)%list.
Proof.
  destruct op as [env userId amount|env withdrawalId status adminNotes]; cbn.
  - unfold Commissions.postWithdraw. rewrite snd_serve.
    destruct (withdraw_cases env userId amount db)
      as [[msg H]|[(a & e & _ & _ & H)|[w H]]]; rewrite H; cbn [snd].
    + exists []. rewrite app_nil_r. reflexivity.
    + exists []. rewrite app_nil_r. reflexivity.
    + exists [w]. reflexivity.
  - unfold Admin.patchWithdrawal. rewrite snd_serve, updateWithdrawal_writes_nothing.
    exists []. rewrite app_nil_r. reflexivity.
Qed.

Lemma run_requests ops db :
  exists added,
    DB.withdrawalRequests (Ledger.run ops db) = (DB.withdrawalRequests db ++ added)%list.
Proof.
  revert db. induction ops as [|op ops IH]; intros db.
  - exists []. rewrite app_nil_r. reflexivity.
  - cbn. destruct (IH (Ledger.step db op)) as [later Hlater].
    destruct (step_requests op db) as [added Hadded].
    exists (added ++ later)%list. unfold Ledger.run in Hlater.
    rewrite Hlater, Hadded, app_assoc. reflexivity.
Qed.

Lemma find_app_some {A} (p : A -> bool) (l added : list A) (x : A) :
  List.find p l = Some x -> List.find p (l ++ added)%list = Some x.
Proof.
  induction l as [|a l IH]; cbn; [discriminate|].
  destruct (p a); [auto|exact IH].
Qed.

Lemma run_one_open ops db : atMostOneOpen db -> atMostOneOpen (Ledger.run ops db).
Proof.
  revert db. induction ops as [|op ops IH]; intros db Hinv; [exact Hinv|].
  cbn. apply IH. intros u.
  destruct op as [env userId amount|env withdrawalId status adminNotes]; cbn.
  - unfold Commissions.postWithdraw. rewrite snd_serve.
    apply withdraw_preserves_one_open. exact (Hinv u).
  - unfold Admin.patchWithdrawal. rewrite snd_serve, updateWithdrawal_writes_nothing.
    exact (Hinv u).
Qed.

(** C2: a request that is PAID stays PAID under every sequence of
    withdraw requests and admin updates.  The admin update has no
    guard on the current status; it changes no row at all, because
    the update it sends asks to include [user], which is no relation
    of the model: an update with an accepted status for an existing
    request is refused with 400 before anything is written. *)
Theorem paid_is_terminal (ops : list Ledger.Op) (db : DB.t) :
  (forall w, In w (DB.withdrawalRequests db) ->
     WithdrawalRequest.status w = WithdrawalStatus.PAID ->
     In w (DB.withdrawalRequests (Ledger.run ops db)))
  /\ (forall withdrawalId,
        statusOf withdrawalId db = Some WithdrawalStatus.PAID ->
        statusOf withdrawalId (Ledger.run ops db) = Some WithdrawalStatus.PAID)
  /\ (forall env withdrawalId status adminNotes,
        snd (Admin.patchWithdrawal env withdrawalId status adminNotes db) = db
        /\ (Admin.includes status = true -> statusOf withdrawalId db <> None ->
            failsWith 400
              (fst (Admin.patchWithdrawal env withdrawalId status adminNotes db)))).
Proof.
  destruct (run_requests ops db) as [added Hrun]. split; [|split].
  - intros w Hin _. rewrite Hrun. apply in_or_app. left. exact Hin.
  - intros withdrawalId. unfold statusOf. rewrite Hrun.
    destruct (List.find _ (DB.withdrawalRequests db)) as [w|] eqn:E; [|discriminate].
    rewrite (find_app_some _ _ added _ E). auto.
  - intros env withdrawalId status adminNotes. unfold Admin.patchWithdrawal.
    rewrite snd_serve, updateWithdrawal_writes_nothing. split; [reflexivity|].
    intros Hinc Hrow.
    destruct (updateWithdrawal_cases env withdrawalId status adminNotes db)
      as [[Hinc' _]|[(_ & Hnone & _)|(_ & _ & E)]]; try congruence.
    rewrite (serve_throw _ _ _ _ _ _ E). apply failsWith_unknownInclude.
Qed.

Lemma paid_is_terminal_witness :
  statusOf "w1"
    (Ledger.run [Ledger.Patch (Sample.env 3000 "") "w1" (Some "APPROVED") None;
                 Ledger.Withdraw (Sample.env 4000 "w2") "u1"
                   (Some (Commissions.Number 60));
                 Ledger.Patch (Sample.env 5000 "") "w1" (Some "REJECTED")
                   (Some "estorno")]
       Sample.settled)
  = Some WithdrawalStatus.PAID.
Proof.
  destruct (paid_is_terminal
              [Ledger.Patch (Sample.env 3000 "") "w1" (Some "APPROVED") None;
               Ledger.Withdraw (Sample.env 4000 "w2") "u1"
                 (Some (Commissions.Number 60));
               Ledger.Patch (Sample.env 5000 "") "w1" (Some "REJECTED")
                 (Some "estorno")]
              Sample.settled) as (_ & H & _).
  apply H. reflexivity.
Defined.

(** C3 (amended): no sequence of withdraw requests and admin updates
    gives a user a second request in PENDING, APPROVED or PROCESSING.
    A withdraw request of a user who has such a request is answered
    with 400 and writes nothing.  A request that is accepted found no
    such request, and appends exactly one row: PENDING, for the
    caller, with the amount as the column stores it and the bank data
    on file at that moment, which a later change of the bank data does
    not touch.  A numeric amount is accepted exactly when it is
    positive, at least the minimum and at most the balance, bank data
    is on file, the caller has no open request and the amount fits the
    column; it is stored rounded to two decimals, and a numeric amount
    that is not accepted is answered with 400.  A request that is not
    accepted writes nothing. *)
Theorem withdraw_keeps_one_open_request
    (env : Env.t) (userId : Id) (amount : option Commissions.Amount) (db : DB.t) :
  let r := Commissions.postWithdraw env userId amount db in
  (forall ops db0, atMostOneOpen db0 -> atMostOneOpen (Ledger.run ops db0))
  /\ (openRequests userId db <> [] -> failsWith 400 (fst r) /\ snd r = db)
  /\ (forall w, fst r = JsonSuccess 201 w ->
        openRequests userId db = []
        /\ DB.bankData db !! userId = Some (WithdrawalRequest.bankData w)
        /\ WithdrawalRequest.status w = WithdrawalStatus.PENDING
        /\ WithdrawalRequest.userId w = userId
        /\ (exists a, amount = Some a
                      /\ Commissions.stored env a = Return (WithdrawalRequest.amount w))
        /\ snd r = DB.set_withdrawalRequests (fun rows => (rows ++ [w])%list) db
        /\ openRequests userId (snd r) = [w]
        /\ forall newBank,
             DB.withdrawalRequests (snd (UserRoutes.putBankData userId newBank (snd r)))
             = (DB.withdrawalRequests db ++ [w])%list)
  /\ (forall a, amount = Some (Commissions.Number a) ->
        ((exists w, fst r = JsonSuccess 201 w)
         <-> (0 < a)%Q /\ (Commissions.minWithdrawal env <= a)%Q
             /\ (a <= Commissions.availableBalance userId db)%Q
             /\ is_Some (DB.bankData db !! userId)
             /\ openRequests userId db = []
             /\ Decimal.fits a = true)
        /\ (forall w, fst r = JsonSuccess 201 w ->
                      WithdrawalRequest.amount w = Decimal.round2 a)
        /\ ((forall w, fst r <> JsonSuccess 201 w) -> failsWith 400 (fst r)))
  /\ ((forall w, fst r <> JsonSuccess 201 w) -> snd r = db).
Proof.
  cbv zeta. split; [|split; [|split; [|split]]].
  - intros ops db0. apply run_one_open.
  - intros Hopen.
    destruct (withdraw_open_request_rejected env userId amount db Hopen) as [msg E].
    exact (postWithdraw_of_throw _ _ _ _ _ E).
  - intros w Hw. unfold Commissions.postWithdraw, serve in *.
    destruct (Commissions.withdraw env userId amount db) as [[w1|e] db'] eqn:E;
      cbn [fst snd] in *; [|discriminate].
    inversion Hw; subst w1. clear Hw.
    apply withdraw_return in E
      as (a & bank & q & Ha & _ & _ & _ & _ & Hbank & Hnil & Hq & Hw & Hdb).
    subst db'. repeat split.
    + exact Hnil.
    + rewrite Hbank, Hw. reflexivity.
    + rewrite Hw. reflexivity.
    + rewrite Hw. reflexivity.
    + exists a. rewrite Hw. auto.
    + rewrite openRequests_app, Hnil.
      assert (Commissions.isOpenOf userId w = true) as ->; [|reflexivity].
      rewrite Hw. unfold Commissions.isOpenOf. cbn. rewrite String.eqb_refl. reflexivity.
  - intros a ->. split; [|split].
    + apply (withdraw_number_accepted_iff env userId a db).
    + intros w. unfold Commissions.postWithdraw, serve.
      destruct (Commissions.withdraw env userId (Some (Commissions.Number a)) db)
        as [[w1|e] db'] eqn:E; cbn [fst]; [|discriminate].
      intros Hw. inversion Hw; subst w1.
      apply withdraw_return in E
        as (a' & bank & q & Ha & _ & _ & _ & _ & _ & _ & Hq & -> & _).
      inversion Ha; subst a'. cbn [Commissions.stored] in Hq. unfold Decimal.store in Hq.
      destruct (Decimal.fits a); inversion Hq. reflexivity.
    + intros Hno. apply (withdraw_number_accepted_iff env userId a db). exact Hno.
  - intros Hno. unfold Commissions.postWithdraw in *. rewrite snd_serve.
    destruct (withdraw_cases env userId amount db)
      as [[msg H]|[(a & e & _ & _ & H)|[w H]]]; try (rewrite H; reflexivity).
    exfalso. apply (Hno w). unfold serve. rewrite H. reflexivity.
Qed.

Lemma withdraw_keeps_one_open_request_witness :
  openRequests "u1" Sample.requested <> []
  /\ failsWith 400
       (fst (Commissions.postWithdraw (Sample.env 1500 "w9") "u1"
               (Some (Commissions.Number 50)) Sample.requested))
  /\ snd (Commissions.postWithdraw (Sample.env 1500 "w9") "u1"
            (Some (Commissions.Number 50)) Sample.requested) = Sample.requested.
Proof.
  assert (H : openRequests "u1" Sample.requested <> []) by (vm_compute; discriminate).
  split; [exact H|].
  destruct (withdraw_keeps_one_open_request (Sample.env 1500 "w9") "u1"
              (Some (Commissions.Number 50)) Sample.requested) as (_ & Hopen & _).
  exact (Hopen H).
Defined.

(** C3 fails as stated: Ana has no request in PENDING, APPROVED or
    PROCESSING, yet her request is not created: R$ 30 is below the
    minimum of R$ 50, the answer is 400 and the table stays empty. *)
Lemma no_open_request_yet_refused :
  openRequests "u1" Sample.ledger = []
  /\ is_Some (DB.bankData Sample.ledger !! "u1")
  /\ failsWith 400
       (fst (Commissions.postWithdraw (Sample.env 1000 "w1") "u1"
               (Some (Commissions.Number 30)) Sample.ledger))
  /\ DB.withdrawalRequests
       (snd (Commissions.postWithdraw (Sample.env 1000 "w1") "u1"
               (Some (Commissions.Number 30)) Sample.ledger)) = [].
Proof.
  split; [reflexivity|]. split; [vm_compute; eauto|].
  split; [|vm_compute; reflexivity].
  eexists. split; [vm_compute; reflexivity|]. repeat split.
Qed.

(** ** Coupon validation *)







(** ** Orders and coupon usage *)



Lemma validateItems_cases items subtotal validatedItems db :
  (exists e, Orders.validateItems items subtotal validatedItems db = (Throw e, db)
             /\ ((exists msg, e = createError msg 400)
                 \/ (productsFound items db = false /\ exists msg, e = createError msg 404)))
  \/ (exists r, Orders.validateItems items subtotal validatedItems db = (Return r, db)).
Proof.
  revert subtotal validatedItems.
  induction items as [|item rest IH]; intros subtotal validatedItems; cbn.
  - right. eexists. reflexivity.
  - run_handler. destruct (List.find _ (DB.products db)) as [product|] eqn:Hfind.
    + destruct (Product.trackStock product && _).
      * left. eexists. split; [reflexivity|]. left. eexists. reflexivity.
      * cbn. apply IH.
    + left. eexists. split; [reflexivity|]. right. split; [reflexivity|].
      eexists. reflexivity.
Qed.

Lemma findCurrent_lookup now code db coupon :
  CouponRules.findCurrent now code db = Some coupon ->
  DB.coupons db !! code = Some coupon.
Proof.
  unfold CouponRules.findCurrent. destruct (DB.coupons db !! code) as [c|]; [|discriminate].
  destruct (CouponRules.current now c); [|discriminate]. intros H. exact H.
Qed.

Lemma applyCoupon_cases env userId couponCode subtotal db :
  (exists msg, Orders.applyCoupon env userId couponCode subtotal db
               = (Throw (createError msg 400), db))
  \/ (exists coupon discount,
        CouponRules.findCurrent (Env.now env) couponCode db = Some coupon
        /\ (forall n, DB.userCoupons db !! (userId, Coupon.id coupon) = Some n ->
                      n < CouponRules.usageLimit coupon)
        /\ Orders.applyCoupon env userId couponCode subtotal db = (Return discount, db)).
Proof.
  unfold Orders.applyCoupon. run_handler.
  destruct (CouponRules.findCurrent _ _ db) as [coupon|] eqn:Hfind;
    [|left; eexists; reflexivity].
  destruct (DB.userCoupons db !! (userId, Coupon.id coupon)) as [n|] eqn:Hrow.
  - destruct (Z.leb_spec (CouponRules.usageLimit coupon) n) as [Hle|Hlt].
    + left. eexists. reflexivity.
    + destruct (CouponRules.belowMinimum coupon subtotal);
        [left; eexists; reflexivity|].
      right. exists coupon. eexists. split; [reflexivity|]. split; [|reflexivity].
      intros n' Hn'. rewrite Hrow in Hn'. inversion Hn'; subst. exact Hlt.
  - destruct (CouponRules.belowMinimum coupon subtotal);
      [left; eexists; reflexivity|].
    right. exists coupon. eexists. split; [reflexivity|]. split; [|reflexivity].
    intros n' Hn'. rewrite Hrow in Hn'. discriminate.
Qed.

(** The two ways order creation ends: a refusal that writes nothing, or
    the order appended and, with a coupon, the usage row of the caller
    and that coupon incremented. *)
Lemma create_cases env userId items shippingAddress paymentMethod couponCode db :
  (exists e, Orders.create env userId items shippingAddress paymentMethod couponCode db
             = (Throw e, db)
             /\ (badRequest e
                 \/ (notFound e
                     /\ exists l, items = Some l /\ productsFound l db = false)))
  \/ (exists order,
        if truthy_opt truthyS couponCode then
          exists coupon,
            CouponRules.findCurrent (Env.now env) (default "" couponCode) db = Some coupon
            /\ (forall n, DB.userCoupons db !! (userId, Coupon.id coupon) = Some n ->
                          n < CouponRules.usageLimit coupon)
            /\ Orders.create env userId items shippingAddress paymentMethod couponCode db
               = (Return order,
                  DB.set_userCoupons (usageIncremented (userId, Coupon.id coupon))
                    (DB.set_orders (fun rows => (rows ++ [order])%list) db))
        else Orders.create env userId items shippingAddress paymentMethod couponCode db
             = (Return order, DB.set_orders (fun rows => (rows ++ [order])%list) db)).
Proof.
  unfold Orders.create.
  destruct items as [[|item rest]|];
    [left; eexists; split; [reflexivity|left; left; eexists; reflexivity]|
    |left; eexists; split; [reflexivity|left; left; eexists; reflexivity]].
  run_handler.
  destruct (negb (truthy_opt truthyS shippingAddress));
    [left; eexists; split; [reflexivity|left; left; eexists; reflexivity]|].
  destruct (negb (truthy_opt truthyS paymentMethod));
    [left; eexists; split; [reflexivity|left; left; eexists; reflexivity]|].
  destruct (validateItems_cases (item :: rest) 0%Q [] db)
    as [(e & -> & [He|[Hnf He]])|[[subtotal validatedItems] ->]].
  - left. eexists. split; [reflexivity|]. left. left. exact He.
  - left. eexists. split; [reflexivity|]. right. split; [exact He|]. eauto.
  - cbn [fst snd]. destruct (truthy_opt truthyS couponCode) eqn:Hcode.
    + destruct (applyCoupon_cases env userId (default "" couponCode) subtotal db)
        as [[msg ->]|(coupon & discount & Hfind & Hlim & ->)].
      * left. eexists. split; [reflexivity|]. left. left. eexists. reflexivity.
      * destruct (negb (existsb _ Orders.paymentMethods)).
        -- left. eexists. split; [reflexivity|]. left. right. reflexivity.
        -- right. eexists. exists coupon. split; [exact Hfind|]. split; [exact Hlim|].
           unfold Orders.upsertUsage. run_handler. cbn [DB.coupons DB.set_orders].
           rewrite (findCurrent_lookup _ _ _ _ Hfind). reflexivity.
    + destruct (negb (existsb _ Orders.paymentMethods)).
      * left. eexists. split; [reflexivity|]. left. right. reflexivity.
      * right. eexists. reflexivity.
Qed.






(** ** Referral resolution at registration *)

Lemma find_some_In {A} (p : A -> bool) (l : list A) (x : A) :
  List.find p l = Some x -> In x l /\ p x = true.
Proof. apply List.find_some. Qed.

Lemma NoDup_map_inj_on {A B} (f : A -> B) (l : list A) (x y : A) :
  List.NoDup (List.map f l) -> In x l -> In y l -> f x = f y -> x = y.
Proof.
  induction l as [|a l IH]; cbn; [tauto|].
  intros Hnd Hx Hy Hf. apply List.NoDup_cons_iff in Hnd as [Hnotin Hnd].
  destruct Hx as [->|Hx], Hy as [->|Hy].
  - reflexivity.
  - exfalso. apply Hnotin. rewrite Hf. apply in_map. exact Hy.
  - exfalso. apply Hnotin. rewrite <- Hf. apply in_map. exact Hx.
  - exact (IH Hnd Hx Hy Hf).
Qed.

Lemma validationError_status {A} dev :
  @failsWith A 400
    (JsonFailure (ErrorHandler.errorHandler dev
       (Err.mk Err.PlainObject "ValidationError" "Dados de entrada inválidos"
          None None None false None))).
Proof. eexists. split; [reflexivity|]. destruct dev; cbn; auto. Qed.

(** How registration ends when it ends: a refusal with 400 or 409 that
    writes nothing, or the new row appended with the referrer
    resolved. *)
Lemma postRegister_cases deps env body db res db' :
  Auth.postRegister deps env body db = Some (res, db') ->
  (db' = db /\ (failsWith 400 res \/ failsWith 409 res))
  \/ (exists user,
        res = JsonSuccess 201 user
        /\ db' = DB.set_users (fun rows => (rows ++ [user])%list) db
        /\ match Auth.referralCode body with
           | Some supplied =>
             if truthyS supplied then
               exists referrer,
                 Auth.findByReferralCode (toUpperCase supplied) db = Some referrer
                 /\ User.referredById user = Some (User.id referrer)
             else User.referredById user = None
           | None => User.referredById user = None
           end).
Proof.
  unfold Auth.postRegister, Auth.register, Auth.validate, ret, throw.
  destruct (Auth.registerSchema deps body).
  2:{ intros H. inversion H; subst. left. split; [reflexivity|]. left.
      apply validationError_status. }
  destruct (negb (Auth.isMinimumAge (Auth.today deps) (Auth.birthDate body))).
  { intros H. inversion H; subst. left. split; [reflexivity|]. left.
    apply failsWith_createError. discriminate. }
  destruct (List.find _ (DB.users db)) as [existingUser|].
  - destruct (String.eqb (User.email existingUser) (Auth.email body)).
    { intros H. inversion H; subst. left. split; [reflexivity|]. right.
      apply failsWith_createError. discriminate. }
    destruct (String.eqb (User.cpf existingUser) (Auth.cleanCPF (Auth.cpf body))).
    { intros H. inversion H; subst. left. split; [reflexivity|]. right.
      apply failsWith_createError. discriminate. }
    destruct (Auth.freshReferralCode _ db) as [referralCode|]; [|discriminate].
    destruct (Auth.referralCode body) as [supplied|].
    + destruct (truthyS supplied).
      * destruct (Auth.findByReferralCode (toUpperCase supplied) db) as [referrer|].
        -- intros H. inversion H; subst. right. eexists. split; [reflexivity|].
           split; [reflexivity|]. exists referrer. split; reflexivity.
        -- intros H. inversion H; subst. left. split; [reflexivity|]. left.
           apply failsWith_createError. discriminate.
      * intros H. inversion H; subst. right. eexists. repeat split.
    + intros H. inversion H; subst. right. eexists. repeat split.
  - destruct (Auth.freshReferralCode _ db) as [referralCode|]; [|discriminate].
    destruct (Auth.referralCode body) as [supplied|].
    + destruct (truthyS supplied).
      * destruct (Auth.findByReferralCode (toUpperCase supplied) db) as [referrer|].
        -- intros H. inversion H; subst. right. eexists. split; [reflexivity|].
           split; [reflexivity|]. exists referrer. split; reflexivity.
        -- intros H. inversion H; subst. left. split; [reflexivity|]. left.
           apply failsWith_createError. discriminate.
      * intros H. inversion H; subst. right. eexists. repeat split.
    + intros H. inversion H; subst. right. eexists. repeat split.
Qed.

(** Past the schema, the age check and the duplicate check, with a free
    referral code drawn, an unknown referral code is answered with 400. *)
Lemma postRegister_unknown_referral deps env body db supplied :
  Auth.registerSchema deps body = true ->
  Auth.isMinimumAge (Auth.today deps) (Auth.birthDate body) = true ->
  noDuplicate body db ->
  is_Some (Auth.freshReferralCode (Auth.referralCodes deps) db) ->
  Auth.referralCode body = Some supplied ->
  truthyS supplied = true ->
  Auth.findByReferralCode (toUpperCase supplied) db = None ->
  exists res, Auth.postRegister deps env body db = Some (res, db) /\ failsWith 400 res.
Proof.
  intros Hschema Hage Hdup [code Hfresh] Hsupplied Htruthy Hnone.
  unfold Auth.postRegister, Auth.register, Auth.validate, ret.
  unfold noDuplicate in Hdup.
  rewrite Hschema, Hage. cbn [negb]. rewrite Hdup, Hfresh, Hsupplied, Htruthy, Hnone.
  eexists. split; [reflexivity|]. apply failsWith_createError. discriminate.
Qed.

(** C7 (amended): a supplied referral code that, uppercased, matches no
    user makes registration fail without creating a user; the answer is
    400, or 409 when the e-mail or CPF is already registered, and it is
    400 as soon as the body passes the schema, the age check and the
    duplicate check and a free referral code is drawn.  When
    registration succeeds the new user's [referredById] is the id of the
    user whose [referralCode] is the uppercased code supplied, and null
    when no code (or an empty one) is supplied. *)
Theorem register_resolves_referral
    (deps : Auth.Deps) (env : Env.t) (body : Auth.RegisterBody) (db : DB.t) :
  let r := Auth.postRegister deps env body db in
  (forall supplied,
     Auth.referralCode body = Some supplied -> truthyS supplied = true ->
     Auth.findByReferralCode (toUpperCase supplied) db = None ->
     (forall res db', r = Some (res, db') ->
                      db' = db /\ (failsWith 400 res \/ failsWith 409 res))
     /\ (Auth.registerSchema deps body = true ->
         Auth.isMinimumAge (Auth.today deps) (Auth.birthDate body) = true ->
         noDuplicate body db ->
         is_Some (Auth.freshReferralCode (Auth.referralCodes deps) db) ->
         exists res, r = Some (res, db) /\ failsWith 400 res))
  /\ (forall user db',
        r = Some (JsonSuccess 201 user, db') ->
        DB.users db' = (DB.users db ++ [user])%list
        /\ match Auth.referralCode body with
           | Some supplied =>
             if truthyS supplied then
               exists referrer,
                 In referrer (DB.users db)
                 /\ User.referralCode referrer = toUpperCase supplied
                 /\ User.referredById user = Some (User.id referrer)
                 /\ (List.NoDup (List.map User.referralCode (DB.users db)) ->
                     forall other, In other (DB.users db) ->
                                   User.referralCode other = toUpperCase supplied ->
                                   other = referrer)
             else User.referredById user = None
           | None => User.referredById user = None
           end).
Proof.
  cbv zeta. split.
  - intros supplied Hsupplied Htruthy Hnone. split.
    + intros res db' H. apply postRegister_cases in H as [H|(user & _ & _ & H)];
        [exact H|].
      rewrite Hsupplied, Htruthy in H. destruct H as (referrer & Hfind & _).
      rewrite Hnone in Hfind. discriminate.
    + intros Hschema Hage Hdup Hfresh.
      exact (postRegister_unknown_referral deps env body db supplied Hschema Hage Hdup
               Hfresh Hsupplied Htruthy Hnone).
  - intros user db' H.
    apply postRegister_cases in H as [[_ [(resp & Hresp & _)|(resp & Hresp & _)]]
                                     |(user' & Heq & -> & H)]; try discriminate.
    inversion Heq; subst user'. clear Heq. split; [reflexivity|].
    destruct (Auth.referralCode body) as [supplied|]; [|exact H].
    destruct (truthyS supplied); [|exact H].
    destruct H as (referrer & Hfind & Hby).
    unfold Auth.findByReferralCode in Hfind. apply find_some_In in Hfind as [Hin Hcode].
    apply String.eqb_eq in Hcode.
    exists referrer. split; [exact Hin|]. split; [exact Hcode|]. split; [exact Hby|].
    intros Hnd other Hother Hcode'.
    apply (NoDup_map_inj_on User.referralCode (DB.users db) other referrer Hnd Hother Hin).
    congruence.
Qed.

Lemma register_resolves_referral_witness :
  Auth.referralCode (Sample.caio "caio@example.org" (Some "zzzzzzzz")) = Some "zzzzzzzz"
  /\ Auth.findByReferralCode (toUpperCase "zzzzzzzz") Sample.ledger = None
  /\ exists res,
       Auth.postRegister Sample.deps (Sample.env 5000 "u3")
         (Sample.caio "caio@example.org" (Some "zzzzzzzz")) Sample.ledger
       = Some (res, Sample.ledger)
       /\ failsWith 400 res.
Proof.
  split; [reflexivity|]. split; [reflexivity|].
  destruct (register_resolves_referral Sample.deps (Sample.env 5000 "u3")
              (Sample.caio "caio@example.org" (Some "zzzzzzzz")) Sample.ledger)
    as [H _].
  destruct (H "zzzzzzzz" eq_refl eq_refl eq_refl) as [_ H400].
  apply H400; [reflexivity|reflexivity|reflexivity|].
  vm_compute. eexists. reflexivity.
Defined.

(** C7 fails as stated: the referral code matches no user, yet the
    answer is 409, not 400, because the e-mail is already registered
    and that check comes first. *)
Lemma unknown_referral_answered_409 :
  Auth.findByReferralCode (toUpperCase "zzzzzzzz") Sample.ledger = None
  /\ (http_status ∘ fst) <$>
       Auth.postRegister Sample.deps (Sample.env 5000 "u3")
         (Sample.caio "ana@example.org" (Some "zzzzzzzz")) Sample.ledger
     = Some 409.
Proof. vm_compute. split; reflexivity. Qed.

(** ** LGPD erasure *)

Lemma length_positive {A} (l : list A) :
  (0 <? Z.of_nat (length l))%Z = true <-> l <> [].
Proof.
  destruct l as [|x l]; cbn [length].
  - split; [discriminate|intros H; contradiction].
  - split; [discriminate|intros _]. apply Z.ltb_lt. lia.
Qed.

(** [canEraseUserData] reads only: it refuses exactly under one of the
    three exclusions, and then gives a reason. *)
Lemma canEraseUserData_spec env userId db :
  exists v, LGPD.canEraseUserData env userId db = (Return v, db)
            /\ (LGPD.allowed v = false <-> excluded env userId db)
            /\ (LGPD.allowed v = false -> is_Some (LGPD.reason v)).
Proof.
  unfold LGPD.canEraseUserData, excluded. run_handler.
  destruct (LGPD.activeSubscription userId db) as [s|] eqn:Hs.
  { eexists. split; [reflexivity|]. cbn. split; [|eauto]. split; eauto. }
  destruct (0 <? Z.of_nat (length (LGPD.pendingWithdrawals userId db)))%Z eqn:Hw.
  { eexists. split; [reflexivity|]. cbn. split; [|eauto]. split; [|reflexivity].
    intros _. right. left. apply length_positive. exact Hw. }
  destruct (0 <? Z.of_nat (length (LGPD.taxObligations env userId db)))%Z eqn:Ht.
  { eexists. split; [reflexivity|]. cbn. split; [|eauto]. split; [|reflexivity].
    intros _. right. right. apply length_positive. exact Ht. }
  eexists. split; [reflexivity|]. cbn. split; [|discriminate]. split; [discriminate|].
  intros [[s Hsome]|[Hne|Hne]].
  - discriminate.
  - apply length_positive in Hne. congruence.
  - apply length_positive in Hne. congruence.
Qed.

(** C6 (defect in the code): [anonymizeUserData] names
    [prisma.userConsent], the delegate of a model that schema.prisma
    does not declare.  Building the array of the transaction reads
    [deleteMany] of [undefined]: every call throws a [TypeError] before
    a query is sent, for every user and every database, and the
    account keeps its data. *)
Theorem anonymization_never_runs (userId : Id) (db : DB.t) :
  LGPD.anonymizeUserData userId db = (Throw (LGPD.undefinedMember "deleteMany"), db).
Proof. reflexivity. Qed.

(** C5 (defect in the code): [processErasureRequest] starts by
    recording the request through [prisma.dataSubjectRequest], the
    delegate of a model that schema.prisma does not declare.  Every
    call throws a [TypeError] there and writes nothing: the three
    exclusions are never looked at, and a user under none of them is
    not anonymized either. *)
Theorem erasure_request_never_proceeds
    (env : Env.t) (userId adminId : Id) (reason : option string) (db : DB.t) :
  LGPD.processErasureRequest env userId adminId reason db
  = (Throw (LGPD.undefinedMember "create"), db).
Proof. reflexivity. Qed.

(** * Further properties *)

(** ** The ledger under withdrawals and admin updates *)

Lemma withdraw_commissions env userId amount db :
  DB.commissions (snd (Commissions.withdraw env userId amount db)) = DB.commissions db
  /\ DB.bankData (snd (Commissions.withdraw env userId amount db)) = DB.bankData db.
Proof.
  destruct (withdraw_cases env userId amount db)
    as [[msg H]|[(a & e & _ & _ & H)|[w H]]]; rewrite H; split; reflexivity.
Qed.

Lemma updateWithdrawal_commissions env withdrawalId status adminNotes db :
  DB.commissions (snd (Admin.updateWithdrawal env withdrawalId status adminNotes db))
  = DB.commissions db
  /\ DB.bankData (snd (Admin.updateWithdrawal env withdrawalId status adminNotes db))
     = DB.bankData db.
Proof. rewrite updateWithdrawal_writes_nothing. split; reflexivity. Qed.

(** X1: no sequence of withdraw requests and admin updates changes a
    commission: the AVAILABLE balance of every user is afterwards what
    it was, whatever was requested, approved or paid. *)
Theorem balance_untouched_by_withdrawals (ops : list Ledger.Op) (db : DB.t) :
  DB.commissions (Ledger.run ops db) = DB.commissions db
  /\ forall userId,
       Commissions.availableBalance userId (Ledger.run ops db)
       = Commissions.availableBalance userId db.
Proof.
  assert (H : DB.commissions (Ledger.run ops db) = DB.commissions db).
  { revert db. induction ops as [|op ops IH]; intros db; [reflexivity|].
    cbn. rewrite IH. destruct op; cbn.
    - unfold Commissions.postWithdraw. rewrite snd_serve.
      apply withdraw_commissions.
    - unfold Admin.patchWithdrawal. rewrite snd_serve.
      apply updateWithdrawal_commissions. }
  split; [exact H|]. intros userId. unfold Commissions.availableBalance.
  rewrite H. reflexivity.
Qed.

(** X3: an admin update creates and deletes no request, and leaves of
    every request the id, the owner, the amount, the bank snapshot and
    the request date; a request with another id is not changed at all,
    and [paidAt] is written only when the status asked for is PAID. *)
Theorem update_keeps_request_contents
    (env : Env.t) (withdrawalId : Id) (status adminNotes : option string) (db : DB.t) :
  Forall2 (keptByUpdate withdrawalId status)
    (DB.withdrawalRequests db)
    (DB.withdrawalRequests
       (snd (Admin.patchWithdrawal env withdrawalId status adminNotes db))).
Proof.
  unfold Admin.patchWithdrawal. rewrite snd_serve, updateWithdrawal_writes_nothing.
  induction (DB.withdrawalRequests db) as [|x l IH]; constructor; [|exact IH].
  unfold keptByUpdate. auto 10.
Qed.

(** X4: an admin update with an accepted status for an id that no
    request has is answered with 404 and writes nothing. *)
Theorem update_unknown_id_not_found
    (env : Env.t) (withdrawalId : Id) (status adminNotes : option string) (db : DB.t) :
  status = Some "APPROVED" \/ status = Some "REJECTED" \/ status = Some "PAID" ->
  (forall w, In w (DB.withdrawalRequests db) -> WithdrawalRequest.id w <> withdrawalId) ->
  failsWith 404 (fst (Admin.patchWithdrawal env withdrawalId status adminNotes db))
  /\ snd (Admin.patchWithdrawal env withdrawalId status adminNotes db) = db.
Proof.
  intros Hstatus Hnone. unfold Admin.patchWithdrawal.
  destruct (updateWithdrawal_cases env withdrawalId status adminNotes db)
    as [[Hinc _]|[(_ & _ & [msg E])|(_ & [w0 Hfind] & _)]].
  - apply includes_false in Hinc as (H1 & H2 & H3).
    destruct Hstatus as [?|[?|?]]; contradiction.
  - rewrite (serve_throw _ _ _ _ _ _ E). split; [|reflexivity].
    apply failsWith_createError. discriminate.
  - exfalso. apply find_some_In in Hfind as [Hin Hid].
    apply String.eqb_eq in Hid. exact (Hnone w0 Hin Hid).
Qed.

Lemma update_unknown_id_not_found_witness :
  failsWith 404
    (fst (Admin.patchWithdrawal (Sample.env 2000 "") "w7" (Some "PAID") None
            Sample.requested)).
Proof.
  apply (update_unknown_id_not_found (Sample.env 2000 "") "w7" (Some "PAID") None
           Sample.requested).
  - right. right. reflexivity.
  - intros w Hin. vm_compute in Hin. destruct Hin as [<-|[]]. discriminate.
Defined.

(** ** The commission summary *)







(** ** Pagination *)

Lemma pages_cover_nat {A} (L n : nat) (rows : list A) :
  (length rows <= n * L)%nat ->
  concat (map (fun i => take L (drop (i * L) rows)) (seq 0 n)) = rows.
Proof.
  revert rows. induction n as [|n IH]; intros rows Hlen.
  - cbn in Hlen. destruct rows; [reflexivity|cbn in Hlen; lia].
  - cbn [seq map concat]. rewrite <- seq_shift, map_map.
    replace (drop (0 * L) rows) with rows by reflexivity.
    transitivity (take L rows ++ drop L rows)%list; [|apply take_drop]. f_equal.
    etransitivity; [|apply (IH (drop L rows)); rewrite length_drop; lia].
    f_equal. apply map_ext. intros i. rewrite drop_drop. f_equal; f_equal; lia.
Qed.

Lemma pages_bound (total limit : Z) :
  1 <= limit -> 0 <= total ->
  total <= Pagination.pages total limit * limit
  /\ 0 <= Pagination.pages total limit
  /\ (Pagination.pages total limit - 1) * limit < total \/ total = 0.
Proof.
  intros Hl Ht. unfold Pagination.pages.
  pose proof (Z.div_mod (- total) limit ltac:(lia)) as Hdm.
  pose proof (Z.mod_pos_bound (- total) limit ltac:(lia)) as Hmod.
  destruct (Z.eq_dec total 0) as [->|Hne]; [right; reflexivity|left]. nia.
Qed.

(** X6: with a limit of at least 1, the pages 1 to
    [Math.ceil(total / limit)] of a selection, one after the other, are
    the selection itself, each page has at most [limit] rows, and every
    later page is empty. *)
Theorem pages_cover_selection {A} (limit : Z) (rows : list A) :
  1 <= limit ->
  let pages := Pagination.pages (Z.of_nat (length rows)) limit in
  concat (map (fun p => default [] (Pagination.pageRows (Z.of_nat p) limit rows))
              (seq 1 (Z.to_nat pages))) = rows
  /\ (forall page, 1 <= page ->
        exists l, Pagination.pageRows page limit rows = Some l
                  /\ Z.of_nat (length l) <= limit
                  /\ (pages < page -> l = [])).
Proof.
  intros Hl. cbv zeta.
  assert (Hb : Z.of_nat (length rows)
               <= Pagination.pages (Z.of_nat (length rows)) limit * limit
               /\ 0 <= Pagination.pages (Z.of_nat (length rows)) limit).
  { destruct (pages_bound (Z.of_nat (length rows)) limit Hl ltac:(lia))
      as [(H1 & H2 & _)|H0].
    - auto.
    - rewrite H0. unfold Pagination.pages. cbn. rewrite Z.div_0_l by lia. lia. }
  destruct Hb as [Hcover Hpos]. split.
  - rewrite <- seq_shift, map_map.
    rewrite <- (pages_cover_nat (Z.to_nat limit)
                  (Z.to_nat (Pagination.pages (Z.of_nat (length rows)) limit)) rows)
      at 2
      by (rewrite <- Z2Nat.inj_mul by lia; apply Nat2Z.inj_le;
          rewrite Z2Nat.id by nia; exact Hcover).
    f_equal. apply map_ext. intros i. unfold Pagination.pageRows, Pagination.skip.
    destruct (Z.leb_spec 1 (Z.of_nat (S i))); [|lia].
    destruct (Z.leb_spec 1 limit); [|lia]. cbn [andb default].
    f_equal. f_equal. replace (Z.of_nat (S i) - 1) with (Z.of_nat i) by lia.
    rewrite Z2Nat.inj_mul by lia. rewrite Nat2Z.id. reflexivity.
  - intros page Hpage. unfold Pagination.pageRows, Pagination.skip.
    destruct (Z.leb_spec 1 page); [|lia]. destruct (Z.leb_spec 1 limit); [|lia].
    cbn [andb]. eexists. split; [reflexivity|]. split.
    + rewrite length_take. lia.
    + intros Hlater. rewrite drop_ge; [apply take_nil|].
      apply Nat2Z.inj_le. rewrite Z2Nat.id by nia. nia.
Qed.

Lemma pages_cover_selection_witness :
  concat (map (fun p => default [] (Pagination.pageRows (Z.of_nat p) 2 [10; 20; 30; 40; 50]))
              (seq 1 (Z.to_nat (Pagination.pages 5 2)))) = [10; 20; 30; 40; 50].
Proof.
  apply (pages_cover_selection 2 [10; 20; 30; 40; 50]). lia.
Defined.

(** ** What the error translator shows *)

Lemma production_body_of_translate (e : Err.t) :
  ErrorHandler.errorHandler false e
  = ErrorHandler.mkResponse (fst (fst (ErrorHandler.translate e))) false
      (ErrorHandler.mkBody (snd (fst (ErrorHandler.translate e)))
         (fst (fst (ErrorHandler.translate e))) None None).
Proof.
  unfold ErrorHandler.errorHandler.
  destruct (ErrorHandler.translate e) as [[s m] d]. reflexivity.
Qed.

Lemma translate_ignores_message cls name msg msg' code target target' hasBody stack stack'
    statusCode :
  truthy_opt truthyZ statusCode = false ->
  fst (ErrorHandler.translate
         (Err.mk cls name msg statusCode code target hasBody stack))
  = fst (ErrorHandler.translate
           (Err.mk cls name msg' statusCode code target' hasBody stack')).
Proof.
  intros H. unfold ErrorHandler.translate. cbn [Err.statusCode Err.class Err.name
    Err.message Err.code Err.metaTarget Err.hasBody]. rewrite H.
  repeat match goal with
         | |- context [if ?b then _ else _] => destruct b
         end; try reflexivity.
  repeat match goal with
         | |- context [match ?x with _ => _ end] => destruct x
         end; reflexivity.
Qed.

(** X7: outside development the answer to a thrown value that carries
    no truthy [statusCode] does not depend on its message, its stack or
    its meta target: only a fixed text reaches the client, and the body
    has neither [stack] nor [details]. *)
Theorem production_answer_hides_internals (e e' : Err.t) :
  truthy_opt truthyZ (Err.statusCode e) = false ->
  Err.class e' = Err.class e -> Err.name e' = Err.name e ->
  Err.statusCode e' = Err.statusCode e -> Err.code e' = Err.code e ->
  Err.hasBody e' = Err.hasBody e ->
  ErrorHandler.errorHandler false e' = ErrorHandler.errorHandler false e
  /\ ErrorHandler.stack (ErrorHandler.error (ErrorHandler.errorHandler false e)) = None
  /\ ErrorHandler.details (ErrorHandler.error (ErrorHandler.errorHandler false e)) = None.
Proof.
  intros Hfalsy Hclass Hname Hstatus Hcode Hbody.
  rewrite !production_body_of_translate. split; [|split; reflexivity].
  destruct e as [cls name msg statusCode code target hasBody stack].
  destruct e' as [cls' name' msg' statusCode' code' target' hasBody' stack'].
  cbn in *. subst.
  rewrite (translate_ignores_message cls name msg' msg code target' target hasBody
             stack' stack statusCode Hfalsy).
  reflexivity.
Qed.

Lemma production_answer_hides_internals_witness :
  ErrorHandler.errorHandler false (Err.newError "connect ECONNREFUSED 10.0.0.5:5432")
  = ErrorHandler.errorHandler false (Err.newError "boom").
Proof.
  apply (production_answer_hides_internals (Err.newError "boom")
           (Err.newError "connect ECONNREFUSED 10.0.0.5:5432")); reflexivity.
Defined.

(** ** Coupon quotes and orders *)

Lemma findCurrent_spec now code db coupon :
  CouponRules.findCurrent now code db = Some coupon
  <-> DB.coupons db !! code = Some coupon /\ CouponRules.current now coupon = true.
Proof.
  unfold CouponRules.findCurrent. destruct (DB.coupons db !! code) as [c|].
  - destruct (CouponRules.current now c) eqn:E.
    + split; [intros H; inversion H; subst; auto|intros [H _]; exact H].
    + split; [discriminate|]. intros [H Hc]. inversion H; subst. congruence.
  - split; [discriminate|intros [H _]; discriminate].
Qed.

Lemma validate_cases env userId code cartTotal db :
  (exists msg, Coupons.validate env userId code cartTotal db
               = (Throw (createError msg 400), db))
  \/ (exists q, Coupons.validate env userId code cartTotal db = (Return q, db)).
Proof.
  unfold Coupons.validate. destruct code as [c|]; [|left; eexists; reflexivity].
  run_handler.
  destruct (negb (truthyS c)); [left; eexists; reflexivity|].
  destruct (CouponRules.findCurrent _ _ db); [|left; eexists; reflexivity].
  destruct (_ <=? _)%Z; [left; eexists; reflexivity|].
  destruct (CouponRules.belowMinimum _ _); [left; eexists; reflexivity|].
  right. eexists. reflexivity.
Qed.

(** What the validation route answers, in terms of the coupon stored
    under the key that the handler looks up. *)
Lemma validate_quotes env userId code cartTotal db :
  let r := Coupons.postValidate env userId (Some code) cartTotal db in
  ((exists q, fst r = JsonSuccess 200 q)
   <-> exists coupon, quotable env userId code cartTotal db coupon)
  /\ ((forall coupon, ~ quotable env userId code cartTotal db coupon) ->
      failsWith 400 (fst r))
  /\ snd r = db.
Proof.
  cbv zeta. unfold Coupons.postValidate.
  assert (Hiff : (exists q, Coupons.validate env userId (Some code) cartTotal db
                            = (Return q, db))
                 <-> exists coupon, quotable env userId code cartTotal db coupon).
  { unfold Coupons.validate, quotable, usageCount. run_handler.
    destruct (truthyS code); cbn [negb].
    2:{ split; [intros [q H]; discriminate|intros (c & H & _); discriminate]. }
    destruct (CouponRules.findCurrent (Env.now env) (toUpperCase code) db)
      as [coupon|] eqn:Hfind.
    2:{ split; [intros [q H]; discriminate|].
        intros (c & _ & Hl & Hc & _).
        assert (Hsome : CouponRules.findCurrent (Env.now env) (toUpperCase code) db
                        = Some c) by (apply findCurrent_spec; auto).
        rewrite Hsome in Hfind. discriminate. }
    apply findCurrent_spec in Hfind as [Hl Hc].
    assert (Hcount : match DB.userCoupons db !! (userId, Coupon.id coupon) with
                     | Some n => if truthyZ n then n else 0
                     | None => 0
                     end = default 0 (DB.userCoupons db !! (userId, Coupon.id coupon))).
    { destruct (DB.userCoupons db !! (userId, Coupon.id coupon)) as [n|]; cbn;
        [|reflexivity].
      unfold truthyZ. destruct (Z.eqb_spec n 0) as [->|_]; reflexivity. }
    rewrite Hcount.
    destruct (Z.leb_spec (CouponRules.usageLimit coupon)
                (default 0 (DB.userCoupons db !! (userId, Coupon.id coupon))))
      as [Hle|Hlt].
    { split; [intros [q H]; discriminate|].
      intros (c & _ & Hl' & _ & Hlt & _). rewrite Hl in Hl'. inversion Hl'; subst c.
      lia. }
    destruct (CouponRules.belowMinimum coupon cartTotal) eqn:Hmin.
    { split; [intros [q H]; discriminate|].
      intros (c & _ & Hl' & _ & _ & Hb). rewrite Hl in Hl'. inversion Hl'; subst c.
      congruence. }
    split; [intros _; exists coupon; auto 10|intros _; eexists; reflexivity]. }
  destruct (validate_cases env userId (Some code) cartTotal db) as [[msg E]|[q E]].
  - rewrite (serve_throw _ _ _ _ _ _ E). cbn [fst snd]. split; [|split].
    + split; [intros [q H]; discriminate|]. intros Hq. apply Hiff in Hq as [q Hq].
      rewrite E in Hq. discriminate.
    + intros _. apply failsWith_createError. discriminate.
    + reflexivity.
  - rewrite (serve_return _ _ _ _ _ _ E). cbn [fst snd]. split; [|split].
    + split; [intros _; apply Hiff; eauto|intros _; eauto].
    + intros Hnone. exfalso. assert (Hq : exists q, Coupons.validate env userId
        (Some code) cartTotal db = (Return q, db)) by eauto.
      apply Hiff in Hq as [coupon Hq]. exact (Hnone coupon Hq).
    + reflexivity.
Qed.

(** X8: for a code of ASCII characters, the validation route quotes a
    discount exactly when the code is not empty, a coupon is stored
    under its uppercase form, that coupon is active with
    [startDate <= now <= endDate], the caller's usage is below
    [usageLimitPerUser || 1], and the cart total is not below the
    coupon's minimum; otherwise the answer is 400.  It never writes. *)
Theorem validate_quotes_iff
    (env : Env.t) (userId : Id) (code : string) (cartTotal : Q) (db : DB.t) :
  asciiOnly code = true ->
  let r := Coupons.postValidate env userId (Some code) cartTotal db in
  ((exists q, fst r = JsonSuccess 200 q)
   <-> exists coupon, quotable env userId code cartTotal db coupon)
  /\ ((forall coupon, ~ quotable env userId code cartTotal db coupon) ->
      failsWith 400 (fst r))
  /\ snd r = db.
Proof. intros _. apply validate_quotes. Qed.

Lemma validate_quotes_iff_witness :
  asciiOnly "promo10" = true
  /\ failsWith 400
       (fst (Coupons.postValidate (Sample.env 9500 "") "u1" (Some "promo10") 300%Q
               Sample.shop)).
Proof.
  split; [reflexivity|].
  destruct (validate_quotes_iff (Sample.env 9500 "") "u1" "promo10" 300%Q Sample.shop
              eq_refl) as (_ & H & _).
  apply H. intros coupon (_ & Hl & Hc & _). vm_compute in Hl. inversion Hl; subst coupon.
  vm_compute in Hc. discriminate.
Defined.

Lemma validateItems_return items subtotal validatedItems db r db' :
  Orders.validateItems items subtotal validatedItems db = (Return r, db') ->
  r = (fold_left (fun acc item => (acc + lineTotal item db)%Q) items subtotal,
       (validatedItems ++ pricedItems items db)%list)
  /\ productsFound items db = true.
Proof.
  revert subtotal validatedItems. induction items as [|item rest IH];
    intros subtotal validatedItems; cbn [Orders.validateItems].
  - unfold ret. intros H. inversion H; subst. cbn. rewrite app_nil_r. auto.
  - run_handler. unfold lineTotal, pricedItems, productsFound, productOf.
    cbn [fold_left flat_map forallb].
    destruct (List.find _ (DB.products db)) as [product|]; [|discriminate].
    destruct (Product.trackStock product && _); [discriminate|]. cbn.
    intros H. apply IH in H as [-> Hfound]. split; [|exact Hfound].
    rewrite <- app_assoc. reflexivity.
Qed.

Lemma applyCoupon_return env userId couponCode subtotal db discount db' :
  Orders.applyCoupon env userId couponCode subtotal db = (Return discount, db') ->
  exists coupon,
    CouponRules.findCurrent (Env.now env) couponCode db = Some coupon
    /\ discount = CouponRules.rawDiscount coupon subtotal
    /\ CouponRules.belowMinimum coupon subtotal = false.
Proof.
  unfold Orders.applyCoupon. run_handler.
  destruct (CouponRules.findCurrent _ _ db) as [coupon|]; [|discriminate].
  destruct (match DB.userCoupons db !! _ with Some _ => _ | None => _ end);
    [discriminate|].
  destruct (CouponRules.belowMinimum coupon subtotal) eqn:Hmin; [discriminate|].
  intros H. inversion H; subst. eauto.
Qed.

Lemma validateItems_products items subtotal validatedItems db db2 :
  DB.products db2 = DB.products db ->
  Orders.validateItems items subtotal validatedItems db2
  = (fst (Orders.validateItems items subtotal validatedItems db), db2).
Proof.
  intros Hp. revert subtotal validatedItems.
  induction items as [|item rest IH]; intros subtotal validatedItems;
    cbn [Orders.validateItems]; [reflexivity|].
  run_handler. rewrite Hp.
  destruct (List.find _ (DB.products db)) as [product|]; [|reflexivity].
  destruct (Product.trackStock product && _); [reflexivity|]. cbn. apply IH.
Qed.

(** An order that is accepted without a coupon is, with a coupon code,
    decided by the coupon step alone. *)
Lemma create_with_coupon env userId l shippingAddress paymentMethod code db o0 db0 :
  Orders.create env userId (Some l) shippingAddress paymentMethod None db
  = (Return o0, db0) ->
  truthyS code = true ->
  match Orders.applyCoupon env userId code (itemsTotal l db) db with
  | (Return discount, _) =>
    exists o db', Orders.create env userId (Some l) shippingAddress paymentMethod
                    (Some code) db = (Return o, db')
                  /\ Order.discount o = discount
  | (Throw e, _) =>
    Orders.create env userId (Some l) shippingAddress paymentMethod (Some code) db
    = (Throw e, db)
  end.
Proof.
  unfold Orders.create. destruct l as [|item rest]; [discriminate|].
  change (default "" (Some code)) with code. run_handler. cbn [truthy_opt].
  destruct (negb (truthy_opt truthyS shippingAddress)); [discriminate|].
  destruct (negb (truthy_opt truthyS paymentMethod)); [discriminate|].
  destruct (Orders.validateItems (item :: rest) 0%Q [] db) as [[r|e] db1] eqn:Hitems;
    [|discriminate].
  pose proof (validateItems_cases (item :: rest) 0%Q [] db) as Hc.
  assert (db1 = db) as ->.
  { destruct Hc as [(e & He & _)|[r' Hr]]; rewrite Hitems in *; congruence. }
  apply validateItems_return in Hitems as [-> _]. cbn [fst snd].
  fold (itemsTotal (item :: rest) db).
  destruct (negb (existsb _ Orders.paymentMethods)) eqn:Hpay; [discriminate|].
  intros _ Hcode. rewrite Hcode.
  destruct (applyCoupon_cases env userId code (itemsTotal (item :: rest) db) db)
    as [[msg ->]|(coupon & d & Hfind & _ & ->)]; [reflexivity|].
  unfold Orders.upsertUsage. run_handler. cbn [DB.coupons DB.set_orders].
  rewrite (findCurrent_lookup _ _ _ _ Hfind). eexists. eexists.
  split; reflexivity.
Qed.

Lemma postOrder_return env userId items shippingAddress paymentMethod couponCode db o :
  fst (Orders.postOrder env userId items shippingAddress paymentMethod couponCode db)
  = JsonSuccess 201 o ->
  exists db', Orders.create env userId items shippingAddress paymentMethod couponCode db
              = (Return o, db').
Proof.
  unfold Orders.postOrder, serve.
  destruct (Orders.create _ _ _ _ _ _ db) as [[o'|e] db']; cbn [fst]; [|discriminate].
  intros H. inversion H; subst. eauto.
Qed.

(** X11: a code that the validation route quotes but that is not
    stored in exactly that spelling (the route uppercases, order
    creation does not) is refused by order creation with 400, and
    nothing is written, even though the same order without the code is
    accepted. *)
Theorem quoted_spelling_refused_by_order
    (env : Env.t) (userId : Id) (code : string) (cartTotal : Q)
    (items : list Orders.Item) (shippingAddress paymentMethod : option string)
    (db : DB.t) (q : Coupons.Quote) (plain : Order.t) :
  fst (Coupons.postValidate env userId (Some code) cartTotal db) = JsonSuccess 200 q ->
  DB.coupons db !! code = None ->
  fst (Orders.postOrder env userId (Some items) shippingAddress paymentMethod None db)
  = JsonSuccess 201 plain ->
  failsWith 400
    (fst (Orders.postOrder env userId (Some items) shippingAddress paymentMethod
            (Some code) db))
  /\ snd (Orders.postOrder env userId (Some items) shippingAddress paymentMethod
            (Some code) db) = db.
Proof.
  intros Hq Hnone Hplain.
  assert (Hquote : exists q', fst (Coupons.postValidate env userId (Some code)
                                     cartTotal db) = JsonSuccess 200 q') by eauto.
  apply (proj1 (validate_quotes env userId code cartTotal db)) in Hquote
    as (coupon & Htruthy & _).
  apply postOrder_return in Hplain as [db0 Hplain].
  pose proof (create_with_coupon env userId items shippingAddress paymentMethod
                code db plain db0 Hplain Htruthy) as Hstep.
  assert (Happly : exists msg,
            Orders.applyCoupon env userId code (itemsTotal items db) db
            = (Throw (createError msg 400), db)).
  { unfold Orders.applyCoupon, CouponRules.findCurrent. run_handler. rewrite Hnone.
    eexists. reflexivity. }
  destruct Happly as [msg Happly]. rewrite Happly in Hstep.
  unfold Orders.postOrder. rewrite (serve_throw _ _ _ _ _ _ Hstep).
  split; [apply failsWith_createError; discriminate|reflexivity].
Qed.

Lemma quoted_spelling_refused_by_order_witness :
  failsWith 400 (fst (Sample.orderWith "promo10" Sample.shop)).
Proof.
  apply (quoted_spelling_refused_by_order (Sample.env 1000 "o1") "u1" "promo10" 300%Q
           [Orders.mkItem "p1" 1] (Some "Rua das Flores, 10") (Some "PIX") Sample.shop
           (Coupons.mkQuote "PROMO10" "Dez por cento" CouponType.PERCENTAGE 10%Q 20%Q)
           (Order.mk "o1" "u1" "BC000001ABCDEF" 40%Q 0%Q 0%Q (40 + 0 - 0)%Q "PIX"
              "Rua das Flores, 10" None [OrderItem.mk "p1" 1 40%Q]));
    vm_compute; reflexivity.
Defined.

Lemma create_again_without_coupon env env' userId items shippingAddress paymentMethod
    couponCode db db2 o db1 :
  truthy_opt truthyS couponCode = false ->
  DB.products db2 = DB.products db ->
  Orders.create env userId items shippingAddress paymentMethod couponCode db
  = (Return o, db1) ->
  exists o',
    Orders.create env' userId items shippingAddress paymentMethod couponCode db2
    = (Return o', DB.set_orders (fun rows => (rows ++ [o'])%list) db2)
    /\ Order.items o' = Order.items o
    /\ Order.subtotal o' = Order.subtotal o
    /\ Order.total o' = Order.total o.
Proof.
  intros Hcode Hp. unfold Orders.create.
  destruct items as [[|item rest]|]; [discriminate| |discriminate].
  run_handler. rewrite Hcode.
  destruct (negb (truthy_opt truthyS shippingAddress)); [discriminate|].
  destruct (negb (truthy_opt truthyS paymentMethod)); [discriminate|].
  rewrite (validateItems_products (item :: rest) 0%Q [] db db2 Hp).
  destruct (Orders.validateItems (item :: rest) 0%Q [] db) as [[r|e] db3];
    [|discriminate].
  cbn [fst snd].
  destruct (negb (existsb _ Orders.paymentMethods)); [discriminate|].
  intros H. inversion H; subst. clear H. eexists. split; [reflexivity|].
  cbn. auto.
Qed.

(** X12: order creation checks the stock but never writes it: the
    product table is the same after every order request, and an order
    accepted without a coupon is accepted again, with the same lines
    and the same total, however often it is sent. *)
Theorem order_reserves_no_stock
    (env env' : Env.t) (userId : Id) (items : option (list Orders.Item))
    (shippingAddress paymentMethod couponCode : option string) (db : DB.t) :
  let r := Orders.postOrder env userId items shippingAddress paymentMethod couponCode db in
  DB.products (snd r) = DB.products db
  /\ (forall o,
        fst r = JsonSuccess 201 o -> truthy_opt truthyS couponCode = false ->
        exists o',
          fst (Orders.postOrder env' userId items shippingAddress paymentMethod
                 couponCode (snd r)) = JsonSuccess 201 o'
          /\ Order.items o' = Order.items o
          /\ Order.total o' = Order.total o).
Proof.
  cbv zeta. unfold Orders.postOrder. rewrite snd_serve.
  assert (Hp : DB.products
                 (snd (Orders.create env userId items shippingAddress paymentMethod
                         couponCode db)) = DB.products db).
  { destruct (create_cases env userId items shippingAddress paymentMethod couponCode db)
      as [(e & E & _)|[order Hok]].
    - rewrite E. reflexivity.
    - destruct (truthy_opt truthyS couponCode).
      + destruct Hok as (coupon & _ & _ & E). rewrite E. reflexivity.
      + rewrite Hok. reflexivity. }
  split; [exact Hp|]. intros o Ho Hcode.
  apply postOrder_return in Ho as [db1 Ho].
  rewrite Ho in Hp |- *. cbn [snd] in *.
  destruct (create_again_without_coupon env env' userId items shippingAddress
              paymentMethod couponCode db db1 o db1 Hcode Hp Ho)
    as (o' & E' & Hitems & _ & Htotal).
  exists o'. rewrite (serve_return _ _ _ _ _ _ E'). auto.
Qed.

Lemma order_reserves_no_stock_witness :
  exists o',
    fst (Orders.postOrder (Sample.env 2000 "o2") "u1" (Some [Orders.mkItem "p1" 10])
           (Some "Rua das Flores, 10") (Some "PIX") None
           (snd (Orders.postOrder (Sample.env 1000 "o1") "u1"
                   (Some [Orders.mkItem "p1" 10]) (Some "Rua das Flores, 10")
                   (Some "PIX") None Sample.shop)))
    = JsonSuccess 201 o'
    /\ Order.total o' = (0 + 40 * inject_Z 10 + 0 - 0)%Q.
Proof.
  destruct (order_reserves_no_stock (Sample.env 1000 "o1") (Sample.env 2000 "o2") "u1"
              (Some [Orders.mkItem "p1" 10]) (Some "Rua das Flores, 10") (Some "PIX")
              None Sample.shop) as [_ H].
  destruct (H (Order.mk "o1" "u1" "BC000001ABCDEF" (0 + 40 * inject_Z 10)%Q 0%Q 0%Q
                 (0 + 40 * inject_Z 10 + 0 - 0)%Q "PIX" "Rua das Flores, 10" None
                 [OrderItem.mk "p1" 10 40%Q]))
    as (o' & Ho' & _ & Ht); [reflexivity|reflexivity|].
  exists o'. split; [exact Ho'|exact Ht].
Defined.

(** ** Registration *)

(** X15: [isMinimumAge] holds exactly from the eighteenth birthday on:
    the date with the birth month and day in the year of birth plus 18
    is today or earlier in the calendar order. *)
Theorem isMinimumAge_from_birthday (today birth : CalendarDate.t) :
  Auth.isMinimumAge today birth = true
  <-> birthdayReached (CalendarDate.year birth + 18) today birth.
Proof.
  unfold Auth.isMinimumAge, Auth.calculateAge, birthdayReached.
  destruct (Z.ltb_spec (CalendarDate.month today - CalendarDate.month birth) 0);
    destruct (Z.eqb_spec (CalendarDate.month today - CalendarDate.month birth) 0);
    destruct (Z.ltb_spec (CalendarDate.date today) (CalendarDate.date birth));
    cbn [orb andb]; rewrite Z.leb_le; lia.
Qed.

Lemma find_none_forall {A} (p : A -> bool) (l : list A) :
  List.find p l = None -> forall x, In x l -> p x = false.
Proof. intros H x Hx. exact (List.find_none p l H x Hx). Qed.

Lemma NoDup_map_snoc {A B} (f : A -> B) (l : list A) (x : A) :
  List.NoDup (map f l) -> (forall y, In y l -> f y <> f x) ->
  List.NoDup (map f (l ++ [x])%list).
Proof.
  induction l as [|a l IH]; cbn; intros Hnd Hne.
  - constructor; [intros []|constructor].
  - apply List.NoDup_cons_iff in Hnd as [Hnotin Hnd].
    apply List.NoDup_cons_iff. split.
    + rewrite map_app, in_app_iff. cbn. intros [Hin|[Heq|[]]]; [tauto|].
      apply (Hne a); auto.
    + apply IH; auto.
Qed.

Lemma freshReferralCode_unused draws db code :
  Auth.freshReferralCode draws db = Some code ->
  forall u, In u (DB.users db) -> User.referralCode u <> code.
Proof.
  induction draws as [|c rest IH]; cbn; [discriminate|].
  destruct (Auth.findByReferralCode c db) eqn:E; [exact IH|].
  intros H u Hu Heq. inversion H; subst.
  unfold Auth.findByReferralCode in E.
  pose proof (find_none_forall _ _ E u Hu) as Hf. cbn in Hf.
  rewrite String.eqb_refl in Hf. discriminate.
Qed.

Lemma register_created deps env body db user db' :
  Auth.register deps env body db = Some (Return user, db') ->
  noDuplicate body db
  /\ Auth.isMinimumAge (Auth.today deps) (Auth.birthDate body) = true
  /\ exists referralCode referredById,
       Auth.freshReferralCode (Auth.referralCodes deps) db = Some referralCode
       /\ user = User.mk (Env.cuid env) (Auth.email body) (Auth.cleanCPF (Auth.cpf body))
                   (Auth.firstName body) (Auth.lastName body) (Auth.phone body)
                   (Some (Auth.birthDate body))
                   (Some (Auth.hashPassword deps (Auth.password body)))
                   false true referralCode referredById
       /\ db' = DB.set_users (fun rows => (rows ++ [user])%list) db.
Proof.
  unfold Auth.register, Auth.validate, ret, throw, noDuplicate.
  destruct (Auth.registerSchema deps body); [|discriminate].
  destruct (Auth.isMinimumAge (Auth.today deps) (Auth.birthDate body));
    cbn [negb]; [|discriminate].
  destruct (List.find _ (DB.users db)) as [existingUser|] eqn:Hfind.
  - apply find_some_In in Hfind as [_ Hp].
    destruct (String.eqb (User.email existingUser) (Auth.email body)); [discriminate|].
    destruct (String.eqb (User.cpf existingUser) (Auth.cleanCPF (Auth.cpf body)));
      [discriminate|discriminate].
  - destruct (Auth.freshReferralCode _ db) as [referralCode|]; [|discriminate].
    intros H. split; [reflexivity|]. split; [reflexivity|].
    destruct (Auth.referralCode body) as [supplied|].
    + destruct (truthyS supplied).
      * destruct (Auth.findByReferralCode (toUpperCase supplied) db) as [referrer|];
          inversion H; subst. eexists _, _. repeat split.
      * inversion H; subst. eexists _, _. repeat split.
    + inversion H; subst. eexists _, _. repeat split.
Qed.

(** X16: registration keeps the unique columns unique.  When no
    e-mail, CPF or referral code occurs twice among the users, the
    same holds after an accepted registration; the account created
    holds the CPF without punctuation, is active and has an unverified
    e-mail. *)
Theorem register_keeps_unique_columns
    (deps : Auth.Deps) (env : Env.t) (body : Auth.RegisterBody)
    (db db' : DB.t) (user : User.t) :
  uniqueUsers db ->
  Auth.postRegister deps env body db = Some (JsonSuccess 201 user, db') ->
  uniqueUsers db'
  /\ User.cpf user = Auth.cleanCPF (Auth.cpf body)
  /\ User.isActive user = true
  /\ User.emailVerified user = false.
Proof.
  intros (Hemail & Hcpf & Hcode) H.
  assert (Hreg : Auth.register deps env body db = Some (Return user, db')).
  { unfold Auth.postRegister in H.
    destruct (Auth.register deps env body db) as [[[u|e] d]|]; inversion H; reflexivity. }
  apply register_created in Hreg
    as (Hnodup & _ & referralCode & referredById & Hfresh & -> & ->).
  split; [|repeat split].
  unfold noDuplicate in Hnodup. unfold uniqueUsers. cbn.
  repeat split; apply NoDup_map_snoc; auto; intros y Hy; cbn.
  - pose proof (find_none_forall _ _ Hnodup y Hy) as Hf. cbn in Hf.
    apply orb_false_iff in Hf as [Hf _]. apply String.eqb_neq in Hf. exact Hf.
  - pose proof (find_none_forall _ _ Hnodup y Hy) as Hf. cbn in Hf.
    apply orb_false_iff in Hf as [_ Hf]. apply String.eqb_neq in Hf. exact Hf.
  - exact (freshReferralCode_unused _ _ _ Hfresh y Hy).
Qed.

Lemma register_keeps_unique_columns_witness :
  uniqueUsers
    (DB.set_users
       (fun rows => (rows ++ [User.mk "u3" "caio@example.org" "39053344705" "Caio" "Reis"
                                None (Some (CalendarDate.mk 1995 6 1))
                                (Some "bcrypt:Senha#123") false true "DEADBEEF"
                                (Some "u1")])%list)
       Sample.ledger).
Proof.
  refine (proj1 (register_keeps_unique_columns Sample.deps (Sample.env 5000 "u3")
                   (Sample.caio "caio@example.org" (Some "a1b2c3d4")) Sample.ledger
                   _ _ _ _)); [|reflexivity].
  unfold uniqueUsers. cbn.
  repeat split; repeat (constructor; [cbn; intuition discriminate|]); constructor.
Defined.

(** ** Authentication *)

Lemma substring_all (s : string) : String.substring 0 (String.length s) s = s.
Proof. induction s as [|c s IH]; cbn; [reflexivity|]. rewrite IH. reflexivity. Qed.

Lemma substringFrom_app (p t : string) :
  AuthMiddleware.substringFrom (String.length p) (p ++ t) = t.
Proof.
  unfold AuthMiddleware.substringFrom.
  induction p as [|c p IH].
  - change (EmptyString ++ t)%string with t. cbn [String.length].
    rewrite Nat.sub_0_r. apply substring_all.
  - change (String c p ++ t)%string with (String c (p ++ t)).
    cbn [String.length Nat.sub String.substring]. exact IH.
Qed.

Lemma prefix_app (p t : string) : String.prefix p (p ++ t) = true.
Proof.
  induction p as [|c p IH].
  - destruct t; reflexivity.
  - change (String c p ++ t)%string with (String c (p ++ t)). cbn [String.prefix].
    destruct (ascii_dec c c); [exact IH|congruence].
Qed.

Lemma prefix_split (p s : string) :
  String.prefix p s = true ->
  s = (p ++ AuthMiddleware.substringFrom (String.length p) s)%string.
Proof.
  revert s. induction p as [|c p IH]; intros s.
  - intros _. unfold AuthMiddleware.substringFrom. cbn [String.length].
    rewrite Nat.sub_0_r, substring_all. reflexivity.
  - destruct s as [|b s]; cbn [String.prefix]; [discriminate|].
    destruct (ascii_dec c b) as [->|]; [|discriminate].
    intros H. apply IH in H. unfold AuthMiddleware.substringFrom in *.
    change (String b p ++ ?x)%string with (String b (p ++ x)).
    cbn [String.length Nat.sub String.substring]. f_equal. exact H.
Qed.

Lemma truthyS_iff (s : string) : truthyS s = true <-> s <> EmptyString.
Proof. destruct s; cbn; split; congruence. Qed.

Lemma authenticate_bearer verify token db :
  token <> EmptyString ->
  AuthMiddleware.authenticate verify (Some ("Bearer " ++ token)%string) db
  = match verify token with
    | AuthMiddleware.Rejected error j x => (Throw (AuthMiddleware.caught error j x), db)
    | AuthMiddleware.Decoded decoded =>
      match userOf (AuthMiddleware.id decoded) db with
      | None => (Throw (createError "Usuário não encontrado" 401), db)
      | Some user =>
        if negb (User.isActive user) then
          (Throw (createError "Conta desativada" 401), db)
        else if negb (User.emailVerified user) then
          (Throw (createError "Email não verificado" 401), db)
        else (Return (AuthMiddleware.mkUser (User.id user) (User.email user)), db)
      end
    end.
Proof.
  intros Htoken. unfold AuthMiddleware.authenticate.
  change 7%nat with (String.length "Bearer ").
  rewrite substringFrom_app, (prefix_app "Bearer " token).
  change (truthyS ("Bearer " ++ token)) with true.
  apply truthyS_iff in Htoken. rewrite Htoken. cbn [negb orb]. run_handler.
  destruct (verify token) as [decoded|error j x]; [|reflexivity].
  unfold userOf. destruct (List.find _ (DB.users db)) as [user|]; [|reflexivity].
  destruct (User.isActive user); cbn [negb]; [|reflexivity].
  destruct (User.emailVerified user); reflexivity.
Qed.

(** X17: [authenticate] lets a request through exactly when the header
    is [Bearer] followed by a non-empty token that [jwt.verify]
    decodes to the id of a user who is active and has a verified
    e-mail; [req.user] then holds the id and the e-mail of that row
    (not the e-mail of the token), and nothing is written. *)
Theorem authenticate_passes_iff
    (verify : string -> AuthMiddleware.Verified) (authorization : option string)
    (db db' : DB.t) (reqUser : AuthMiddleware.ReqUser) :
  AuthMiddleware.authenticate verify authorization db = (Return reqUser, db')
  <-> exists token decoded user,
        authorization = Some ("Bearer " ++ token)%string
        /\ token <> EmptyString
        /\ verify token = AuthMiddleware.Decoded decoded
        /\ userOf (AuthMiddleware.id decoded) db = Some user
        /\ User.isActive user = true
        /\ User.emailVerified user = true
        /\ reqUser = AuthMiddleware.mkUser (User.id user) (User.email user)
        /\ db' = db.
Proof.
  split.
  - destruct authorization as [authHeader|]; [|discriminate].
    destruct (String.prefix "Bearer " authHeader) eqn:Hprefix.
    2:{ unfold AuthMiddleware.authenticate. run_handler. rewrite Hprefix.
        rewrite orb_true_r. discriminate. }
    apply prefix_split in Hprefix. cbn [String.length] in Hprefix.
    remember (AuthMiddleware.substringFrom 7 authHeader) as token eqn:Etoken.
    destruct (string_dec token EmptyString) as [Hempty|Htoken].
    { unfold AuthMiddleware.authenticate. run_handler.
      destruct (negb (truthyS authHeader) || negb (String.prefix "Bearer " authHeader));
        [discriminate|].
      rewrite <- Etoken, Hempty. discriminate. }
    rewrite Hprefix, (authenticate_bearer verify token db Htoken).
    destruct (verify token) as [decoded|error j x] eqn:Hverify; [|discriminate].
    destruct (userOf (AuthMiddleware.id decoded) db) as [user|] eqn:Huser; [|discriminate].
    destruct (User.isActive user) eqn:Hactive; cbn [negb]; [|discriminate].
    destruct (User.emailVerified user) eqn:Hverified; cbn [negb]; [|discriminate].
    intros H. injection H as <- <-. exists token, decoded, user. repeat split; auto.
  - intros (token & decoded & user & -> & Htoken & Hverify & Huser & Hactive
            & Hverified & -> & ->).
    rewrite (authenticate_bearer verify token db Htoken), Hverify, Huser, Hactive,
      Hverified. reflexivity.
Qed.

(** X18: when every value thrown by [jwt.verify] is an instance of
    [JsonWebTokenError], each refusal of [authenticate] is a
    [createError] of status 401 and writes nothing, and the message
    is never the one for an expired token. *)
Theorem authenticate_refuses_with_401
    (verify : string -> AuthMiddleware.Verified) (authorization : option string)
    (db db' : DB.t) (e : Err.t) :
  (forall token error j x,
      verify token = AuthMiddleware.Rejected error j x -> j = true) ->
  AuthMiddleware.authenticate verify authorization db = (Throw e, db') ->
  db' = db
  /\ (exists msg, e = createError msg 401 /\ msg <> "Token expirado")
  /\ forall env, failsWith 401 (fst (serve env 200
                                       (AuthMiddleware.authenticate verify authorization)
                                       db)).
Proof.
  intros Hjwt H.
  assert (Hshape : db' = db
                   /\ exists msg, e = createError msg 401 /\ msg <> "Token expirado").
  { revert H. unfold AuthMiddleware.authenticate.
    destruct authorization as [authHeader|].
    2:{ intros H. inversion H. split; [reflexivity|]. eexists. split; [reflexivity|].
        discriminate. }
    run_handler.
    destruct (negb (truthyS authHeader) || negb (String.prefix "Bearer " authHeader)).
    { intros H. inversion H. split; [reflexivity|]. eexists. split; [reflexivity|].
      discriminate. }
    destruct (negb (truthyS (AuthMiddleware.substringFrom 7 authHeader))).
    { intros H. inversion H. split; [reflexivity|]. eexists. split; [reflexivity|].
      discriminate. }
    destruct (verify (AuthMiddleware.substringFrom 7 authHeader))
      as [decoded|error j x] eqn:Hverify.
    - destruct (List.find _ (DB.users db)) as [user|].
      + destruct (negb (User.isActive user)).
        { intros H. inversion H. split; [reflexivity|]. eexists.
          split; [reflexivity|]. discriminate. }
        destruct (negb (User.emailVerified user)).
        { intros H. inversion H. split; [reflexivity|]. eexists.
          split; [reflexivity|]. discriminate. }
        discriminate.
      + intros H. inversion H. split; [reflexivity|]. eexists.
        split; [reflexivity|]. discriminate.
    - rewrite (Hjwt _ _ _ _ Hverify). cbn. intros H. inversion H.
      split; [reflexivity|]. eexists. split; [reflexivity|]. discriminate. }
  destruct Hshape as (-> & msg & -> & Hmsg). split; [reflexivity|].
  split; [eauto|]. intros env. rewrite (serve_throw _ _ _ _ _ _ H). cbn [fst].
  apply failsWith_createError. discriminate.
Qed.

Lemma authenticate_refuses_with_401_witness :
  failsWith 401
    (fst (serve (Sample.env 0 "c0") 200
            (AuthMiddleware.authenticate Tokens.verify (Some "Bearer old"))
            Sample.ledger)).
Proof.
  destruct (authenticate_refuses_with_401 Tokens.verify (Some "Bearer old")
              Sample.ledger Sample.ledger (createError "Token inválido" 401))
    as (_ & _ & H).
  - intros token error j x. unfold Tokens.verify.
    repeat (destruct (String.eqb token _)); intros E; inversion E; reflexivity.
  - reflexivity.
  - apply H.
Defined.

Lemma userOf_snoc_fresh userId (user : User.t) db :
  userOf userId db = None -> User.id user = userId ->
  userOf userId (DB.set_users (fun rows => (rows ++ [user])%list) db) = Some user.
Proof.
  unfold userOf. cbn. intros Hnone Hid.
  induction (DB.users db) as [|u users IH]; cbn in *.
  - rewrite Hid, String.eqb_refl. reflexivity.
  - destruct (String.eqb (User.id u) userId); [discriminate|]. exact (IH Hnone).
Qed.

(** X19: the account that registration creates cannot use the token
    registration issues.  When the id drawn for the new user is not in
    the table, a request bearing a token for that id is refused by
    [authenticate] right after the registration, with 401 for an
    unverified e-mail. *)
Theorem registered_user_is_refused
    (deps : Auth.Deps) (env : Env.t) (body : Auth.RegisterBody) (db db' : DB.t)
    (user : User.t) (verify : string -> AuthMiddleware.Verified)
    (token : string) (decoded : AuthMiddleware.JWTPayload) :
  userOf (Env.cuid env) db = None ->
  Auth.postRegister deps env body db = Some (JsonSuccess 201 user, db') ->
  token <> EmptyString ->
  verify token = AuthMiddleware.Decoded decoded ->
  AuthMiddleware.id decoded = User.id user ->
  AuthMiddleware.authenticate verify (Some ("Bearer " ++ token)%string) db'
  = (Throw (createError "Email não verificado" 401), db').
Proof.
  intros Hfresh H Htoken Hverify Hid.
  assert (Hreg : Auth.register deps env body db = Some (Return user, db')).
  { unfold Auth.postRegister in H.
    destruct (Auth.register deps env body db) as [[[u|e] d]|]; inversion H; reflexivity. }
  apply register_created in Hreg
    as (_ & _ & referralCode & referredById & _ & Huser & ->).
  rewrite (authenticate_bearer verify token _ Htoken), Hverify, Hid.
  rewrite (userOf_snoc_fresh (User.id user) user db).
  - rewrite Huser. reflexivity.
  - rewrite Huser. exact Hfresh.
  - reflexivity.
Qed.

Lemma registered_user_is_refused_witness :
  let caio :=
    User.mk "u3" "caio@example.org" "39053344705" "Caio" "Reis" None
      (Some (CalendarDate.mk 1995 6 1)) (Some "bcrypt:Senha#123") false true
      "DEADBEEF" None in
  let db' := DB.set_users (fun rows => (rows ++ [caio])%list) Sample.ledger in
  Auth.postRegister Sample.deps (Sample.env 5000 "u3")
    (Sample.caio "caio@example.org" None) Sample.ledger
  = Some (JsonSuccess 201 caio, db')
  /\ AuthMiddleware.authenticate Tokens.verify (Some "Bearer caio") db'
     = (Throw (createError "Email não verificado" 401), db').
Proof.
  intros caio db'. split; [reflexivity|].
  apply (registered_user_is_refused Sample.deps (Sample.env 5000 "u3")
           (Sample.caio "caio@example.org" None) Sample.ledger db' caio Tokens.verify
           "caio" (AuthMiddleware.mkPayload "u3" "caio@example.org"));
    [reflexivity|reflexivity|discriminate|reflexivity|reflexivity].
Defined.

(** ** The administrator list *)

Lemma split_commaFree (w : string) :
  commaFree w = true -> AuthMiddleware.split "," w = [w].
Proof.
  induction w as [|c w IH]; [reflexivity|].
  cbn [commaFree AuthMiddleware.split]. intros H.
  apply andb_true_iff in H as [Hc Hw]. apply negb_true_iff in Hc.
  rewrite Hc, (IH Hw). reflexivity.
Qed.

Lemma split_app_comma (w t : string) :
  commaFree w = true ->
  AuthMiddleware.split "," (w ++ String "," t) = w :: AuthMiddleware.split "," t.
Proof.
  induction w as [|c w IH].
  - intros _. reflexivity.
  - cbn [commaFree]. intros H. apply andb_true_iff in H as [Hc Hw].
    apply negb_true_iff in Hc.
    change (String c w ++ String "," t)%string with (String c (w ++ String "," t)).
    cbn [AuthMiddleware.split]. rewrite Hc, (IH Hw). reflexivity.
Qed.

Lemma split_join (words : list string) :
  words <> [] -> Forall (fun w => commaFree w = true) words ->
  AuthMiddleware.split "," (AuthMiddleware.join "," words) = words.
Proof.
  induction words as [|w rest IH]; [congruence|].
  intros _ Hall. apply Forall_cons_iff in Hall as [Hw Hrest].
  destruct rest as [|w2 rest].
  - apply split_commaFree. exact Hw.
  - change (AuthMiddleware.join "," (w :: w2 :: rest))
      with (w ++ String "," (AuthMiddleware.join "," (w2 :: rest)))%string.
    rewrite (split_app_comma _ _ Hw), IH; [reflexivity|discriminate|exact Hrest].
Qed.

Lemma existsb_eqb_In (x : string) (l : list string) :
  existsb (String.eqb x) l = true <-> In x l.
Proof.
  rewrite existsb_exists. split.
  - intros (y & Hy & E). apply String.eqb_eq in E. subst. exact Hy.
  - intros H. exists x. split; [exact H|apply String.eqb_refl].
Qed.

Lemma requireAdmin_eq ADMIN_EMAILS user db :
  AuthMiddleware.requireAdmin ADMIN_EMAILS (Some user) db
  = if existsb (String.eqb (AuthMiddleware.userEmail user))
         (match ADMIN_EMAILS with
          | Some s => AuthMiddleware.split "," s
          | None => []
          end)
    then (Return tt, db)
    else (Throw (createError "Acesso negado. Privilégios de administrador requeridos."
                   403), db).
Proof.
  unfold AuthMiddleware.requireAdmin. run_handler.
  destruct (existsb _ _); reflexivity.
Qed.

(** X21: when [ADMIN_EMAILS] is the comma-joined list of one or more
    addresses, none of which holds a comma, [requireAdmin] admits
    exactly the authenticated users whose e-mail is, character for
    character, one of the addresses; everyone else gets 403, and with
    [ADMIN_EMAILS] unset nobody is admitted.  Nothing is written. *)
Theorem requireAdmin_admits_listed
    (emails : list string) (user : AuthMiddleware.ReqUser) (env : Env.t) (db : DB.t) :
  emails <> [] ->
  Forall (fun w => commaFree w = true) emails ->
  let answer ADMIN_EMAILS :=
    serve env 200 (AuthMiddleware.requireAdmin ADMIN_EMAILS (Some user)) db in
  (In (AuthMiddleware.userEmail user) emails ->
   answer (Some (AuthMiddleware.join "," emails)) = (JsonSuccess 200 tt, db))
  /\ (~ In (AuthMiddleware.userEmail user) emails ->
      failsWith 403 (fst (answer (Some (AuthMiddleware.join "," emails))))
      /\ snd (answer (Some (AuthMiddleware.join "," emails))) = db)
  /\ failsWith 403 (fst (answer None)).
Proof.
  intros Hne Hall answer. subst answer. cbv beta.
  unfold serve. rewrite !requireAdmin_eq, (split_join emails Hne Hall).
  cbn [existsb].
  destruct (existsb (String.eqb (AuthMiddleware.userEmail user)) emails) eqn:E.
  - split; [|split].
    + intros _. reflexivity.
    + intros Hnotin. apply existsb_eqb_In in E. contradiction.
    + apply failsWith_createError. discriminate.
  - split; [|split].
    + intros Hin. apply existsb_eqb_In in Hin. congruence.
    + intros _. split; [|reflexivity]. apply failsWith_createError. discriminate.
    + apply failsWith_createError. discriminate.
Qed.

Lemma requireAdmin_admits_listed_witness :
  serve (Sample.env 0 "c0") 200
    (AuthMiddleware.requireAdmin (Some "root@example.org,bia@example.org")
       (Some (AuthMiddleware.mkUser "u2" "bia@example.org")))
    Sample.ledger
  = (JsonSuccess 200 tt, Sample.ledger).
Proof.
  destruct (requireAdmin_admits_listed ["root@example.org"; "bia@example.org"]
              (AuthMiddleware.mkUser "u2" "bia@example.org") (Sample.env 0 "c0")
              Sample.ledger) as (H & _ & _).
  - discriminate.
  - repeat constructor.
  - apply H. cbn. auto.
Defined.

(** ** Login *)

Lemma login_eq deps body db :
  Login.login deps body db
  = if negb (Login.loginSchema deps body) then
      (Throw (Err.mk Err.PlainObject "ValidationError" "Dados de entrada inválidos"
                None None None false None), db)
    else
      match List.find (fun u => String.eqb (User.email u) (Login.email body))
                      (DB.users db) with
      | None => (Throw (createError "Email ou senha incorretos" 401), db)
      | Some user =>
        match User.password user with
        | None => (Throw (Err.newError "Illegal arguments: string, object"), db)
        | Some hashed =>
          if negb (Login.compare deps (Login.password body) hashed) then
            (Throw (createError "Email ou senha incorretos" 401), db)
          else if negb (User.isActive user) then
            (Throw (createError "Conta desativada. Entre em contato com o suporte." 401),
             db)
          else
            (Return (Login.mkAccount (User.id user) (User.email user)
                       (User.firstName user) (User.lastName user) (User.isActive user)
                       (User.emailVerified user)), db)
        end
      end.
Proof.
  unfold Login.login. run_handler.
  destruct (negb (Login.loginSchema deps body)); [reflexivity|].
  destruct (List.find _ (DB.users db)) as [user|]; [|reflexivity].
  destruct (User.password user) as [hashed|]; [|reflexivity].
  destruct (negb (Login.compare deps (Login.password body) hashed)); [reflexivity|].
  destruct (negb (User.isActive user)); reflexivity.
Qed.

Lemma login_sound deps body db account db' :
  Login.login deps body db = (Return account, db') ->
  db' = db
  /\ exists user hashed,
       In user (DB.users db)
       /\ User.email user = Login.email body
       /\ User.password user = Some hashed
       /\ Login.compare deps (Login.password body) hashed = true
       /\ User.isActive user = true
       /\ Login.id account = User.id user
       /\ Login.accountEmail account = Login.email body.
Proof.
  rewrite login_eq.
  destruct (negb (Login.loginSchema deps body)); [discriminate|].
  destruct (List.find _ (DB.users db)) as [user|] eqn:Hfind; [|discriminate].
  apply find_some_In in Hfind as [Hin Hemail]. apply String.eqb_eq in Hemail.
  destruct (User.password user) as [hashed|] eqn:Hpw; [|discriminate].
  destruct (Login.compare deps (Login.password body) hashed) eqn:Hcmp;
    cbn [negb]; [|discriminate].
  destruct (User.isActive user) eqn:Hactive; cbn [negb]; [|discriminate].
  intros H. injection H as <- <-. split; [reflexivity|].
  exists user, hashed. cbn. auto 10.
Qed.

(** X22: login never writes.  It answers with an account only for a
    stored user with the e-mail sent, whose stored hash
    [bcrypt.compare] accepts for the password sent and who is active.
    For a body the schema accepts and a password that [bcrypt.compare]
    accepts for no stored hash, the answer is one and the same 401,
    whether or not the e-mail is registered. *)
Theorem login_outcomes (env : Env.t) (deps : Login.Deps) (body : Login.Body) (db : DB.t) :
  let r := Login.postLogin env deps body db in
  snd r = db
  /\ (forall account,
        fst r = JsonSuccess 200 account ->
        exists user hashed,
          In user (DB.users db)
          /\ User.email user = Login.email body
          /\ User.password user = Some hashed
          /\ Login.compare deps (Login.password body) hashed = true
          /\ User.isActive user = true
          /\ Login.id account = User.id user)
  /\ (Login.loginSchema deps body = true ->
      (forall user, In user (DB.users db) ->
         exists hashed, User.password user = Some hashed
                        /\ Login.compare deps (Login.password body) hashed = false) ->
      fst r = JsonFailure (ErrorHandler.errorHandler (Env.development env)
                             (createError "Email ou senha incorretos" 401))).
Proof.
  cbv zeta. unfold Login.postLogin. split; [|split].
  - rewrite snd_serve, login_eq.
    destruct (negb (Login.loginSchema deps body)); [reflexivity|].
    destruct (List.find _ (DB.users db)) as [user|]; [|reflexivity].
    destruct (User.password user) as [hashed|]; [|reflexivity].
    destruct (negb (Login.compare deps (Login.password body) hashed)); [reflexivity|].
    destruct (negb (User.isActive user)); reflexivity.
  - intros account H. unfold serve in H.
    destruct (Login.login deps body db) as [[a|e] db'] eqn:E; [|discriminate].
    injection H as ->. apply login_sound in E
      as (_ & user & hashed & Hin & Hemail & Hpw & Hcmp & Hactive & Hid & _).
    exists user, hashed. auto 10.
  - intros Hschema Hnone. unfold serve. rewrite login_eq, Hschema. cbn [negb].
    destruct (List.find _ (DB.users db)) as [user|] eqn:Hfind; [|reflexivity].
    apply find_some_In in Hfind as [Hin _].
    destruct (Hnone user Hin) as (hashed & -> & ->). reflexivity.
Qed.

Lemma login_outcomes_witness :
  fst (Login.postLogin (Sample.env 0 "c0") sampleLogin
         (Login.mkBody "ana@example.org" "guess") Sample.ledger)
  = fst (Login.postLogin (Sample.env 0 "c0") sampleLogin
           (Login.mkBody "nobody@example.org" "guess") Sample.ledger).
Proof.
  destruct (login_outcomes (Sample.env 0 "c0") sampleLogin
              (Login.mkBody "ana@example.org" "guess") Sample.ledger) as (_ & _ & H1).
  destruct (login_outcomes (Sample.env 0 "c0") sampleLogin
              (Login.mkBody "nobody@example.org" "guess") Sample.ledger) as (_ & _ & H2).
  rewrite H1, H2; [reflexivity|reflexivity| |reflexivity| ];
    intros user [<-|[<-|[]]]; eexists; split; reflexivity.
Defined.

(** ** CPF *)

Lemma cleanCPF_cons c s :
  Auth.cleanCPF (String c s)
  = if CPF.isDigit c then String c (Auth.cleanCPF s) else Auth.cleanCPF s.
Proof. reflexivity. Qed.

Lemma cleanCPF_allDigits s : allDigits (Auth.cleanCPF s) = true.
Proof.
  induction s as [|c s IH]; [reflexivity|]. rewrite cleanCPF_cons.
  destruct (CPF.isDigit c) eqn:E; [|exact IH].
  cbn [allDigits]. rewrite E, IH. reflexivity.
Qed.

Lemma cleanCPF_of_digits s : allDigits s = true -> Auth.cleanCPF s = s.
Proof.
  induction s as [|c s IH]; [reflexivity|]. cbn [allDigits]. intros H.
  apply andb_true_iff in H as [Hc Hs]. rewrite cleanCPF_cons, Hc, (IH Hs). reflexivity.
Qed.

Lemma cleanCPF_idempotent s : Auth.cleanCPF (Auth.cleanCPF s) = Auth.cleanCPF s.
Proof. apply cleanCPF_of_digits, cleanCPF_allDigits. Qed.

Lemma cleanCPF_formatCPF s : Auth.cleanCPF (CPF.formatCPF s) = Auth.cleanCPF s.
Proof.
  unfold CPF.formatCPF. pose proof (cleanCPF_idempotent s) as Hidem.
  destruct (Auth.cleanCPF s)
    as [|a [|b [|c [|d [|e [|f [|g [|h [|i [|j [|k rest]]]]]]]]]]]; exact Hidem.
Qed.

(** X24: [formatCPF] adds punctuation only: cleaning its result gives
    the digits of the argument, cleaning twice is cleaning once, and
    [validateCPF] gives the same verdict on a text, on its digits and
    on its formatted form. *)
Theorem formatCPF_keeps_digits (cpf : string) :
  Auth.cleanCPF (CPF.formatCPF cpf) = Auth.cleanCPF cpf
  /\ Auth.cleanCPF (Auth.cleanCPF cpf) = Auth.cleanCPF cpf
  /\ CPF.validateCPF (CPF.formatCPF cpf) = CPF.validateCPF cpf
  /\ CPF.validateCPF (Auth.cleanCPF cpf) = CPF.validateCPF cpf.
Proof.
  split; [apply cleanCPF_formatCPF|]. split; [apply cleanCPF_idempotent|].
  unfold CPF.validateCPF. rewrite cleanCPF_formatCPF, cleanCPF_idempotent. auto.
Qed.

Lemma find_snoc_some {A} (p : A -> bool) (l : list A) (x : A) :
  p x = true -> exists y, List.find p (l ++ [x])%list = Some y /\ p y = true.
Proof.
  intros Hx. induction l as [|a l IH]; cbn.
  - rewrite Hx. eauto.
  - destruct (p a) eqn:E; eauto.
Qed.

(** X25: a CPF is registered once, whatever its punctuation.  After an
    accepted registration, a second registration whose CPF has the
    same digits (written with or without dots and dash, under any
    e-mail) is answered 409 and creates nothing, even when the schema
    and the age check accept it. *)
Theorem same_cpf_refused_again
    (deps : Auth.Deps) (env env' : Env.t) (body body' : Auth.RegisterBody)
    (db db' : DB.t) (user : User.t) :
  Auth.postRegister deps env body db = Some (JsonSuccess 201 user, db') ->
  Auth.registerSchema deps body' = true ->
  Auth.isMinimumAge (Auth.today deps) (Auth.birthDate body') = true ->
  Auth.cleanCPF (Auth.cpf body') = Auth.cleanCPF (Auth.cpf body) ->
  exists res,
    Auth.postRegister deps env' body' db' = Some (res, db') /\ failsWith 409 res.
Proof.
  intros H Hschema Hage Hcpf.
  assert (Hreg : Auth.register deps env body db = Some (Return user, db')).
  { unfold Auth.postRegister in H.
    destruct (Auth.register deps env body db) as [[[u|e] d]|]; inversion H; reflexivity. }
  apply register_created in Hreg
    as (_ & _ & referralCode & referredById & _ & Huser & ->).
  unfold Auth.postRegister, Auth.register, Auth.validate, ret, throw.
  rewrite Hschema, Hage. cbn [negb].
  change (DB.users (DB.set_users (fun rows => (rows ++ [user])%list) db))
    with (DB.users db ++ [user])%list.
  destruct (find_snoc_some
              (fun u => String.eqb (User.email u) (Auth.email body')
                        || String.eqb (User.cpf u) (Auth.cleanCPF (Auth.cpf body')))
              (DB.users db) user) as (existing & -> & Hp).
  { rewrite Huser. cbn [User.cpf]. rewrite Hcpf, String.eqb_refl. apply orb_true_r. }
  destruct (String.eqb (User.email existing) (Auth.email body')).
  - eexists. split; [reflexivity|]. apply failsWith_createError. discriminate.
  - cbn [orb] in Hp. rewrite Hp.
    eexists. split; [reflexivity|]. apply failsWith_createError. discriminate.
Qed.

Lemma same_cpf_refused_again_witness :
  let caio :=
    User.mk "u3" "caio@example.org" "39053344705" "Caio" "Reis" None
      (Some (CalendarDate.mk 1995 6 1)) (Some "bcrypt:Senha#123") false true
      "DEADBEEF" None in
  let db' := DB.set_users (fun rows => (rows ++ [caio])%list) Sample.ledger in
  exists res,
    Auth.postRegister Sample.deps (Sample.env 6000 "u4")
      (Auth.mkBody "Caio" "Reis" "outro@example.org" "39053344705" None
         (CalendarDate.mk 1995 6 1) "Senha#123" "Senha#123" None) db'
    = Some (res, db')
    /\ failsWith 409 res.
Proof.
  intros caio db'.
  apply (same_cpf_refused_again Sample.deps (Sample.env 5000 "u3") (Sample.env 6000 "u4")
           (Sample.caio "caio@example.org" None) _ Sample.ledger db' caio);
    reflexivity.
Defined.

(** ** The adaptive rate limit *)

Lemma adaptiveRateLimit_counted now ip clients c R :
  clients !! ip = Some (Performance.mkClient c R) ->
  (now <= R)%Z ->
  Performance.adaptiveRateLimit true now ip clients
  = (Return (negb (10 <? c + 1)%Z), <[ip := Performance.mkClient (c + 1) R]> clients).
Proof.
  intros Hc Hnow. unfold Performance.adaptiveRateLimit, Performance.getClientRequestCount.
  run_handler. rewrite Hc. cbn [Performance.resetTime Performance.count].
  destruct (Z.ltb_spec R now); [lia|]. cbn [fst snd].
  destruct (10 <? c + 1)%Z; reflexivity.
Qed.

Lemma burst_counted times ip clients c R :
  clients !! ip = Some (Performance.mkClient c R) ->
  Forall (fun now => now <= R)%Z times ->
  burst times ip clients
  = map (fun k => Return (negb (10 <? c + 1 + Z.of_nat k)%Z)) (seq 0 (length times)).
Proof.
  revert clients c. induction times as [|now rest IH]; intros clients c Hc Hall.
  - reflexivity.
  - apply Forall_cons_iff in Hall as [Hnow Hrest].
    cbn [burst length seq map].
    rewrite (adaptiveRateLimit_counted now ip clients c R Hc Hnow). cbn [fst snd].
    rewrite Z.add_0_r. f_equal.
    rewrite (IH (<[ip := Performance.mkClient (c + 1) R]> clients) (c + 1)%Z);
      [|apply lookup_insert_eq|exact Hrest].
    rewrite <- seq_shift, map_map. apply map_ext. intros k.
    do 3 f_equal. lia.
Qed.

(** X28: under memory stress, of the requests that a client not yet
    counted sends within one minute of its first, exactly the first
    ten are let through and every later one is answered 429; the
    refused requests are counted as well. *)
Theorem rate_limit_admits_ten
    (first : Z) (later : list Z) (ip : string) (clients : Performance.Clients) :
  clients !! ip = None ->
  Forall (fun now => now <= first + 60000)%Z later ->
  burst (first :: later) ip clients
  = map (fun k => Return (k <? 10)%nat) (seq 0 (S (length later))).
Proof.
  intros Hnone Hall. cbn [burst length seq map].
  unfold Performance.adaptiveRateLimit at 1 2, Performance.getClientRequestCount.
  run_handler. rewrite Hnone. cbn [fst snd]. f_equal.
  rewrite (burst_counted later ip _ 1 (first + 60000));
    [|apply lookup_insert_eq|exact Hall].
  rewrite <- seq_shift, map_map. apply map_ext. intros k.
  f_equal. destruct (Z.ltb_spec 10 (1 + 1 + Z.of_nat k));
    destruct (Nat.ltb_spec (S k) 10); cbn; try reflexivity; lia.
Qed.

Lemma rate_limit_admits_ten_witness :
  burst [0; 5; 5; 100; 200; 300; 400; 500; 600; 59000; 60000; 60000]%Z "10.0.0.7" ∅
  = [Return true; Return true; Return true; Return true; Return true; Return true;
     Return true; Return true; Return true; Return true; Return false; Return false].
Proof.
  apply (rate_limit_admits_ten 0 [5; 5; 100; 200; 300; 400; 500; 600; 59000; 60000; 60000]%Z
           "10.0.0.7" ∅).
  - reflexivity.
  - repeat constructor; lia.
Defined.

(** ** Masking of logged data *)

Lemma lowerAscii_not_capital (c : ascii) :
  Masking.lowerAscii c <> "N"%char /\ Masking.lowerAscii c <> "K"%char.
Proof.
  destruct c as [[] [] [] [] [] [] [] []]; vm_compute; split; discriminate.
Qed.

Lemma toLowerCase_not_cardNumber (key : string) :
  String.eqb (Masking.toLowerCase key) "cardNumber" = false.
Proof.
  apply String.eqb_neq. intros H.
  destruct key as [|c0 [|c1 [|c2 [|c3 [|c4 rest]]]]]; cbn in H; try discriminate.
  injection H as _ _ _ _ H4 _. exact (proj1 (lowerAscii_not_capital c4) H4).
Qed.

Lemma toLowerCase_not_pixKey (key : string) :
  String.eqb (Masking.toLowerCase key) "pixKey" = false.
Proof.
  apply String.eqb_neq. intros H.
  destruct key as [|c0 [|c1 [|c2 [|c3 rest]]]]; cbn in H; try discriminate.
  injection H as _ _ _ H3 _. exact (proj2 (lowerAscii_not_capital c3) H3).
Qed.

Lemma sensitive_is_protected (key : string) :
  existsb (String.eqb (Masking.toLowerCase key)) Masking.sensitiveFields
  = existsb (String.eqb (Masking.toLowerCase key)) protectedFields.
Proof.
  unfold Masking.sensitiveFields, protectedFields. cbn [existsb].
  rewrite toLowerCase_not_cardNumber, toLowerCase_not_pixKey.
  rewrite !orb_false_r, !orb_false_l. reflexivity.
Qed.

(** X29: in the object that [maskSensitiveData] returns, a text member
    is masked exactly when its key, lowercased, is one of password,
    cpf, cvv, account and agency.  The entries cardNumber and pixKey of
    the list never apply, because the key is lowercased before the
    comparison: a text stored under such a key, in any capitalization,
    is returned as it is. *)
Theorem mask_follows_lowercased_key
    (members : list (string * Json)) (key value : string) :
  In (key, JString value) members ->
  let masked := membersOf (Masking.maskSensitiveData (JObject members)) in
  In (key,
      JString (if existsb (String.eqb (Masking.toLowerCase key)) protectedFields
               then Masking.maskValue value else value)) masked
  /\ (Masking.toLowerCase key = "cardnumber" \/ Masking.toLowerCase key = "pixkey" ->
      In (key, JString value) masked).
Proof.
  intros Hin masked.
  assert (H : In (key,
                  JString (if existsb (String.eqb (Masking.toLowerCase key))
                                protectedFields
                           then Masking.maskValue value else value)) masked).
  { subst masked. unfold Masking.maskSensitiveData. cbn [Masking.maskObject membersOf].
    apply in_map_iff. exists (key, JString value). split; [|exact Hin].
    unfold Masking.maskMember. rewrite sensitive_is_protected.
    destruct (existsb _ protectedFields); reflexivity. }
  split; [exact H|]. intros [E|E]; rewrite E in H; exact H.
Qed.

Lemma mask_follows_lowercased_key_witness :
  Masking.maskSensitiveData
    (JObject [("holder", JString "Ana Souza"); ("cpf", JString "52998224725");
              ("cardNumber", JString "4111111111111111");
              ("pixKey", JString "ana@example.org")])
  = JObject [("holder", JString "Ana Souza"); ("cpf", JString "52*******25");
             ("cardNumber", JString "4111111111111111");
             ("pixKey", JString "ana@example.org")]
  /\ In ("cardNumber", JString "4111111111111111")
        (membersOf
           (Masking.maskSensitiveData
              (JObject [("holder", JString "Ana Souza"); ("cpf", JString "52998224725");
                        ("cardNumber", JString "4111111111111111");
                        ("pixKey", JString "ana@example.org")]))).
Proof.
  split; [vm_compute; reflexivity|].
  apply (mask_follows_lowercased_key
           [("holder", JString "Ana Souza"); ("cpf", JString "52998224725");
            ("cardNumber", JString "4111111111111111");
            ("pixKey", JString "ana@example.org")] "cardNumber" "4111111111111111").
  - cbn. auto.
  - left. reflexivity.
Defined.

(** ** Subscriptions *)

Lemma subscribe_offered env plans userId planId db :
  planOffered plans planId ->
  Subscriptions.subscribe env plans userId planId db
  = match DB.subscriptions db !! userId with
    | Some s =>
      if SubscriptionStatus.is_active (Subscription.status s) then
        (Throw (createError "Usuário já possui assinatura ativa" 400), db)
      else (Throw (Err.prisma "P2002" (Some "userId")), db)
    | None =>
      (Return (Subscription.mk (Env.cuid env) SubscriptionStatus.PENDING),
       Subscriptions.set_subscriptions
         (fun m => <[userId := Subscription.mk (Env.cuid env) SubscriptionStatus.PENDING]> m)
         db)
    end.
Proof.
  intros (id & -> & Hid & Hin). unfold Subscriptions.subscribe. run_handler.
  apply truthyS_iff in Hid. cbn [truthy_opt]. rewrite Hid. cbn [negb fst snd].
  change (default "" (Some id)) with id.
  destruct (find_some_of_In
              (fun p => String.eqb (Subscriptions.id p) id && Subscriptions.isActive p)
              plans (Subscriptions.mkPlan id true) Hin) as [plan ->].
  { cbn. rewrite String.eqb_refl. reflexivity. }
  destruct (DB.subscriptions db !! userId) as [s|]; [|reflexivity].
  destruct (SubscriptionStatus.is_active (Subscription.status s)); reflexivity.
Qed.

Lemma failsWith_P2002 {A} dev target :
  @failsWith A 409 (JsonFailure (ErrorHandler.errorHandler dev (Err.prisma "P2002" target))).
Proof. eexists. split; [reflexivity|]. destruct dev; repeat split. Qed.

(** X30: a user can subscribe once.  For a plan that exists and is
    active, the request is accepted exactly when the user has no
    subscription row, and the row created is PENDING; a user who has a
    row in any status other than ACTIVE (PENDING, PAST_DUE, CANCELED or
    UNPAID) is answered 409, because the row is created on the unique
    [userId], and nothing is written.  So the request that follows an
    accepted one is answered 409. *)
Theorem subscribe_accepted_once
    (env env' : Env.t) (plans : list Subscriptions.Plan) (userId : Id)
    (planId planId' : option string) (db : DB.t) :
  planOffered plans planId ->
  planOffered plans planId' ->
  let r := Subscriptions.postSubscribe env plans userId planId db in
  ((exists s, fst r = JsonSuccess 201 s) <-> DB.subscriptions db !! userId = None)
  /\ (forall s, DB.subscriptions db !! userId = Some s ->
        Subscription.status s <> SubscriptionStatus.ACTIVE ->
        failsWith 409 (fst r) /\ snd r = db)
  /\ (forall s, fst r = JsonSuccess 201 s ->
        Subscription.status s = SubscriptionStatus.PENDING
        /\ DB.subscriptions (snd r) !! userId = Some s
        /\ failsWith 409 (fst (Subscriptions.postSubscribe env' plans userId planId'
                                 (snd r)))).
Proof.
  intros Hplan Hplan'. cbv zeta. unfold Subscriptions.postSubscribe, serve.
  rewrite (subscribe_offered env plans userId planId db Hplan).
  destruct (DB.subscriptions db !! userId) as [s0|] eqn:Hrow.
  - destruct (SubscriptionStatus.is_active (Subscription.status s0)) eqn:Hactive.
    + split; [|split].
      * split; [intros [s Hs]; discriminate|discriminate].
      * intros s Hs Hstatus. injection Hs as <-.
        destruct (Subscription.status s0); try discriminate. congruence.
      * intros s Hs. discriminate.
    + split; [|split].
      * split; [intros [s Hs]; discriminate|discriminate].
      * intros s _ _. cbn [fst snd]. split; [|reflexivity].
        apply failsWith_P2002.
      * intros s Hs. discriminate.
  - cbn [fst snd]. split; [|split].
    + split; [reflexivity|eauto].
    + discriminate.
    + intros s Hs. injection Hs as <-. split; [reflexivity|].
      assert (Hnew : DB.subscriptions
                       (Subscriptions.set_subscriptions
                          (fun m => <[userId := Subscription.mk (Env.cuid env)
                                                  SubscriptionStatus.PENDING]> m) db)
                     !! userId
                     = Some (Subscription.mk (Env.cuid env) SubscriptionStatus.PENDING)).
      { cbn. apply lookup_insert_eq. }
      split; [exact Hnew|].
      rewrite (subscribe_offered env' plans userId planId' _ Hplan'), Hnew.
      cbn [Subscription.status SubscriptionStatus.is_active fst].
      apply failsWith_P2002.
Qed.

Lemma subscribe_accepted_once_witness :
  failsWith 409
    (fst (Subscriptions.postSubscribe (Sample.env 9000 "s9")
            [Subscriptions.mkPlan "basic" true] "u1" (Some "basic") Sample.registry)).
Proof.
  destruct (subscribe_accepted_once (Sample.env 9000 "s9") (Sample.env 9000 "s9")
              [Subscriptions.mkPlan "basic" true] "u1" (Some "basic") (Some "basic")
              Sample.registry) as (_ & H & _).
  - exists "basic". split; [reflexivity|]. split; [discriminate|]. cbn. auto.
  - exists "basic". split; [reflexivity|]. split; [discriminate|]. cbn. auto.
  - apply (H (Subscription.mk "s1" SubscriptionStatus.CANCELED)).
    + vm_compute. reflexivity.
    + discriminate.
Defined.
